(** * GenSVMgrid: the grid-search command line program of GenSVM

    A shallow embedding of [src/GenSVMgrid.c]: the command line parser, the
    grid-file reader, and [main] with its selection of the best task.  The
    functions of the other compilation units of the library that [main]
    calls (data input, queue construction, training, prediction) are the
    fields of the class [Collaborators]; every call to one of them is
    recorded in the run's list of calls. *)

From Stdlib Require Import ZArith List String Ascii Bool Lia.
From Stdlib Require Import SpecFloat.
Import ListNotations.
Local Open Scope Z_scope.
Local Open Scope string_scope.

Set Implicit Arguments.

(** ** Doubles

    A C [double] is an IEEE 754 binary64 number without NaN payload,
    [spec_float]; [a > b] in C is [SFltb b a], false as soon as one side is
    a NaN. *)

Definition double := spec_float.

Definition double_gt (a b : double) : bool := SFltb b a.

(** [(double) -1], the start value of [maxperf]. *)
Definition minus_one : double := S754_finite true 4503599627370496 (-52).

Definition d_2 : double := S754_finite false 4503599627370496 (-51).
Definition d_3 : double := S754_finite false 6755399441055744 (-51).
Definition d_5 : double := S754_finite false 5629499534213120 (-50).
Definition d_minus_2 : double := S754_finite true 4503599627370496 (-51).
(** The doubles nearest to 0.1 and 0.2. *)
Definition d_0_1 : double := S754_finite false 7205759403792794 (-56).
Definition d_0_2 : double := S754_finite false 7205759403792794 (-55).
Definition d_zero : double := S754_zero false.

(** ** Strings

    A C string is the [string] of its characters before the final NUL. *)

Definition nl : string := String (ascii_of_nat 10) EmptyString.

(** Modelled from the spec: [str_startswith] of gensvm_strutil.c, which is
    not among the sources; a line is recognised by its prefix. *)
Fixpoint str_startswith (str pre : string) {struct pre} : bool :=
  match pre with
  | EmptyString => true
  | String c pre' =>
      match str with
      | EmptyString => false
      | String d str' => if Ascii.eqb c d then str_startswith str' pre' else false
      end
  end.

Fixpoint drop (k : nat) (s : string) : string :=
  match k with
  | O => s
  | S k' => match s with EmptyString => EmptyString | String _ s' => drop k' s' end
  end.

(** Modelled from the spec: [str_endswith] of gensvm_strutil.c, which is not
    among the sources; the last characters of [str] are those of [suf]. *)
Definition str_endswith (str suf : string) : bool :=
  if (String.length str <? String.length suf)%nat then false
  else String.eqb (drop (String.length str - String.length suf) str) suf.

(** The characters [isspace] accepts in the C locale. *)
Definition isspace (c : ascii) : bool :=
  let k := nat_of_ascii c in
  ((k =? 32) || ((9 <=? k) && (k <=? 13)))%nat.

Fixpoint skip_spaces (s : string) : string :=
  match s with
  | EmptyString => EmptyString
  | String c s' => if isspace c then skip_spaces s' else s
  end.

Fixpoint take_word (s : string) : string :=
  match s with
  | EmptyString => EmptyString
  | String c s' => if isspace c then EmptyString else String c (take_word s')
  end.

(** [sscanf(buffer, "<key> %s\n", dest)] on a buffer that starts with
    [key]: the next word of the buffer, [None] when the input ends before a
    word is found and [dest] is not written. *)
Definition sscanf_word (buffer key : string) : option string :=
  match take_word (skip_spaces (drop (String.length key) buffer)) with
  | EmptyString => None
  | w => Some w
  end.

(** ** The structs

    Only the fields that GenSVMgrid.c reads or writes. *)

Inductive KernelType := K_LINEAR | K_POLY | K_RBF | K_SIGMOID.
Inductive TrainType := CV | TT.

Definition KernelType_eqb (a b : KernelType) : bool :=
  match a, b with
  | K_LINEAR, K_LINEAR | K_POLY, K_POLY | K_RBF, K_RBF | K_SIGMOID, K_SIGMOID => true
  | _, _ => false
  end.

Record GenGrid := mkGrid {
  traintype : TrainType;
  kerneltype : KernelType;
  folds : Z;
  repeats : Z;
  percentile : double;
  Np : Z; Nl : Z; Nk : Z; Ne : Z; Nw : Z; Ng : Z; Nc : Z; Nd : Z;
  weight_idxs : list Z;
  ps : list double;
  lambdas : list double;
  kappas : list double;
  epsilons : list double;
  gammas : list double;
  coefs : list double;
  degrees : list double;
  train_data_file : option string;
  test_data_file : option string
}.

Record GenTask := mkTask {
  ID : Z;
  performance : double
}.

(** [q->tasks], with [q->N] its length. *)
Record GenQueue := mkQueue {
  tasks : list GenTask
}.


(** Field updates of [struct GenGrid]. *)
Definition set_traintype (v : TrainType) (g : GenGrid) : GenGrid :=
  mkGrid v (kerneltype g) (folds g) (repeats g) (percentile g)
    (Np g) (Nl g) (Nk g) (Ne g) (Nw g) (Ng g) (Nc g) (Nd g)
    (weight_idxs g) (ps g) (lambdas g) (kappas g) (epsilons g)
    (gammas g) (coefs g) (degrees g) (train_data_file g) (test_data_file g).

Definition set_kerneltype (v : KernelType) (g : GenGrid) : GenGrid :=
  mkGrid (traintype g) v (folds g) (repeats g) (percentile g)
    (Np g) (Nl g) (Nk g) (Ne g) (Nw g) (Ng g) (Nc g) (Nd g)
    (weight_idxs g) (ps g) (lambdas g) (kappas g) (epsilons g)
    (gammas g) (coefs g) (degrees g) (train_data_file g) (test_data_file g).

Definition set_folds (v : Z) (g : GenGrid) : GenGrid :=
  mkGrid (traintype g) (kerneltype g) v (repeats g) (percentile g)
    (Np g) (Nl g) (Nk g) (Ne g) (Nw g) (Ng g) (Nc g) (Nd g)
    (weight_idxs g) (ps g) (lambdas g) (kappas g) (epsilons g)
    (gammas g) (coefs g) (degrees g) (train_data_file g) (test_data_file g).

Definition set_repeats (v : Z) (g : GenGrid) : GenGrid :=
  mkGrid (traintype g) (kerneltype g) (folds g) v (percentile g)
    (Np g) (Nl g) (Nk g) (Ne g) (Nw g) (Ng g) (Nc g) (Nd g)
    (weight_idxs g) (ps g) (lambdas g) (kappas g) (epsilons g)
    (gammas g) (coefs g) (degrees g) (train_data_file g) (test_data_file g).

Definition set_percentile (v : double) (g : GenGrid) : GenGrid :=
  mkGrid (traintype g) (kerneltype g) (folds g) (repeats g) v
    (Np g) (Nl g) (Nk g) (Ne g) (Nw g) (Ng g) (Nc g) (Nd g)
    (weight_idxs g) (ps g) (lambdas g) (kappas g) (epsilons g)
    (gammas g) (coefs g) (degrees g) (train_data_file g) (test_data_file g).

(** [grid->ps = ...; grid->Np = nr;] and its siblings. *)
Definition set_ps (v : list double) (nr : Z) (g : GenGrid) : GenGrid :=
  mkGrid (traintype g) (kerneltype g) (folds g) (repeats g) (percentile g)
    nr (Nl g) (Nk g) (Ne g) (Nw g) (Ng g) (Nc g) (Nd g)
    (weight_idxs g) v (lambdas g) (kappas g) (epsilons g)
    (gammas g) (coefs g) (degrees g) (train_data_file g) (test_data_file g).

Definition set_lambdas (v : list double) (nr : Z) (g : GenGrid) : GenGrid :=
  mkGrid (traintype g) (kerneltype g) (folds g) (repeats g) (percentile g)
    (Np g) nr (Nk g) (Ne g) (Nw g) (Ng g) (Nc g) (Nd g)
    (weight_idxs g) (ps g) v (kappas g) (epsilons g)
    (gammas g) (coefs g) (degrees g) (train_data_file g) (test_data_file g).

Definition set_kappas (v : list double) (nr : Z) (g : GenGrid) : GenGrid :=
  mkGrid (traintype g) (kerneltype g) (folds g) (repeats g) (percentile g)
    (Np g) (Nl g) nr (Ne g) (Nw g) (Ng g) (Nc g) (Nd g)
    (weight_idxs g) (ps g) (lambdas g) v (epsilons g)
    (gammas g) (coefs g) (degrees g) (train_data_file g) (test_data_file g).

Definition set_epsilons (v : list double) (nr : Z) (g : GenGrid) : GenGrid :=
  mkGrid (traintype g) (kerneltype g) (folds g) (repeats g) (percentile g)
    (Np g) (Nl g) (Nk g) nr (Nw g) (Ng g) (Nc g) (Nd g)
    (weight_idxs g) (ps g) (lambdas g) (kappas g) v
    (gammas g) (coefs g) (degrees g) (train_data_file g) (test_data_file g).

Definition set_weight_idxs (v : list Z) (nr : Z) (g : GenGrid) : GenGrid :=
  mkGrid (traintype g) (kerneltype g) (folds g) (repeats g) (percentile g)
    (Np g) (Nl g) (Nk g) (Ne g) nr (Ng g) (Nc g) (Nd g)
    v (ps g) (lambdas g) (kappas g) (epsilons g)
    (gammas g) (coefs g) (degrees g) (train_data_file g) (test_data_file g).

Definition set_gammas (v : list double) (nr : Z) (g : GenGrid) : GenGrid :=
  mkGrid (traintype g) (kerneltype g) (folds g) (repeats g) (percentile g)
    (Np g) (Nl g) (Nk g) (Ne g) (Nw g) nr (Nc g) (Nd g)
    (weight_idxs g) (ps g) (lambdas g) (kappas g) (epsilons g)
    v (coefs g) (degrees g) (train_data_file g) (test_data_file g).

Definition set_coefs (v : list double) (nr : Z) (g : GenGrid) : GenGrid :=
  mkGrid (traintype g) (kerneltype g) (folds g) (repeats g) (percentile g)
    (Np g) (Nl g) (Nk g) (Ne g) (Nw g) (Ng g) nr (Nd g)
    (weight_idxs g) (ps g) (lambdas g) (kappas g) (epsilons g)
    (gammas g) v (degrees g) (train_data_file g) (test_data_file g).

Definition set_degrees (v : list double) (nr : Z) (g : GenGrid) : GenGrid :=
  mkGrid (traintype g) (kerneltype g) (folds g) (repeats g) (percentile g)
    (Np g) (Nl g) (Nk g) (Ne g) (Nw g) (Ng g) (Nc g) nr
    (weight_idxs g) (ps g) (lambdas g) (kappas g) (epsilons g)
    (gammas g) (coefs g) v (train_data_file g) (test_data_file g).

(** [grid->Ng = 0;] alone: the array [grid->gammas] is left as it was. *)
Definition set_Ng (nr : Z) (g : GenGrid) : GenGrid := set_gammas (gammas g) nr g.
Definition set_Nc (nr : Z) (g : GenGrid) : GenGrid := set_coefs (coefs g) nr g.
Definition set_Nd (nr : Z) (g : GenGrid) : GenGrid := set_degrees (degrees g) nr g.

Definition set_train_data_file (v : option string) (g : GenGrid) : GenGrid :=
  mkGrid (traintype g) (kerneltype g) (folds g) (repeats g) (percentile g)
    (Np g) (Nl g) (Nk g) (Ne g) (Nw g) (Ng g) (Nc g) (Nd g)
    (weight_idxs g) (ps g) (lambdas g) (kappas g) (epsilons g)
    (gammas g) (coefs g) (degrees g) v (test_data_file g).

Definition set_test_data_file (v : option string) (g : GenGrid) : GenGrid :=
  mkGrid (traintype g) (kerneltype g) (folds g) (repeats g) (percentile g)
    (Np g) (Nl g) (Nk g) (Ne g) (Nw g) (Ng g) (Nc g) (Nd g)
    (weight_idxs g) (ps g) (lambdas g) (kappas g) (epsilons g)
    (gammas g) (coefs g) (degrees g) (train_data_file g) v.

(** The conversion of a [long] to the [int] of [grid->weight_idxs]. *)
Definition long_to_int (v : Z) : Z := (v + 2147483648) mod 4294967296 - 2147483648.

(** ** Datasets and models

    The dense matrix ([double *]), the sparse matrix ([struct GenSparse]) and
    the model ([struct GenModel]) are laid out in other files of the
    library; [main] only passes them on, and reads the kernel of a model. *)

Class Matrices := {
  Dense : Type;
  Sparse : Type;
  GenModel : Type;
  model_kerneltype : GenModel -> KernelType
}.

(** [struct GenData]: [Z_] is the field [Z], [None] a NULL pointer. *)
Record GenData `{Matrices} := mkData {
  Z_ : option Dense;
  RAW : option Dense;
  spZ : option Sparse;
  y : option (list Z);
  n : Z
}.
Arguments GenData {_}.
Arguments mkData {_} _ _ _ _ _.

(** ** The process: streams, calls, exit *)

Inductive Stream := c_stdout | c_stderr.

(** The calls [main] makes into the rest of the library, with the values
    they are given.  The allocation and the release of the structures
    ([gensvm_init_grid], [gensvm_init_data], [gensvm_init_queue],
    [gensvm_init_model], [gensvm_free_data], [gensvm_free_queue],
    [gensvm_free_grid], [gensvm_free_model], [free]) and the tests of the
    arguments ([gensvm_check_argv], [gensvm_check_argv_eq]) are not
    recorded. *)
Inductive Call `{Matrices} :=
  | call_read_data (libsvm_format : bool) (file : option string)
  | call_check_outcome_contiguous (data : GenData)
  | call_sparse_to_dense (sp : option Sparse)
  | call_free_sparse (sp : option Sparse)
  | call_fill_queue (grid : GenGrid) (train_data : GenData) (test_data : option GenData)
  | call_srand (seed : Z)
  | call_train_queue (q : GenQueue)
  | call_consistency_repeats (q : GenQueue) (repeats : Z) (percentile : double)
  | call_task_to_model (best_task : option GenTask)
  | call_train (model : GenModel) (train_data : GenData)
  | call_kernel_postprocess (model : GenModel) (train_data test_data : GenData)
  | call_predict_labels (test_data : GenData) (model : GenModel)
  | call_prediction_perf (test_data : GenData) (predy : list Z)
  | call_write_predictions (test_data : GenData) (predy : list Z) (file : option string).
Arguments Call {_}.

(** The two global streams of gensvm_print.c, what the process has written
    (oldest first) and the calls it has made (oldest first). *)
Record World `{Matrices} := mkWorld {
  GENSVM_OUTPUT_FILE : option Stream;
  GENSVM_ERROR_FILE : option Stream;
  stdout : list string;
  stderr : list string;
  calls : list Call
}.
Arguments World {_}.
Arguments mkWorld {_} _ _ _ _ _.

Definition EXIT_FAILURE : Z := 1.

(** A computation returns a value or ends the process with [exit(status)]. *)
Inductive Result (A : Type) :=
  | Ret (a : A)
  | Exit (status : Z).
Arguments Exit {A} status.

Definition M `{Matrices} (A : Type) : Type := World -> Result A * World.

Definition ret `{Matrices} {A : Type} (a : A) : M A := fun w => (Ret a, w).

Definition bind `{Matrices} {A B : Type} (c : M A) (k : A -> M B) : M B :=
  fun w =>
    match c w with
    | (Ret a, w') => k a w'
    | (Exit s, w') => (Exit s, w')
    end.

Definition exit `{Matrices} {A : Type} (status : Z) : M A := fun w => (Exit status, w).

Declare Scope proc_scope.
Delimit Scope proc_scope with proc.
Notation "x <- c ;; k" := (bind c (fun x => k))
  (at level 61, c at next level, right associativity) : proc_scope.
Notation "c ;; k" := (bind c (fun _ => k))
  (at level 61, right associativity) : proc_scope.
Local Open Scope proc_scope.

Definition write `{Matrices} (s : Stream) (msg : string) : M unit :=
  fun w =>
    (Ret tt,
     match s with
     | c_stdout => mkWorld (GENSVM_OUTPUT_FILE w) (GENSVM_ERROR_FILE w)
                     (stdout w ++ [msg]) (stderr w) (calls w)
     | c_stderr => mkWorld (GENSVM_OUTPUT_FILE w) (GENSVM_ERROR_FILE w)
                     (stdout w) (stderr w ++ [msg]) (calls w)
     end).

(** [printf(...)] and [fprintf(stderr, ...)]. *)
Definition printf `{Matrices} (msg : string) : M unit := write c_stdout msg.
Definition fprintf_stderr `{Matrices} (msg : string) : M unit := write c_stderr msg.

(** Modelled from the spec: [note] of gensvm_print.c, which is not among
    the sources; it writes to [GENSVM_OUTPUT_FILE] unless that is NULL. *)
Definition note `{Matrices} (msg : string) : M unit :=
  fun w =>
    match GENSVM_OUTPUT_FILE w with
    | Some s => write s msg w
    | None => (Ret tt, w)
    end.

(** Modelled from the spec: [err] of gensvm_print.c, which is not among the
    sources; it writes to [GENSVM_ERROR_FILE] unless that is NULL. *)
Definition err `{Matrices} (msg : string) : M unit :=
  fun w =>
    match GENSVM_ERROR_FILE w with
    | Some s => write s msg w
    | None => (Ret tt, w)
    end.

Definition set_streams `{Matrices} (o e : option Stream) : M unit :=
  fun w => (Ret tt, mkWorld o e (stdout w) (stderr w) (calls w)).

Definition call `{Matrices} (c : Call) : M unit :=
  fun w =>
    (Ret tt, mkWorld (GENSVM_OUTPUT_FILE w) (GENSVM_ERROR_FILE w)
               (stdout w) (stderr w) (calls w ++ [c])).

(** ** The rest of the library

    What GenSVMgrid.c takes from the C library, the file system and the
    other files of GenSVM.  The functions that end the process on a file
    they cannot read return [None] there. *)

Class Collaborators `{Matrices} := {
  VERSION_STRING : string;
  (** [time(NULL)] and [atoi] *)
  time_NULL : Z;
  atoi : string -> Z;
  (** [fopen(name, "r")] followed by [fgets] until it returns NULL: the
      buffers read in turn, [None] when the file cannot be opened *)
  fopen_r : string -> option (list string);
  (** what a [char] array of the stack holds before it is written *)
  stack_garbage : string;
  (** gensvm_strutil.c: the numbers found in [buffer] from [offset] on *)
  all_doubles_str : string -> Z -> list double;
  all_longs_str : string -> Z -> list Z;
  (** gensvm_cmdarg.c *)
  gensvm_check_argv : list string -> string -> bool;
  gensvm_check_argv_eq : list string -> string -> bool;
  (** printf conversions [%3.2f] and [%li] *)
  fmt_3_2f : double -> string;
  fmt_li : Z -> string;
  gensvm_init_grid : GenGrid;
  gensvm_read_data : option string -> option GenData;
  gensvm_read_data_libsvm : option string -> option GenData;
  gensvm_sparse_to_dense : option Sparse -> Dense;
  gensvm_fill_queue : GenGrid -> GenData -> option GenData -> GenQueue;
  (** training draws from [rand()], seeded by [main] *)
  gensvm_train_queue : Z -> GenQueue -> GenQueue;
  gensvm_consistency_repeats : Z -> GenQueue -> Z -> double -> Z;
  gensvm_task_to_model : option GenTask -> GenModel;
  gensvm_train : GenModel -> GenData -> GenModel * GenData;
  gensvm_kernel_postprocess : GenModel -> GenData -> GenData -> GenModel * GenData * GenData;
  gensvm_predict_labels : GenData -> GenModel -> list Z;
  gensvm_prediction_perf : GenData -> list Z -> double
}.

(** Modelled from the spec: [gensvm_check_outcome_contiguous] of
    gensvm_checks.c, which is not among the sources; the labels must be
    contiguous positive integers starting at 1 with no gaps, that is, every
    label is at least 1 and every integer from 1 to the greatest label
    occurs. *)
Definition labels_contiguous (ys : list Z) : bool :=
  forallb (fun v => (1 <=? v)%Z) ys &&
  forallb (fun k => existsb (Z.eqb k) ys)
    (map Z.of_nat (seq 1 (Z.to_nat (fold_right Z.max 0 ys)))).

Definition gensvm_check_outcome_contiguous `{Matrices} (data : GenData) : bool :=
  match y data with
  | Some ys => labels_contiguous ys
  | None => false
  end.

(** ** GenSVMgrid.c *)

Definition MINARGS : Z := 2.

Definition dq : string := String (ascii_of_nat 34) EmptyString.

Definition char_at (k : nat) (s : string) : ascii :=
  match String.get k s with
  | Some c => c
  | None => Ascii.zero
  end.

Definition show_str (s : option string) : string :=
  match s with
  | Some t => t
  | None => "(null)"
  end.

(** The selection loop of [main], run when [grid->repeats] is not
    positive: [maxperf] and [best_ID] after the tasks [ts]. *)
Fixpoint select_scan (ts : list GenTask) (maxperf : double) (best_ID : Z)
    : double * Z :=
  match ts with
  | [] => (maxperf, best_ID)
  | t :: rest =>
      if double_gt (performance t) maxperf
      then select_scan rest (performance t) (ID t)
      else select_scan rest maxperf best_ID
  end.

(** [best_ID] starts at -1 and [maxperf] at -1. *)
Definition simple_selection (q : GenQueue) : Z :=
  snd (select_scan (tasks q) minus_one (-1)).

(** The loop of [main] that looks the best task up: no [break], so the
    last task with the identifier stays in [best_task]. *)
Fixpoint find_best_task (ts : list GenTask) (best_ID : Z)
    (best_task : option GenTask) : option GenTask :=
  match ts with
  | [] => best_task
  | t :: rest =>
      find_best_task rest best_ID (if (ID t =? best_ID)%Z then Some t else best_task)
  end.

Section Program.
Context `{Collaborators}.

Definition exit_with_help {A : Type} (argv : list string) : M A :=
  printf ("This is GenSVM, version " ++ VERSION_STRING ++ "." ++ nl) ;;
  printf ("Copyright (C) 2016, G.J.J. van den Burg." ++ nl) ;;
  printf ("This program is free software, see the LICENSE file for details."
          ++ nl ++ nl) ;;
  printf ("Usage: " ++ nth 0 argv "" ++ " [options] grid_file" ++ nl) ;;
  printf ("Options:" ++ nl) ;;
  printf ("-h | -help : print this help." ++ nl) ;;
  printf ("-o prediction_output : write predictions of test data to file "
          ++ "(uses stdout if not provided)" ++ nl) ;;
  printf ("-q         : quiet mode (no output, not even errors!)" ++ nl) ;;
  printf ("-x         : data files are in LibSVM/SVMlight format" ++ nl) ;;
  printf ("-z         : seed for the random number generator" ++ nl) ;;
  exit EXIT_FAILURE.

(** The [for] loop of [parse_command_line] with the test that follows it:
    [args] is [argv] from index [i] on. *)
Fixpoint parse_command_line_loop (argv args : list string) (seed : Z)
    (prediction_outputfile : option string)
    : M (Z * string * option string) :=
  match args with
  | [] => exit_with_help argv
  | a :: rest =>
      if negb (Ascii.eqb (char_at 0 a) "-"%char) then
        ret (seed, a, prediction_outputfile)
      else
        match rest with
        | [] => exit_with_help argv
        | b :: rest' =>
            let c := char_at 1 a in
            if Ascii.eqb c "o"%char then
              parse_command_line_loop argv rest' seed (Some b)
            else if Ascii.eqb c "q"%char then
              set_streams None None ;;
              parse_command_line_loop argv rest seed prediction_outputfile
            else if Ascii.eqb c "x"%char then
              parse_command_line_loop argv rest seed prediction_outputfile
            else if Ascii.eqb c "z"%char then
              parse_command_line_loop argv rest' (atoi b) prediction_outputfile
            else
              fprintf_stderr ("Unknown option: -" ++ String c EmptyString ++ nl) ;;
              exit_with_help argv
        end
  end.

(** Returns the seed, the grid file name and the prediction output file. *)
Definition parse_command_line (argv : list string) (prediction_outputfile : option string)
    : M (Z * string * option string) :=
  set_streams (Some c_stdout) (Some c_stderr) ;;
  parse_command_line_loop argv (tl argv) time_NULL prediction_outputfile.

Definition parse_kernel_str (kernel_line : string) : M KernelType :=
  if str_endswith kernel_line ("LINEAR" ++ nl) then ret K_LINEAR
  else if str_endswith kernel_line ("POLY" ++ nl) then ret K_POLY
  else if str_endswith kernel_line ("RBF" ++ nl) then ret K_RBF
  else if str_endswith kernel_line ("SIGMOID" ++ nl) then ret K_SIGMOID
  else
    fprintf_stderr ("Unknown kernel specified on line: " ++ kernel_line ++ nl) ;;
    exit EXIT_FAILURE.

(** The two file name buffers of [read_grid_from_file]. *)
Record Buffers := mkBuffers {
  train_filename : string;
  test_filename : string
}.

Definition count {A : Type} (l : list A) : Z := Z.of_nat (List.length l).

(** One turn of the [while] loop of [read_grid_from_file], on the line in
    [buffer]. *)
Definition read_grid_line (buffer : string) (st : GenGrid * Buffers)
    : M (GenGrid * Buffers) :=
  let grid := fst st in
  let bufs := snd st in
  if str_startswith buffer "train:" then
    let name := match sscanf_word buffer "train:" with
                | Some w => w
                | None => train_filename bufs
                end in
    ret (set_train_data_file (Some name) grid, mkBuffers name (test_filename bufs))
  else if str_startswith buffer "test:" then
    let name := match sscanf_word buffer "test:" with
                | Some w => w
                | None => test_filename bufs
                end in
    ret (set_test_data_file (Some name) grid, mkBuffers (train_filename bufs) name)
  else if str_startswith buffer "p:" then
    let params := all_doubles_str buffer 2 in
    ret (set_ps params (count params) grid, bufs)
  else if str_startswith buffer "lambda:" then
    let params := all_doubles_str buffer 7 in
    ret (set_lambdas params (count params) grid, bufs)
  else if str_startswith buffer "kappa:" then
    let params := all_doubles_str buffer 6 in
    ret (set_kappas params (count params) grid, bufs)
  else if str_startswith buffer "epsilon:" then
    let params := all_doubles_str buffer 8 in
    ret (set_epsilons params (count params) grid, bufs)
  else if str_startswith buffer "weight:" then
    let lparams := all_longs_str buffer 7 in
    ret (set_weight_idxs (map long_to_int lparams) (count lparams) grid, bufs)
  else if str_startswith buffer "folds:" then
    let lparams := all_longs_str buffer 6 in
    let grid' := set_folds (nth 0 lparams 0) grid in
    (if (1 <? count lparams)%Z then
       fprintf_stderr ("Field " ++ dq ++ "folds" ++ dq
         ++ " only takes one value. Additional fields are ignored." ++ nl)
     else ret tt) ;;
    ret (grid', bufs)
  else if str_startswith buffer "repeats:" then
    let lparams := all_longs_str buffer 8 in
    let grid' := set_repeats (nth 0 lparams 0) grid in
    (if (1 <? count lparams)%Z then
       fprintf_stderr ("Field " ++ dq ++ "repeats" ++ dq
         ++ " only takes one value. Additional fields are ignored." ++ nl)
     else ret tt) ;;
    ret (grid', bufs)
  else if str_startswith buffer "percentile:" then
    let params := all_doubles_str buffer 11 in
    let grid' := set_percentile (nth 0 params d_zero) grid in
    (if (1 <? count params)%Z then
       fprintf_stderr ("Field " ++ dq ++ "percentile" ++ dq
         ++ " only takes one value. Additional fields are ignored." ++ nl)
     else ret tt) ;;
    ret (grid', bufs)
  else if str_startswith buffer "kernel:" then
    k <- parse_kernel_str buffer ;;
    ret (set_kerneltype k grid, bufs)
  else if str_startswith buffer "gamma:" then
    let params := all_doubles_str buffer 6 in
    if KernelType_eqb (kerneltype grid) K_LINEAR then
      fprintf_stderr ("Field " ++ dq ++ "gamma" ++ dq
        ++ " ignored, linear kernel is used." ++ nl) ;;
      ret (set_Ng 0 grid, bufs)
    else
      ret (set_gammas params (count params) grid, bufs)
  else if str_startswith buffer "coef:" then
    let params := all_doubles_str buffer 5 in
    if KernelType_eqb (kerneltype grid) K_LINEAR
       || KernelType_eqb (kerneltype grid) K_RBF then
      fprintf_stderr ("Field " ++ dq ++ "coef" ++ dq
        ++ " ignored with specified kernel." ++ nl) ;;
      ret (set_Nc 0 grid, bufs)
    else
      ret (set_coefs params (count params) grid, bufs)
  else if str_startswith buffer "degree:" then
    let params := all_doubles_str buffer 7 in
    if negb (KernelType_eqb (kerneltype grid) K_POLY) then
      fprintf_stderr ("Field " ++ dq ++ "degree" ++ dq
        ++ " ignored with specified kernel." ++ nl) ;;
      ret (set_Nd 0 grid, bufs)
    else
      ret (set_degrees params (count params) grid, bufs)
  else
    fprintf_stderr ("Cannot find any parameters on line: " ++ buffer ++ nl) ;;
    ret (grid, bufs).

(** The [while] loop over the lines [fgets] delivers. *)
Fixpoint read_grid_lines (lines : list string) (st : GenGrid * Buffers)
    : M (GenGrid * Buffers) :=
  match lines with
  | [] => ret st
  | buffer :: rest =>
      st' <- read_grid_line buffer st ;;
      read_grid_lines rest st'
  end.

Definition read_grid_from_file (input_filename : string) (grid : GenGrid) : M GenGrid :=
  match fopen_r input_filename with
  | None =>
      fprintf_stderr ("Error opening grid file " ++ input_filename ++ nl) ;;
      exit EXIT_FAILURE
  | Some lines =>
      st <- read_grid_lines lines
              (set_traintype CV grid, mkBuffers stack_garbage stack_garbage) ;;
      ret (fst st)
  end.

Definition read_data (libsvm_format : bool) (file : option string) : M GenData :=
  call (call_read_data libsvm_format file) ;;
  match (if libsvm_format then gensvm_read_data_libsvm file
         else gensvm_read_data file) with
  | Some data => ret data
  | None => exit EXIT_FAILURE
  end.

Definition is_NULL {A : Type} (p : option A) : bool :=
  match p with
  | Some _ => false
  | None => true
  end.

Definition sparse_warning : string :=
  "[GenSVM Warning]: Sparse matrices with nonlinear kernels "
  ++ "are not yet supported. Dense matrices will be used." ++ nl.

(** [main], the training data: sparse and a kernel that is not linear. *)
Definition main_dense_train (grid : GenGrid) (train_data : GenData) : M GenData :=
  if is_NULL (Z_ train_data) && negb (KernelType_eqb (kerneltype grid) K_LINEAR) then
    err sparse_warning ;;
    call (call_sparse_to_dense (spZ train_data)) ;;
    let raw := gensvm_sparse_to_dense (spZ train_data) in
    call (call_free_sparse (spZ train_data)) ;;
    ret (mkData (Some raw) (Some raw) (spZ train_data) (y train_data) (n train_data))
  else ret train_data.

(** [main], the test data: sparse and a model whose kernel is not linear. *)
Definition main_dense_test (best_model : GenModel) (test_data : GenData) : M GenData :=
  if is_NULL (Z_ test_data)
     && negb (KernelType_eqb (model_kerneltype best_model) K_LINEAR) then
    err sparse_warning ;;
    call (call_sparse_to_dense (spZ test_data)) ;;
    let dense := gensvm_sparse_to_dense (spZ test_data) in
    call (call_free_sparse (spZ test_data)) ;;
    ret (mkData (Some dense) (RAW test_data) (spZ test_data) (y test_data) (n test_data))
  else ret test_data.

(** [main], the choice of [best_ID]. *)
Definition main_select (seed : Z) (grid : GenGrid) (q : GenQueue) : M Z :=
  if (0 <? repeats grid)%Z then
    call (call_consistency_repeats q (repeats grid) (percentile grid)) ;;
    ret (gensvm_consistency_repeats seed q (repeats grid) (percentile grid))
  else
    ret (simple_selection q).

Fixpoint print_labels (predy : list Z) : M unit :=
  match predy with
  | [] => ret tt
  | l :: rest => printf (fmt_li l ++ " ") ;; print_labels rest
  end.

(** [main], the block run when there is test data. *)
Definition main_predict (argv : list string) (prediction_outputfile : option string)
    (q : GenQueue) (best_ID : Z) (train_data test_data : GenData) : M unit :=
  let best_task := find_best_task (tasks q) best_ID None in
  call (call_task_to_model best_task) ;;
  let best_model := gensvm_task_to_model best_task in
  call (call_train best_model train_data) ;;
  let trained := gensvm_train best_model train_data in
  test_data <- main_dense_test (fst trained) test_data ;;
  call (call_kernel_postprocess (fst trained) (snd trained) test_data) ;;
  let post := gensvm_kernel_postprocess (fst trained) (snd trained) test_data in
  let best_model := fst (fst post) in
  let test_data := snd post in
  call (call_predict_labels test_data best_model) ;;
  let predy := gensvm_predict_labels test_data best_model in
  (if is_NULL (y test_data) then ret tt
   else
     call (call_prediction_perf test_data predy) ;;
     note ("Predictive performance: "
           ++ fmt_3_2f (gensvm_prediction_perf test_data predy) ++ "%" ++ nl)) ;;
  if gensvm_check_argv_eq argv "-o" then
    call (call_write_predictions test_data predy prediction_outputfile) ;;
    note ("Prediction written to: " ++ show_str prediction_outputfile ++ nl)
  else
    print_labels predy ;;
    printf nl.

Definition labels_error : string :=
  "[GenSVM Error]: Class labels should start from 1 and "
  ++ "have no gaps. Please reformat your data." ++ nl.

(** [main], the reading of the training data and of the test data. *)
Definition main_load (argv : list string) (grid : GenGrid)
    : M (GenData * option GenData) :=
  let libsvm_format := gensvm_check_argv argv "-x" in
  note ("Reading data from " ++ show_str (train_data_file grid) ++ nl) ;;
  train_data <- read_data libsvm_format (train_data_file grid) ;;
  match test_data_file grid with
  | Some file =>
      test_data <- read_data libsvm_format (Some file) ;;
      ret (train_data, Some test_data)
  | None => ret (train_data, None)
  end.

(** [main], from the check for sparse training data to the end. *)
Definition main_search (argv : list string) (seed : Z)
    (prediction_outputfile : option string) (grid : GenGrid)
    (train_data : GenData) (test_data : option GenData) : M Z :=
  train_data <- main_dense_train grid train_data ;;
  note ("Creating queue" ++ nl) ;;
  call (call_fill_queue grid train_data test_data) ;;
  let q := gensvm_fill_queue grid train_data test_data in
  call (call_srand seed) ;;
  note ("Starting training" ++ nl) ;;
  call (call_train_queue q) ;;
  let q := gensvm_train_queue seed q in
  note ("Training finished" ++ nl) ;;
  best_ID <- main_select seed grid q ;;
  match test_data with
  | Some td => main_predict argv prediction_outputfile q best_ID train_data td
  | None => ret tt
  end ;;
  note ("Done." ++ nl) ;;
  ret 0%Z.

(** [main], from the reading of the data on. *)
Definition main_run (argv : list string) (seed : Z)
    (prediction_outputfile : option string) (grid : GenGrid) : M Z :=
  data <- main_load argv grid ;;
  call (call_check_outcome_contiguous (fst data)) ;;
  call (call_check_outcome_contiguous (fst data)) ;;
  if negb (gensvm_check_outcome_contiguous (fst data)) then
    err labels_error ;;
    exit EXIT_FAILURE
  else
    main_search argv seed prediction_outputfile grid (fst data) (snd data).

(** [main(argc, argv)] with [argc] the length of [argv]; the value is the
    exit status when [main] returns. *)
Definition main (argv : list string) : M Z :=
  if (count argv <? MINARGS)%Z || gensvm_check_argv argv "-help"
     || gensvm_check_argv_eq argv "-h" then
    exit_with_help argv
  else
    r <- parse_command_line argv None ;;
    let seed := fst (fst r) in
    let input_filename := snd (fst r) in
    let prediction_outputfile := snd r in
    note ("Reading grid file" ++ nl) ;;
    grid <- read_grid_from_file input_filename gensvm_init_grid ;;
    main_run argv seed prediction_outputfile grid.

End Program.

(** ** A concrete library

    Small stand-ins for the rest of the library, on which the program can be
    run: matrices are lists, a model is its kernel, files are looked up in
    a table, the queue after training and the kernel of the best model are given. *)

Module Sample.

Definition matrices : Matrices :=
  {| Dense := list double;
     Sparse := list (Z * Z * double);
     GenModel := KernelType;
     model_kerneltype := fun k => k |}.

Fixpoint lookup {A : Type} (name : string) (table : list (string * A)) : option A :=
  match table with
  | [] => None
  | (k, v) :: rest => if String.eqb k name then Some v else lookup name rest
  end.

(** The words of [s], where [w] (reversed) is the word being read. *)
Fixpoint words_from (s : string) (w : string) : list string :=
  match s with
  | EmptyString => match w with EmptyString => [] | _ => [w] end
  | String c s' =>
      if isspace c then
        match w with
        | EmptyString => words_from s' EmptyString
        | _ => w :: words_from s' EmptyString
        end
      else words_from s' (w ++ String c EmptyString)
  end.

Definition words (s : string) : list string := words_from s EmptyString.

Definition digit (c : ascii) : option Z :=
  let k := nat_of_ascii c in
  if ((48 <=? k) && (k <=? 57))%nat then Some (Z.of_nat (k - 48)) else None.

Fixpoint digits (s : string) (acc : Z) : option Z :=
  match s with
  | EmptyString => Some acc
  | String c s' =>
      match digit c with
      | Some d => digits s' (10 * acc + d)
      | None => None
      end
  end.

Definition long_of_word (w : string) : option Z :=
  match w with
  | EmptyString => None
  | String c w' =>
      if Ascii.eqb c "-"%char then
        match w' with
        | EmptyString => None
        | _ => option_map Z.opp (digits w' 0)
        end
      else digits w 0
  end.

Definition double_of_word (w : string) : option double :=
  lookup w [("0.1", d_0_1); ("0.2", d_0_2); ("2", d_2); ("3", d_3); ("5", d_5)].

(** The numbers at the head of a list of words, up to the first word that
    is not a number. *)
Fixpoint numbers {A : Type} (read : string -> option A) (ws : list string) : list A :=
  match ws with
  | [] => []
  | w :: rest =>
      match read w with
      | Some v => v :: numbers read rest
      | None => []
      end
  end.

Definition doubles_of_buffer (buffer : string) (offset : Z) : list double :=
  numbers double_of_word (words (drop (Z.to_nat offset) buffer)).

Definition longs_of_buffer (buffer : string) (offset : Z) : list Z :=
  numbers long_of_word (words (drop (Z.to_nat offset) buffer)).

Definition check_argv_eq (argv : list string) (str : string) : bool :=
  existsb (String.eqb str) (tl argv).

Definition empty_grid : GenGrid :=
  mkGrid CV K_LINEAR 0 0 d_zero 0 0 0 0 0 0 0 0 [] [] [] [] [] [] [] [] None None.

Definition collaborators (files : list (string * list string))
    (datasets : list (string * @GenData matrices)) (trained : GenQueue)
    (kernel : KernelType) : @Collaborators matrices :=
  {| VERSION_STRING := "0.1.0";
     time_NULL := 0;
     atoi := fun s => match long_of_word s with Some v => v | None => 0 end;
     fopen_r := fun name => lookup name files;
     stack_garbage := EmptyString;
     all_doubles_str := doubles_of_buffer;
     all_longs_str := longs_of_buffer;
     gensvm_check_argv := check_argv_eq;
     gensvm_check_argv_eq := check_argv_eq;
     fmt_3_2f := fun _ => "?";
     fmt_li := fun _ => "?";
     gensvm_init_grid := empty_grid;
     gensvm_read_data := fun file =>
       match file with Some name => lookup name datasets | None => None end;
     gensvm_read_data_libsvm := fun file =>
       match file with Some name => lookup name datasets | None => None end;
     gensvm_sparse_to_dense := fun sp =>
       match sp with Some l => map snd l | None => [] end;
     gensvm_fill_queue := fun _ _ _ => trained;
     gensvm_train_queue := fun _ q => q;
     gensvm_consistency_repeats := fun _ _ _ _ => 0;
     gensvm_task_to_model := fun _ => kernel;
     gensvm_train := fun m d => (m, d);
     gensvm_kernel_postprocess := fun m tr te => (m, tr, te);
     gensvm_predict_labels := fun _ _ => [];
     gensvm_prediction_perf := fun _ _ => d_zero |}.

Definition world0 : @World matrices := mkWorld None None [] [] [].

(** A dense dataset with the labels 1, 2, 3 and the same data in sparse
    form. *)
Definition dense_data : @GenData matrices :=
  @mkData matrices (Some [d_2; d_3; d_5]) (Some [d_2; d_3; d_5]) None
    (Some [1; 2; 3]) 3.

Definition sparse_data : @GenData matrices :=
  @mkData matrices None None (Some [(0, 0, d_2); (1, 0, d_3); (2, 0, d_5)])
    (Some [1; 2; 3]) 3.

(** A dense dataset with the labels 1, 2, 4. *)
Definition gap_data : @GenData matrices :=
  @mkData matrices (Some [d_2; d_3; d_5]) (Some [d_2; d_3; d_5]) None
    (Some [1; 2; 4]) 3.

Definition buffers0 : Buffers := mkBuffers EmptyString EmptyString.

(** A grid file with two [gamma:] lines under the RBF kernel, one with a
    [gamma:] line after the kernel is set back to linear, one with an unknown
    kernel, and one with a line of no known key. *)
Definition files : list (string * list string) :=
  [("rbf.txt", ["kernel: RBF" ++ nl; "gamma: 0.1" ++ nl; "gamma: 0.2 0.1" ++ nl;
                "folds: 5" ++ nl]);
   ("linear.txt", ["kernel: RBF" ++ nl; "gamma: 0.1" ++ nl;
                   "kernel: LINEAR" ++ nl; "gamma: 0.2" ++ nl]);
   ("quadratic.txt", ["train: dense.txt" ++ nl; "kernel: QUADRATIC" ++ nl]);
   ("other.txt", ["train: dense.txt" ++ nl; "foo" ++ nl]);
   ("sparse.txt", ["train: sparse.txt" ++ nl; "kernel: RBF" ++ nl]);
   ("test.txt", ["train: dense.txt" ++ nl; "test: sparse.txt" ++ nl])].

Definition datasets : list (string * @GenData matrices) :=
  [("dense.txt", dense_data); ("sparse.txt", sparse_data); ("gap.txt", gap_data)].

(** The library on these files, with the queue of the scores 3.0, 5.0, 5.0,
    2.0 after training. *)
Definition library (kernel : KernelType) : @Collaborators matrices :=
  collaborators files datasets
    (mkQueue [mkTask 0 d_3; mkTask 1 d_5; mkTask 2 d_5; mkTask 3 d_2]) kernel.

End Sample.

(** ** Vocabulary of the statements *)

(** The keys of the grid file that take a list of values. *)
Inductive MultiKey :=
  | key_p | key_lambda | key_kappa | key_epsilon | key_weight
  | key_gamma | key_coef | key_degree.

Definition key_prefix (k : MultiKey) : string :=
  match k with
  | key_p => "p:"
  | key_lambda => "lambda:"
  | key_kappa => "kappa:"
  | key_epsilon => "epsilon:"
  | key_weight => "weight:"
  | key_gamma => "gamma:"
  | key_coef => "coef:"
  | key_degree => "degree:"
  end.

Inductive Values :=
  | doubles (l : list double)
  | ints (l : list Z).

Definition values_count (v : Values) : Z :=
  match v with
  | doubles l => count l
  | ints l => count l
  end.

(** The array and the count that [struct GenGrid] keeps for a key. *)
Definition stored (k : MultiKey) (g : GenGrid) : Values :=
  match k with
  | key_p => doubles (ps g)
  | key_lambda => doubles (lambdas g)
  | key_kappa => doubles (kappas g)
  | key_epsilon => doubles (epsilons g)
  | key_weight => ints (weight_idxs g)
  | key_gamma => doubles (gammas g)
  | key_coef => doubles (coefs g)
  | key_degree => doubles (degrees g)
  end.

Definition stored_count (k : MultiKey) (g : GenGrid) : Z :=
  match k with
  | key_p => Np g
  | key_lambda => Nl g
  | key_kappa => Nk g
  | key_epsilon => Ne g
  | key_weight => Nw g
  | key_gamma => Ng g
  | key_coef => Nc g
  | key_degree => Nd g
  end.

(** The values on a line of the key, as the reader parses them. *)
Definition parsed `{Collaborators} (k : MultiKey) (buffer : string) : Values :=
  match k with
  | key_p => doubles (all_doubles_str buffer 2)
  | key_lambda => doubles (all_doubles_str buffer 7)
  | key_kappa => doubles (all_doubles_str buffer 6)
  | key_epsilon => doubles (all_doubles_str buffer 8)
  | key_weight => ints (map long_to_int (all_longs_str buffer 7))
  | key_gamma => doubles (all_doubles_str buffer 6)
  | key_coef => doubles (all_doubles_str buffer 5)
  | key_degree => doubles (all_doubles_str buffer 7)
  end.

(** The kernels a kernel parameter goes with, as the reader tests them. *)
Definition applicable (k : MultiKey) (kernel : KernelType) : bool :=
  match k with
  | key_gamma => negb (KernelType_eqb kernel K_LINEAR)
  | key_coef => negb (KernelType_eqb kernel K_LINEAR || KernelType_eqb kernel K_RBF)
  | key_degree => KernelType_eqb kernel K_POLY
  | _ => true
  end.

(** A line of the key [kernel:] that ends in none of the four kernel names
    followed by a newline. *)
Definition unknown_kernel_line (buffer : string) : bool :=
  str_startswith buffer "kernel:" &&
  negb (str_endswith buffer ("LINEAR" ++ nl) || str_endswith buffer ("POLY" ++ nl)
        || str_endswith buffer ("RBF" ++ nl) || str_endswith buffer ("SIGMOID" ++ nl)).

(** The diagnostics of the grid file reader. *)
Definition one_value_warning (field : string) : string :=
  "Field " ++ dq ++ field ++ dq
  ++ " only takes one value. Additional fields are ignored." ++ nl.

Definition gamma_ignored : string :=
  "Field " ++ dq ++ "gamma" ++ dq ++ " ignored, linear kernel is used." ++ nl.

Definition ignored_with_kernel (field : string) : string :=
  "Field " ++ dq ++ field ++ dq ++ " ignored with specified kernel." ++ nl.

Definition unknown_kernel (buffer : string) : string :=
  "Unknown kernel specified on line: " ++ buffer ++ nl.

Definition grid_file_error (input_filename : string) : string :=
  "Error opening grid file " ++ input_filename ++ nl.

(** The world after [fprintf(stderr, msg)]. *)
Definition after_stderr `{Matrices} (msg : string) (w : World) : World :=
  snd (fprintf_stderr msg w).

(** A computation that makes no call into the rest of the library. *)
Definition no_calls `{Matrices} {A : Type} (c : M A) : Prop :=
  forall (w w' : World) (r : Result A), c w = (r, w') -> calls w' = calls w.

(** The value a computation returned, [d] when it ended the process. *)
Definition returned {A : Type} (d : A) (r : Result A) : A :=
  match r with
  | Ret a => a
  | Exit _ => d
  end.

(** A computation that returns [a] after exactly the calls [new]. *)
Definition runs `{Matrices} {A : Type} (c : M A) (a : A) (new : list Call) : Prop :=
  forall w : World, exists w' : World, c w = (Ret a, w') /\ calls w' = (calls w ++ new)%list.

(** The datasets the two data files of the grid hold, [None] when one of
    them cannot be read. *)
Definition load_data `{Collaborators} (argv : list string) (grid : GenGrid)
    : option (GenData * option GenData) :=
  let read := if gensvm_check_argv argv "-x" then gensvm_read_data_libsvm
              else gensvm_read_data in
  match read (train_data_file grid) with
  | None => None
  | Some train_data =>
      match test_data_file grid with
      | None => Some (train_data, None)
      | Some file =>
          match read (Some file) with
          | Some test_data => Some (train_data, Some test_data)
          | None => None
          end
      end
  end.

Definition read_calls `{Collaborators} (argv : list string) (grid : GenGrid)
    : list Call :=
  call_read_data (gensvm_check_argv argv "-x") (train_data_file grid)
  :: match test_data_file grid with
     | Some file => [call_read_data (gensvm_check_argv argv "-x") (Some file)]
     | None => []
     end.

(** A dataset after its sparse matrix is made dense: the training data,
    where [Z] and [RAW] are set, and the test data, where [Z] is. *)
Definition dense_train `{Collaborators} (data : GenData) : GenData :=
  mkData (Some (gensvm_sparse_to_dense (spZ data)))
    (Some (gensvm_sparse_to_dense (spZ data))) (spZ data) (y data) (n data).


(** The queue with the scores 3.0, 5.0, 5.0, 2.0. *)
Definition queue_3_5_5_2 : GenQueue :=
  mkQueue [mkTask 0 d_3; mkTask 1 d_5; mkTask 2 d_5; mkTask 3 d_2].

(** The sample library with a grid file that names the kernel NONLINEAR. *)
Definition nonlinear_library : @Collaborators Sample.matrices :=
  Sample.collaborators
    [("nonlinear.txt", ["train: dense.txt" ++ nl; "kernel: NONLINEAR" ++ nl])]
    Sample.datasets queue_3_5_5_2 K_LINEAR.

(** ** gensvm_timer.c *)

(** [(double) z] for an integer [z]: the nearest binary64 number. *)
Definition Z_to_double (z : Z) : double := binary_normalize 53 1024 z 0 false.

(** [clock_t] and [CLOCKS_PER_SEC] are the C library's (time.h): [clock_t]
    is an integer type of [bits] bits, signed or unsigned, and both are
    taken as parameters. *)
Inductive ClockType :=
  | clock_signed (bits : Z)
  | clock_unsigned (bits : Z).

Definition clock_bits (ct : ClockType) : Z :=
  match ct with
  | clock_signed bits | clock_unsigned bits => bits
  end.

(** The integers that a value of type [clock_t] can hold. *)
Definition clock_in_range (ct : ClockType) (z : Z) : bool :=
  match ct with
  | clock_signed bits => (- 2 ^ (bits - 1) <=? z)%Z && (z <? 2 ^ (bits - 1))%Z
  | clock_unsigned bits => (0 <=? z)%Z && (z <? 2 ^ bits)%Z
  end.

(** [e_time - s_time] in [clock_t]: the difference modulo 2^bits, taken in
    the range of the type (for a signed type, what the machine computes
    when the difference overflows). *)
Definition clock_sub (ct : ClockType) (e_time s_time : Z) : Z :=
  match ct with
  | clock_signed bits =>
      (e_time - s_time + 2 ^ (bits - 1)) mod 2 ^ bits - 2 ^ (bits - 1)
  | clock_unsigned bits => (e_time - s_time) mod 2 ^ bits
  end.

(** [gensvm_elapsed_time(s_time, e_time)]. *)
Definition gensvm_elapsed_time (ct : ClockType) (CLOCKS_PER_SEC : Z)
    (s_time e_time : Z) : double :=
  SFdiv 53 1024 (Z_to_double (clock_sub ct e_time s_time))
    (Z_to_double CLOCKS_PER_SEC).

(** ** Simple mode, in the words of the specification

    "Scan all Tasks in the Queue; select the Task with strictly greatest
    performance score; ties resolve to the first Task encountered in Queue
    order."  A task is unbeaten when no task of the queue scores strictly
    more; Simple mode selects the first unbeaten task of the queue. *)

Definition unbeaten (ts : list GenTask) (t : GenTask) : bool :=
  forallb (fun u => negb (double_gt (performance u) (performance t))) ts.

Definition spec_simple_mode (q : GenQueue) : option GenTask :=
  find (unbeaten (tasks q)) (tasks q).

(** ** More vocabulary *)

Definition is_nan (x : double) : bool :=
  match x with
  | S754_nan => true
  | _ => false
  end.

(** A double that is not a NaN and has the sign bit [s]. *)
Definition signed_as (s : bool) (x : double) : bool :=
  match x with
  | S754_zero s' | S754_infinity s' | S754_finite s' _ _ => Bool.eqb s s'
  | S754_nan => false
  end.

(** A key on which the order of the doubles that are not NaN is the
    lexicographic order. *)
Definition order_key (x : double) : Z * (Z * Z) :=
  match x with
  | S754_zero _ => (0, (0, 0))
  | S754_infinity false => (2, (0, 0))
  | S754_infinity true => (-2, (0, 0))
  | S754_nan => (0, (0, 0))
  | S754_finite false m e => (1, (e, Zpos m))
  | S754_finite true m e => (-1, (- e, Zneg m))
  end.

Definition key_lt (k1 k2 : Z * (Z * Z)) : Prop :=
  fst k1 < fst k2 \/
  (fst k1 = fst k2 /\
   (fst (snd k1) < fst (snd k2) \/
    (fst (snd k1) = fst (snd k2) /\ snd (snd k1) < snd (snd k2)))).

(** What [note] or [err] adds to the stream [target] when the stream of
    the library is [dest]. *)
Definition sent (target : Stream) (dest : option Stream) (msg : string)
    : list string :=
  match dest, target with
  | Some c_stdout, c_stdout => [msg]
  | Some c_stderr, c_stderr => [msg]
  | _, _ => []
  end.

(** With the streams of the library at [o] and [e], the computation ends in
    [r], leaves the streams as they are, and adds [so] to stdout, [se] to
    stderr and [cs] to the calls. *)
Definition emits `{Matrices} {A : Type} (o e : option Stream) (c : M A)
    (r : Result A) (so se : list string) (cs : list Call) : Prop :=
  forall w : World,
    GENSVM_OUTPUT_FILE w = o -> GENSVM_ERROR_FILE w = e ->
    exists w' : World,
      c w = (r, w') /\
      GENSVM_OUTPUT_FILE w' = o /\ GENSVM_ERROR_FILE w' = e /\
      stdout w' = (stdout w ++ so)%list /\
      stderr w' = (stderr w ++ se)%list /\
      calls w' = (calls w ++ cs)%list.

(** The lines of the help. *)
Definition help_text `{Collaborators} (argv : list string) : list string :=
  ["This is GenSVM, version " ++ VERSION_STRING ++ "." ++ nl;
   "Copyright (C) 2016, G.J.J. van den Burg." ++ nl;
   "This program is free software, see the LICENSE file for details." ++ nl ++ nl;
   "Usage: " ++ nth 0 argv "" ++ " [options] grid_file" ++ nl;
   "Options:" ++ nl;
   "-h | -help : print this help." ++ nl;
   "-o prediction_output : write predictions of test data to file "
   ++ "(uses stdout if not provided)" ++ nl;
   "-q         : quiet mode (no output, not even errors!)" ++ nl;
   "-x         : data files are in LibSVM/SVMlight format" ++ nl;
   "-z         : seed for the random number generator" ++ nl].

(** The streams of the library are both open on their standard stream, or
    both NULL. *)
Definition streams_paired `{Matrices} (w : World) : Prop :=
  (GENSVM_OUTPUT_FILE w = Some c_stdout /\ GENSVM_ERROR_FILE w = Some c_stderr) \/
  (GENSVM_OUTPUT_FILE w = None /\ GENSVM_ERROR_FILE w = None).

Fixpoint all_chars (p : ascii -> bool) (s : string) : bool :=
  match s with
  | EmptyString => true
  | String c s' => p c && all_chars p s'
  end.

(** The line starts with one of the keys of the grid file. *)
Definition known_key (buffer : string) : bool :=
  existsb (str_startswith buffer)
    ["train:"; "test:"; "p:"; "lambda:"; "kappa:"; "epsilon:"; "weight:";
     "folds:"; "repeats:"; "percentile:"; "kernel:"; "gamma:"; "coef:"; "degree:"].

(** Every count of the grid lies within the array it counts. *)
Definition counts_in_bounds (g : GenGrid) : Prop :=
  forall k : MultiKey, 0 <= stored_count k g <= values_count (stored k g).

Definition not_space (c : ascii) : bool := negb (isspace c).

(** However the computation ends, a value it returns satisfies [ok], and
    a status it exits with is EXIT_FAILURE. *)
Definition ends_well `{Matrices} {A : Type} (ok : A -> Prop) (c : M A) : Prop :=
  forall (w w' : World) (r : Result A),
    c w = (r, w') ->
    match r with
    | Ret a => ok a
    | Exit status => status = EXIT_FAILURE
    end.

Definition anything {A : Type} (a : A) : Prop := True.

(** * Properties *)

Unset Implicit Arguments.

(** ** Comparison of doubles *)

(** The constants are binary64 numbers. *)
Lemma constants_valid :
  forallb (valid_binary 53 1024)
    [minus_one; d_minus_2; d_zero; d_0_1; d_0_2; d_2; d_3; d_5] = true.
Proof. reflexivity. Qed.

Lemma SFcompare_antisym (a b : double) :
  SFcompare b a = option_map CompOpp (SFcompare a b).
Proof.
  destruct a as [sa | sa | | sa ma ea], b as [sb | sb | | sb mb eb];
    simpl; try reflexivity;
    try (destruct sa; reflexivity); try (destruct sb; reflexivity);
    try (destruct sa, sb; reflexivity).
  destruct sa, sb; simpl; try reflexivity;
    rewrite (Z.compare_antisym ea eb);
    destruct (ea ?= eb)%Z; simpl; try reflexivity;
    rewrite (Pos.compare_cont_antisym ma mb Eq); simpl;
    try rewrite CompOpp_involutive; reflexivity.
Qed.

Lemma SFleb_not_gt (a b : double) :
  SFleb a b = true -> double_gt a b = false.
Proof.
  unfold SFleb, double_gt, SFltb.
  rewrite (SFcompare_antisym a b).
  destruct (SFcompare a b) as [[ | | ] | ]; simpl; congruence.
Qed.

(** Two comparable doubles that are neither equal nor in one order are in
    the other. *)
Lemma SFcompare_Lt_of (a b c : double) :
  SFltb c a = true -> SFltb c b = true ->
  SFltb b a = false -> SFeqb a b = false -> SFcompare a b = Some Lt.
Proof.
  unfold SFltb, SFeqb.
  rewrite (SFcompare_antisym a b).
  intros Ha Hb.
  assert (Na : a <> S754_nan).
  { intros ->. destruct c; simpl in Ha; try destruct s; discriminate. }
  assert (Nb : b <> S754_nan).
  { intros ->. destruct c; simpl in Hb; try destruct s; discriminate. }
  destruct (SFcompare a b) as [[ | | ] | ] eqn:E; simpl; try congruence.
  destruct a, b; simpl in E; try congruence.
Qed.

(** ** The selection loop *)

Lemma select_scan_keeps (ts : list GenTask) (maxperf : double) (best_ID : Z) :
  (forall u, In u ts -> double_gt (performance u) maxperf = false) ->
  select_scan ts maxperf best_ID = (maxperf, best_ID).
Proof.
  induction ts as [ | t rest IH]; intros Hle; simpl.
  - reflexivity.
  - rewrite (Hle t (or_introl eq_refl)).
    apply IH. intros u Hu. apply Hle. now right.
Qed.

Lemma select_scan_first_max (ts : list GenTask) :
  forall (k : nat) (t : GenTask) (maxperf : double) (best_ID : Z),
    nth_error ts k = Some t ->
    double_gt (performance t) maxperf = true ->
    (forall u, In u ts -> double_gt (performance u) (performance t) = false) ->
    (forall j u, (j < k)%nat -> nth_error ts j = Some u ->
       SFeqb (performance u) (performance t) = false) ->
    select_scan ts maxperf best_ID = (performance t, ID t).
Proof.
  induction ts as [ | h rest IH]; intros k t maxperf best_ID Hk Hgt Hmax Hfirst.
  - destruct k; discriminate.
  - destruct k as [ | k]; simpl in Hk.
    + injection Hk as ->. simpl. rewrite Hgt.
      apply select_scan_keeps. intros u Hu. apply Hmax. now right.
    + simpl. destruct (double_gt (performance h) maxperf) eqn:Hh.
      * apply (IH k); trivial.
        -- unfold double_gt, SFltb.
           rewrite (@SFcompare_Lt_of (performance h) (performance t) maxperf);
             trivial.
           ++ apply Hmax. now left.
           ++ apply (Hfirst 0%nat); [lia | reflexivity].
        -- intros u Hu. apply Hmax. now right.
        -- intros j u Hj Hu. apply (Hfirst (S j)); [lia | exact Hu].
      * apply (IH k); trivial.
        -- intros u Hu. apply Hmax. now right.
        -- intros j u Hj Hu. apply (Hfirst (S j)); [lia | exact Hu].
Qed.

Lemma find_best_task_absent (ts : list GenTask) (best_ID : Z) :
  (forall t, In t ts -> ID t <> best_ID) ->
  find_best_task ts best_ID None = None.
Proof.
  induction ts as [ | t rest IH]; intros Hno; simpl.
  - reflexivity.
  - destruct (Z.eqb_spec (ID t) best_ID) as [E | _].
    + destruct (Hno t (or_introl eq_refl) E).
    + apply IH. intros u Hu. apply Hno. now right.
Qed.

Section Selection.
Context `{Collaborators}.

(** C1 (amended): in simple selection mode ([repeats] is 0) the scan over
    the queue selects the task with the greatest performance, the first in
    queue order among those that share it, provided that this performance is
    strictly greater than -1, the start value of [maxperf].  For the scores
    [3.0, 5.0, 5.0, 2.0] this is the task at index 1. *)
Theorem simple_selection_first_greatest
    (seed : Z) (grid : GenGrid) (q : GenQueue) (w : World) (k : nat) (t : GenTask) :
  repeats grid = 0 ->
  nth_error (tasks q) k = Some t ->
  double_gt (performance t) minus_one = true ->
  (forall u, In u (tasks q) -> double_gt (performance u) (performance t) = false) ->
  (forall j u, (j < k)%nat -> nth_error (tasks q) j = Some u ->
     SFeqb (performance u) (performance t) = false) ->
  simple_selection q = ID t /\
  main_select seed grid q w = (Ret (ID t), w).
Proof.
  intros Hrep Hk Hgt Hmax Hfirst.
  assert (E : simple_selection q = ID t).
  { unfold simple_selection.
    now rewrite (@select_scan_first_max (tasks q) k t minus_one (-1) Hk Hgt Hmax Hfirst). }
  split; [exact E | ].
  unfold main_select. rewrite Hrep. simpl. now rewrite E.
Qed.

End Selection.

(** C9: the simple scan changes [best_ID] only for a task whose performance
    is strictly greater than -1.  On a queue where no performance is (in
    particular where every performance is at most -1, and on the empty
    queue) [best_ID] stays -1; the identifiers of the tasks being
    non-negative, the lookup of the best task then finds none. *)
Theorem simple_selection_sentinel (q : GenQueue) :
  ((forall t, In t (tasks q) -> double_gt (performance t) minus_one = false) ->
   simple_selection q = -1) /\
  ((forall t, In t (tasks q) -> SFleb (performance t) minus_one = true) ->
   simple_selection q = -1 /\
   ((forall t, In t (tasks q) -> 0 <= ID t) ->
    find_best_task (tasks q) (simple_selection q) None = None)).
Proof.
  assert (Hkeep : (forall t, In t (tasks q) ->
                     double_gt (performance t) minus_one = false) ->
                  simple_selection q = -1).
  { intros Hno. unfold simple_selection.
    now rewrite (@select_scan_keeps (tasks q) minus_one (-1) Hno). }
  split; [exact Hkeep | ].
  intros Hle.
  assert (E : simple_selection q = -1).
  { apply Hkeep. intros t Ht. apply SFleb_not_gt. now apply Hle. }
  split; [exact E | ].
  intros Hid. rewrite E. apply find_best_task_absent.
  intros t Ht. specialize (Hid t Ht). lia.
Qed.

Lemma simple_selection_first_greatest_witness :
  simple_selection queue_3_5_5_2 = 1 /\
  @main_select _ (Sample.collaborators [] [] queue_3_5_5_2 K_LINEAR)
    0 Sample.empty_grid queue_3_5_5_2 Sample.world0 = (Ret 1, Sample.world0).
Proof.
  apply (@simple_selection_first_greatest _
           (Sample.collaborators [] [] queue_3_5_5_2 K_LINEAR)
           0 Sample.empty_grid queue_3_5_5_2 Sample.world0 1%nat (mkTask 1 d_5)).
  - reflexivity.
  - reflexivity.
  - reflexivity.
  - intros u [<- | [<- | [<- | [<- | []]]]]; reflexivity.
  - intros [ | j] u Hj Hu; [ | lia].
    injection Hu as <-. reflexivity.
Defined.

(** C1 as stated, without the condition on -1, fails: on a queue whose
    only task scores -2.0 no task is selected. *)
Lemma simple_selection_needs_score_above_minus_one :
  ~ (forall (q : GenQueue) (k : nat) (t : GenTask),
       nth_error (tasks q) k = Some t ->
       (forall u, In u (tasks q) ->
          double_gt (performance u) (performance t) = false) ->
       (forall j u, (j < k)%nat -> nth_error (tasks q) j = Some u ->
          SFeqb (performance u) (performance t) = false) ->
       simple_selection q = ID t).
Proof.
  intros Hall.
  specialize (Hall (mkQueue [mkTask 0 d_minus_2]) 0%nat (mkTask 0 d_minus_2)).
  assert (E : simple_selection (mkQueue [mkTask 0 d_minus_2]) = -1) by reflexivity.
  rewrite E in Hall. simpl in Hall.
  assert (C : -1 = 0); [ | discriminate C].
  apply Hall.
  - reflexivity.
  - intros u [<- | []]. reflexivity.
  - intros j u Hj. lia.
Qed.

Lemma simple_selection_sentinel_witness :
  simple_selection (mkQueue [mkTask 0 d_minus_2; mkTask 1 minus_one]) = -1 /\
  find_best_task [mkTask 0 d_minus_2; mkTask 1 minus_one]
    (simple_selection (mkQueue [mkTask 0 d_minus_2; mkTask 1 minus_one])) None = None.
Proof.
  destruct (simple_selection_sentinel
              (mkQueue [mkTask 0 d_minus_2; mkTask 1 minus_one])) as [_ Hle].
  destruct Hle as [E Hfind].
  - intros t [<- | [<- | []]]; reflexivity.
  - split; [exact E | ]. apply Hfind.
    intros t [<- | [<- | []]]; simpl; lia.
Defined.

(** ** The grid file, line by line *)

Lemma str_startswith_split (str pre : string) :
  str_startswith str pre = true -> str = pre ++ drop (String.length pre) str.
Proof.
  revert str. induction pre as [ | c pre IH]; intros str Hs.
  - reflexivity.
  - destruct str as [ | d str]; simpl in Hs; [discriminate | ].
    destruct (Ascii.eqb c d) eqn:E; [ | discriminate].
    apply Ascii.eqb_eq in E. subst d.
    simpl. f_equal. now apply IH.
Qed.

(** Splits on the tests of the keys in [read_grid_line]. *)
Ltac key_cases buffer :=
  unfold read_grid_line;
  repeat match goal with
         | |- context [if str_startswith buffer ?k then _ else _] =>
             let E := fresh "Ekey" in destruct (str_startswith buffer k) eqn:E
         end.

(** Writes the buffer as its key followed by the rest of the line. *)
Ltac expose_key Hkey rest :=
  apply str_startswith_split in Hkey;
  cbn [String.length drop] in Hkey;
  match type of Hkey with
  | ?b = _ ++ ?r => set (rest := r) in Hkey; clearbody rest; subst b
  end.

Ltac run_keys :=
  unfold read_grid_line;
  cbn [str_startswith append Ascii.eqb Bool.eqb fst snd].

Section GridFile.
Context `{Collaborators}.

Lemma read_grid_line_keeps (k : MultiKey) (buffer : string)
    (st st' : GenGrid * Buffers) (w w' : World) :
  str_startswith buffer (key_prefix k) = false ->
  read_grid_line buffer st w = (Ret st', w') ->
  stored k (fst st') = stored k (fst st) /\
  stored_count k (fst st') = stored_count k (fst st).
Proof.
  intros Hk. key_cases buffer.
  all: try (destruct k; cbn [key_prefix] in Hk; congruence).
  all: unfold parse_kernel_str, bind, ret, fprintf_stderr, write, exit.
  all: repeat match goal with
              | |- context [if ?c then _ else _] => destruct c
              end.
  all: intros E; inversion E; subst; clear E.
  all: destruct k; cbn [key_prefix] in Hk; try congruence.
  all: split; reflexivity.
Qed.

Lemma read_grid_lines_keep (k : MultiKey) (lines : list string) :
  forall (st st' : GenGrid * Buffers) (w w' : World),
    (forall l, In l lines -> str_startswith l (key_prefix k) = false) ->
    read_grid_lines lines st w = (Ret st', w') ->
    stored k (fst st') = stored k (fst st) /\
    stored_count k (fst st') = stored_count k (fst st).
Proof.
  induction lines as [ | l rest IH]; intros st st' w w' Hno Hrun; simpl in Hrun.
  - injection Hrun as <- _. split; reflexivity.
  - unfold bind in Hrun.
    destruct (read_grid_line l st w) as [[st1 | s] w1] eqn:E1; [ | discriminate].
    destruct (@read_grid_line_keeps k l st st1 w w1 (Hno l (or_introl eq_refl)) E1)
      as [Hv Hc].
    destruct (IH st1 st' w1 w') as [Hv' Hc']; trivial.
    + intros l' Hl'. apply Hno. now right.
    + split; congruence.
Qed.

Lemma read_grid_lines_app (pre post : list string) :
  forall (st : GenGrid * Buffers) (w : World),
    read_grid_lines (pre ++ post) st w
    = match read_grid_lines pre st w with
      | (Ret st1, w1) => read_grid_lines post st1 w1
      | (Exit s, w1) => (Exit s, w1)
      end.
Proof.
  induction pre as [ | l pre IH]; intros st w; simpl.
  - reflexivity.
  - unfold bind. destruct (read_grid_line l st w) as [[st1 | s] w1]; [ | reflexivity].
    apply IH.
Qed.

(** What a line of a multi-valued key does to the fields of its key. *)
Lemma read_grid_line_own (k : MultiKey) (buffer : string)
    (st st' : GenGrid * Buffers) (w w' : World) :
  str_startswith buffer (key_prefix k) = true ->
  read_grid_line buffer st w = (Ret st', w') ->
  if applicable k (kerneltype (fst st)) then
    stored k (fst st') = parsed k buffer /\
    stored_count k (fst st') = values_count (parsed k buffer)
  else
    stored k (fst st') = stored k (fst st) /\ stored_count k (fst st') = 0.
Proof.
  intros Hk.
  destruct k; cbn [key_prefix] in Hk; expose_key Hk rest; run_keys;
    cbn [applicable parsed stored stored_count values_count];
    unfold bind, ret, fprintf_stderr, write;
    repeat match goal with
           | |- context [KernelType_eqb ?a ?b] => destruct (KernelType_eqb a b)
           end;
    cbn [orb negb];
    intros E; inversion E; subst; clear E;
    split; try reflexivity;
    cbn [fst snd set_weight_idxs Nw]; unfold count; now rewrite length_map.
Qed.

End GridFile.

Section GridFileClaims.
Context `{Collaborators}.

(** C10 (amended): when a key that takes a list of values ([p:], [lambda:],
    [kappa:], [epsilon:], [weight:], [gamma:], [coef:], [degree:]) occurs on
    several lines, its last line decides: the grid holds the values and the
    count parsed from that line, whatever earlier lines stored, provided the
    key goes with the kernel set when that line is read (always so for the
    first five keys).  Otherwise the count is 0 and the values are those the
    earlier lines left. *)
Theorem last_line_of_key_decides (k : MultiKey) (pre rest : list string)
    (buffer : string) (st0 st' : GenGrid * Buffers) (w0 w' : World) :
  str_startswith buffer (key_prefix k) = true ->
  (forall l, In l rest -> str_startswith l (key_prefix k) = false) ->
  read_grid_lines (pre ++ buffer :: rest) st0 w0 = (Ret st', w') ->
  exists (st : GenGrid * Buffers) (w : World),
    read_grid_lines pre st0 w0 = (Ret st, w) /\
    if applicable k (kerneltype (fst st)) then
      stored k (fst st') = parsed k buffer /\
      stored_count k (fst st') = values_count (parsed k buffer)
    else
      stored k (fst st') = stored k (fst st) /\ stored_count k (fst st') = 0.
Proof.
  intros Hk Hrest Hrun.
  rewrite read_grid_lines_app in Hrun.
  destruct (read_grid_lines pre st0 w0) as [[st | s] w] eqn:Epre; [ | discriminate].
  exists st, w. split; [reflexivity | ].
  simpl in Hrun. unfold bind in Hrun.
  destruct (read_grid_line buffer st w) as [[st1 | s] w1] eqn:E1; [ | discriminate].
  pose proof (@read_grid_line_own _ _ k buffer st st1 w w1 Hk E1) as Hown.
  destruct (@read_grid_lines_keep _ _ k rest st1 st' w1 w' Hrest Hrun) as [Hv Hc].
  destruct (applicable k (kerneltype (fst st)));
    destruct Hown as [Hv1 Hc1]; split; congruence.
Qed.

(** What a [folds:], [repeats:] or [percentile:] line makes of the grid and
    of the streams. *)
Lemma single_valued_line_result (buffer : string) (grid : GenGrid)
    (bufs : Buffers) (w : World) :
  (str_startswith buffer "folds:" = true ->
   forall (v : Z) (extra : list Z),
     all_longs_str buffer 6 = v :: extra ->
     read_grid_line buffer (grid, bufs) w
     = (Ret (set_folds v grid, bufs),
        match extra with
        | [] => w
        | _ => after_stderr (one_value_warning "folds") w
        end)) /\
  (str_startswith buffer "repeats:" = true ->
   forall (v : Z) (extra : list Z),
     all_longs_str buffer 8 = v :: extra ->
     read_grid_line buffer (grid, bufs) w
     = (Ret (set_repeats v grid, bufs),
        match extra with
        | [] => w
        | _ => after_stderr (one_value_warning "repeats") w
        end)) /\
  (str_startswith buffer "percentile:" = true ->
   forall (v : double) (extra : list double),
     all_doubles_str buffer 11 = v :: extra ->
     read_grid_line buffer (grid, bufs) w
     = (Ret (set_percentile v grid, bufs),
        match extra with
        | [] => w
        | _ => after_stderr (one_value_warning "percentile") w
        end)).
Proof.
  repeat split; intros Hk v extra Hv; expose_key Hk rest; run_keys;
    cbn [append] in Hv; rewrite Hv; cbn [nth]; unfold bind, ret, after_stderr, count;
    (destruct extra as [ | e extra]; [reflexivity | ]);
    cbn [List.length];
    match goal with
    | |- context [(1 <? ?c)%Z] =>
        destruct (Z.ltb_spec 1 c) as [_ | Hle]; [reflexivity | lia]
    end.
Qed.

(** C7: after a line of [folds:], [repeats:] or [percentile:] the field of
    the grid holds the first value on the line, whatever follows it on the
    line, and the two other fields hold what they held; further values on
    the line only add a diagnostic on stderr, nothing goes to stdout, and
    the reader goes on. *)
Theorem single_valued_field_takes_first (buffer : string) (grid : GenGrid)
    (bufs : Buffers) (w : World) :
  (str_startswith buffer "folds:" = true ->
   forall (v : Z) (extra : list Z),
     all_longs_str buffer 6 = v :: extra ->
     exists (grid' : GenGrid) (w' : World),
       read_grid_line buffer (grid, bufs) w = (Ret (grid', bufs), w') /\
       folds grid' = v /\
       repeats grid' = repeats grid /\ percentile grid' = percentile grid /\
       stderr w' = (stderr w ++ match extra with
                                | [] => []
                                | _ => [one_value_warning "folds"]
                                end)%list /\
       stdout w' = stdout w) /\
  (str_startswith buffer "repeats:" = true ->
   forall (v : Z) (extra : list Z),
     all_longs_str buffer 8 = v :: extra ->
     exists (grid' : GenGrid) (w' : World),
       read_grid_line buffer (grid, bufs) w = (Ret (grid', bufs), w') /\
       repeats grid' = v /\
       folds grid' = folds grid /\ percentile grid' = percentile grid /\
       stderr w' = (stderr w ++ match extra with
                                | [] => []
                                | _ => [one_value_warning "repeats"]
                                end)%list /\
       stdout w' = stdout w) /\
  (str_startswith buffer "percentile:" = true ->
   forall (v : double) (extra : list double),
     all_doubles_str buffer 11 = v :: extra ->
     exists (grid' : GenGrid) (w' : World),
       read_grid_line buffer (grid, bufs) w = (Ret (grid', bufs), w') /\
       percentile grid' = v /\
       folds grid' = folds grid /\ repeats grid' = repeats grid /\
       stderr w' = (stderr w ++ match extra with
                                | [] => []
                                | _ => [one_value_warning "percentile"]
                                end)%list /\
       stdout w' = stdout w).
Proof.
  destruct (single_valued_line_result buffer grid bufs w) as [Hf [Hr Hp]].
  split; [ | split]; intros Hk v extra Hv.
  - exists (set_folds v grid). eexists. split; [exact (Hf Hk v extra Hv) | ].
    destruct extra; repeat split; try reflexivity. cbn. now rewrite app_nil_r.
  - exists (set_repeats v grid). eexists. split; [exact (Hr Hk v extra Hv) | ].
    destruct extra; repeat split; try reflexivity. cbn. now rewrite app_nil_r.
  - exists (set_percentile v grid). eexists. split; [exact (Hp Hk v extra Hv) | ].
    destruct extra; repeat split; try reflexivity. cbn. now rewrite app_nil_r.
Qed.

(** C4: a [gamma:], [coef:] or [degree:] line is judged against the kernel
    the grid holds when the line is read.  With a kernel the parameter does
    not go with (gamma with the linear kernel, coef with the linear or the
    RBF kernel, degree with any kernel but the polynomial one) the values on
    the line are not stored, the count of the field becomes 0, a diagnostic
    goes to stderr and the reader goes on.  So [kernel: LINEAR] followed by
    [gamma: 0.1 0.2] leaves a grid with 0 gamma values. *)
Theorem inapplicable_kernel_parameter_discarded (buffer : string) (grid : GenGrid)
    (bufs : Buffers) (w : World) :
  (str_startswith buffer "gamma:" = true -> kerneltype grid = K_LINEAR ->
   read_grid_line buffer (grid, bufs) w
   = (Ret (set_Ng 0 grid, bufs), after_stderr gamma_ignored w)) /\
  (str_startswith buffer "coef:" = true ->
   kerneltype grid = K_LINEAR \/ kerneltype grid = K_RBF ->
   read_grid_line buffer (grid, bufs) w
   = (Ret (set_Nc 0 grid, bufs), after_stderr (ignored_with_kernel "coef") w)) /\
  (str_startswith buffer "degree:" = true -> kerneltype grid <> K_POLY ->
   read_grid_line buffer (grid, bufs) w
   = (Ret (set_Nd 0 grid, bufs), after_stderr (ignored_with_kernel "degree") w)) /\
  (Ng (set_Ng 0 grid) = 0 /\ gammas (set_Ng 0 grid) = gammas grid) /\
  (Nc (set_Nc 0 grid) = 0 /\ coefs (set_Nc 0 grid) = coefs grid) /\
  (Nd (set_Nd 0 grid) = 0 /\ degrees (set_Nd 0 grid) = degrees grid) /\
  (exists grid',
     read_grid_lines ["kernel: LINEAR" ++ nl; "gamma: 0.1 0.2" ++ nl] (grid, bufs) w
     = (Ret (grid', bufs), after_stderr gamma_ignored w) /\
     Ng grid' = 0 /\ kerneltype grid' = K_LINEAR).
Proof.
  split; [ | split; [ | split]].
  - intros Hk Hkernel. expose_key Hk rest. run_keys. now rewrite Hkernel.
  - intros Hk Hkernel. expose_key Hk rest. run_keys.
    destruct Hkernel as [-> | ->]; reflexivity.
  - intros Hk Hkernel. expose_key Hk rest. run_keys.
    destruct (kerneltype grid); try reflexivity. now destruct Hkernel.
  - repeat split.
    exists (set_Ng 0 (set_kerneltype K_LINEAR grid)). repeat split.
Qed.

End GridFileClaims.

(** ** Computations without calls *)

Section NoCalls.
Context `{Matrices}.

Lemma no_calls_ret (A : Type) (a : A) : no_calls (ret a).
Proof. intros w w' r [= <- <-]. reflexivity. Qed.

Lemma no_calls_exit (A : Type) (status : Z) : no_calls (@exit _ A status).
Proof. intros w w' r [= <- <-]. reflexivity. Qed.

Lemma no_calls_write (s : Stream) (msg : string) : no_calls (write s msg).
Proof. intros w w' r [= <- <-]. destruct s; reflexivity. Qed.

Lemma no_calls_printf (msg : string) : no_calls (printf msg).
Proof. apply no_calls_write. Qed.

Lemma no_calls_fprintf_stderr (msg : string) : no_calls (fprintf_stderr msg).
Proof. apply no_calls_write. Qed.

Lemma no_calls_note (msg : string) : no_calls (note msg).
Proof.
  intros w w' r. unfold note.
  destruct (GENSVM_OUTPUT_FILE w); [apply no_calls_write | apply no_calls_ret].
Qed.

Lemma no_calls_err (msg : string) : no_calls (err msg).
Proof.
  intros w w' r. unfold err.
  destruct (GENSVM_ERROR_FILE w); [apply no_calls_write | apply no_calls_ret].
Qed.

Lemma no_calls_set_streams (o e : option Stream) : no_calls (set_streams o e).
Proof. intros w w' r [= <- <-]. reflexivity. Qed.

Lemma no_calls_bind (A B : Type) (c : M A) (k : A -> M B) :
  no_calls c -> (forall a, no_calls (k a)) -> no_calls (bind c k).
Proof.
  intros Hc Hk w w' r. unfold bind.
  destruct (c w) as [[a | s] w1] eqn:E.
  - intros Hrun. rewrite (Hk a _ _ _ Hrun). exact (Hc _ _ _ E).
  - intros [= <- <-]. exact (Hc _ _ _ E).
Qed.

Lemma no_calls_if (A : Type) (b : bool) (c1 c2 : M A) :
  no_calls c1 -> no_calls c2 -> no_calls (if b then c1 else c2).
Proof. now destruct b. Qed.

End NoCalls.

Ltac no_calls_step :=
  lazymatch goal with
  | |- no_calls (ret _) => apply no_calls_ret
  | |- no_calls (exit _) => apply no_calls_exit
  | |- no_calls (printf _) => apply no_calls_printf
  | |- no_calls (fprintf_stderr _) => apply no_calls_fprintf_stderr
  | |- no_calls (note _) => apply no_calls_note
  | |- no_calls (err _) => apply no_calls_err
  | |- no_calls (set_streams _ _) => apply no_calls_set_streams
  | |- no_calls (bind _ _) => apply no_calls_bind; [ | intros ? ]
  | |- no_calls (if _ then _ else _) => apply no_calls_if
  end.

(** ** Fatal errors of the grid file *)

Section GridFileErrors.
Context `{Collaborators}.

Lemma no_calls_exit_with_help (A : Type) (argv : list string) :
  no_calls (@exit_with_help _ _ A argv).
Proof. unfold exit_with_help. repeat no_calls_step. Qed.

Lemma no_calls_parse_command_line_loop (argv : list string) (fuel : nat) :
  forall (args : list string) (seed : Z) (out : option string),
    (List.length args <= fuel)%nat ->
    no_calls (parse_command_line_loop argv args seed out).
Proof.
  induction fuel as [ | fuel IH]; intros args seed out Hlen;
    (destruct args as [ | a rest];
     [exact (@no_calls_exit_with_help _ argv) | simpl in Hlen]);
    [lia | ].
  cbn [parse_command_line_loop].
  apply no_calls_if; [apply no_calls_ret | ].
  destruct rest as [ | b rest']; [exact (@no_calls_exit_with_help _ argv) | ].
  simpl in Hlen.
  apply no_calls_if; [apply IH; lia | ].
  apply no_calls_if.
  { apply no_calls_bind; [apply no_calls_set_streams | intros _].
    apply IH. simpl. lia. }
  apply no_calls_if; [apply IH; simpl; lia | ].
  apply no_calls_if; [apply IH; lia | ].
  apply no_calls_bind; [apply no_calls_fprintf_stderr | intros _].
  exact (@no_calls_exit_with_help _ argv).
Qed.

Lemma no_calls_parse_command_line (argv : list string) (out : option string) :
  no_calls (parse_command_line argv out).
Proof.
  unfold parse_command_line.
  apply no_calls_bind; [apply no_calls_set_streams | intros _].
  now apply (@no_calls_parse_command_line_loop argv (List.length (tl argv))).
Qed.

Lemma no_calls_parse_kernel_str (kernel_line : string) :
  no_calls (parse_kernel_str kernel_line).
Proof. unfold parse_kernel_str. repeat no_calls_step. Qed.

Lemma no_calls_read_grid_line (buffer : string) (st : GenGrid * Buffers) :
  no_calls (read_grid_line buffer st).
Proof.
  unfold read_grid_line.
  repeat lazymatch goal with
         | |- no_calls (parse_kernel_str _) => apply no_calls_parse_kernel_str
         | _ => no_calls_step
         end.
Qed.

Lemma no_calls_read_grid_lines (lines : list string) :
  forall st : GenGrid * Buffers, no_calls (read_grid_lines lines st).
Proof.
  induction lines as [ | l rest IH]; intros st; simpl.
  - apply no_calls_ret.
  - apply no_calls_bind; [apply no_calls_read_grid_line | exact IH].
Qed.

Lemma no_calls_read_grid_from_file (input_filename : string) (grid : GenGrid) :
  no_calls (read_grid_from_file input_filename grid).
Proof.
  unfold read_grid_from_file. destruct (fopen_r input_filename).
  - apply no_calls_bind; [apply no_calls_read_grid_lines | intros st].
    apply no_calls_ret.
  - repeat no_calls_step.
Qed.

Lemma read_grid_line_unknown_kernel (buffer : string) (st : GenGrid * Buffers)
    (w : World) :
  unknown_kernel_line buffer = true ->
  read_grid_line buffer st w
  = (Exit EXIT_FAILURE, after_stderr (unknown_kernel buffer) w).
Proof.
  unfold unknown_kernel_line. intros Hu.
  apply andb_prop in Hu. destruct Hu as [Hk Hends].
  apply negb_true_iff in Hends.
  repeat (apply orb_false_elim in Hends; destruct Hends as [Hends ?]).
  expose_key Hk rest. run_keys. unfold parse_kernel_str.
  cbn [append] in *.
  repeat match goal with
         | E : ?c = false |- context [if ?c then _ else _] => rewrite E
         end.
  reflexivity.
Qed.

(** A line that is not an unknown kernel line lets the reader go on. *)
Lemma read_grid_line_returns (buffer : string) (st : GenGrid * Buffers)
    (w : World) :
  unknown_kernel_line buffer = false ->
  exists (st' : GenGrid * Buffers) (w' : World),
    read_grid_line buffer st w = (Ret st', w').
Proof.
  unfold unknown_kernel_line. intros Hu. key_cases buffer.
  all: unfold parse_kernel_str, bind, ret, fprintf_stderr, write, exit.
  all: cbn [andb negb] in Hu.
  all: repeat match goal with
              | |- context [if ?c then _ else _] => destruct c
              end.
  all: try (eexists; eexists; reflexivity).
  all: discriminate Hu.
Qed.

Lemma read_grid_lines_unknown_kernel (lines : list string) :
  forall (st : GenGrid * Buffers) (w : World),
    existsb unknown_kernel_line lines = true ->
    exists (buffer : string) (w1 : World),
      In buffer lines /\ unknown_kernel_line buffer = true /\
      calls w1 = calls w /\
      read_grid_lines lines st w
      = (Exit EXIT_FAILURE, after_stderr (unknown_kernel buffer) w1).
Proof.
  induction lines as [ | l rest IH]; intros st w Hex; simpl in Hex.
  - discriminate.
  - cbn [read_grid_lines]. unfold bind.
    destruct (unknown_kernel_line l) eqn:El.
    + exists l, w. rewrite (read_grid_line_unknown_kernel l st w El).
      repeat split; auto. now left.
    + simpl in Hex.
      destruct (read_grid_line_returns l st w El) as [st1 [w1 E1]].
      rewrite E1.
      destruct (IH st1 w1 Hex) as [buffer [w2 [Hin [Hu [Hc Hrun]]]]].
      exists buffer, w2. repeat split; auto.
      * now right.
      * rewrite Hc. exact (no_calls_read_grid_line l st _ _ _ E1).
Qed.

End GridFileErrors.

Section Steps.
Context `{Matrices}.

Lemma bind_ret_eq (A B : Type) (c : M A) (k : A -> M B) (w w' : World) (a : A) :
  c w = (Ret a, w') -> bind c k w = k a w'.
Proof. intros E. unfold bind. now rewrite E. Qed.

Lemma bind_exit_eq (A B : Type) (c : M A) (k : A -> M B) (w w' : World) (s : Z) :
  c w = (Exit s, w') -> bind c k w = (Exit s, w').
Proof. intros E. unfold bind. now rewrite E. Qed.

Lemma note_returns (msg : string) (w : World) :
  exists w', note msg w = (Ret tt, w') /\ calls w' = calls w.
Proof.
  unfold note. destruct (GENSVM_OUTPUT_FILE w) as [[ | ] | ];
    eexists; split; reflexivity.
Qed.

Lemma err_returns (msg : string) (w : World) :
  exists w', err msg w = (Ret tt, w') /\ calls w' = calls w.
Proof.
  unfold err. destruct (GENSVM_ERROR_FILE w) as [[ | ] | ];
    eexists; split; reflexivity.
Qed.

End Steps.

Section GridFileFatal.
Context `{Collaborators}.

(** What [main] does on a grid file that cannot be opened, and on a
    [kernel:] line that [parse_kernel_str] rejects: it writes the diagnostic
    to stderr and exits with EXIT_FAILURE before any of the recorded
    calls. *)
Theorem grid_file_fatal_errors (argv : list string) (w w1 : World) (seed : Z)
    (input_filename : string) (out : option string) :
  (count argv <? MINARGS)%Z || gensvm_check_argv argv "-help"
    || gensvm_check_argv_eq argv "-h" = false ->
  parse_command_line argv None w = (Ret (seed, input_filename, out), w1) ->
  (fopen_r input_filename = None ->
   exists w2,
     main argv w
     = (Exit EXIT_FAILURE, after_stderr (grid_file_error input_filename) w2) /\
     calls (after_stderr (grid_file_error input_filename) w2) = calls w) /\
  (forall lines,
     fopen_r input_filename = Some lines ->
     existsb unknown_kernel_line lines = true ->
     exists buffer w2,
       In buffer lines /\ unknown_kernel_line buffer = true /\
       main argv w = (Exit EXIT_FAILURE, after_stderr (unknown_kernel buffer) w2) /\
       calls (after_stderr (unknown_kernel buffer) w2) = calls w).
Proof.
  intros Hhelp Hparse.
  pose proof (no_calls_parse_command_line argv None _ _ _ Hparse) as Hc1.
  destruct (note_returns ("Reading grid file" ++ nl) w1) as [w1' [Enote Hc1']].
  assert (Hmain : main argv w
                  = bind (read_grid_from_file input_filename gensvm_init_grid)
                      (fun grid => main_run argv seed out grid) w1').
  { unfold main. rewrite Hhelp.
    rewrite (bind_ret_eq _ _ _ _ _ _ _ Hparse). cbn [fst snd].
    now rewrite (bind_ret_eq _ _ _ _ _ _ _ Enote). }
  split.
  - intros Hopen. exists w1'. split.
    + rewrite Hmain. apply bind_exit_eq.
      unfold read_grid_from_file. rewrite Hopen. reflexivity.
    + cbn. congruence.
  - intros lines Hopen Hbad.
    destruct (@read_grid_lines_unknown_kernel _ _ lines
                (set_traintype CV gensvm_init_grid,
                 mkBuffers stack_garbage stack_garbage) w1' Hbad)
      as [buffer [w2 [Hin [Hu [Hc2 Hrun]]]]].
    exists buffer, w2. repeat split; trivial.
    + rewrite Hmain. apply bind_exit_eq.
      unfold read_grid_from_file. rewrite Hopen.
      now apply bind_exit_eq.
    + cbn. congruence.
Qed.

End GridFileFatal.

(** ** The claims on concrete grid files *)

Lemma last_line_of_key_decides_witness :
  stored key_gamma
    (fst (returned (Sample.empty_grid, Sample.buffers0)
            (fst (@read_grid_lines _ (Sample.library K_LINEAR)
                    (["kernel: RBF" ++ nl; "gamma: 0.1" ++ nl]
                     ++ ("gamma: 0.2 0.1" ++ nl) :: ["folds: 5" ++ nl])
                    (Sample.empty_grid, Sample.buffers0) Sample.world0))))
  = doubles [d_0_2; d_0_1].
Proof.
  destruct (@last_line_of_key_decides _ (Sample.library K_LINEAR) key_gamma
              ["kernel: RBF" ++ nl; "gamma: 0.1" ++ nl] ["folds: 5" ++ nl]
              ("gamma: 0.2 0.1" ++ nl)
              (Sample.empty_grid, Sample.buffers0)
              (returned (Sample.empty_grid, Sample.buffers0)
                 (fst (@read_grid_lines _ (Sample.library K_LINEAR)
                         (["kernel: RBF" ++ nl; "gamma: 0.1" ++ nl]
                          ++ ("gamma: 0.2 0.1" ++ nl) :: ["folds: 5" ++ nl])
                         (Sample.empty_grid, Sample.buffers0) Sample.world0)))
              Sample.world0 Sample.world0)
    as [st [w [Hpre Hlast]]].
  - reflexivity.
  - intros l [<- | []]. reflexivity.
  - vm_compute. reflexivity.
  - vm_compute in Hpre. injection Hpre as <- <-.
    vm_compute in Hlast. destruct Hlast as [Hv _].
    vm_compute. exact Hv.
Defined.

(** C10 as stated fails for [gamma:]: after [kernel: RBF], [gamma: 0.1],
    [kernel: LINEAR], the line [gamma: 0.2] is the last of its key, and the
    grid keeps the value 0.1 of the earlier line with the count 0. *)
Lemma last_gamma_line_ignored_under_linear_kernel :
  ~ (forall (M : Matrices) (C : Collaborators) (k : MultiKey)
            (pre rest : list string) (buffer : string)
            (st0 st' : GenGrid * Buffers) (w0 w' : World),
       str_startswith buffer (key_prefix k) = true ->
       (forall l, In l rest -> str_startswith l (key_prefix k) = false) ->
       read_grid_lines (pre ++ buffer :: rest) st0 w0 = (Ret st', w') ->
       stored k (fst st') = parsed k buffer /\
       stored_count k (fst st') = values_count (parsed k buffer)).
Proof.
  intros Hall.
  destruct (Hall Sample.matrices (Sample.library K_LINEAR) key_gamma
              ["kernel: RBF" ++ nl; "gamma: 0.1" ++ nl; "kernel: LINEAR" ++ nl] []
              ("gamma: 0.2" ++ nl)
              (Sample.empty_grid, Sample.buffers0)
              (set_Ng 0 (set_kerneltype K_LINEAR
                           (set_gammas [d_0_1] 1 Sample.empty_grid)),
               Sample.buffers0)
              Sample.world0
              (after_stderr gamma_ignored Sample.world0))
    as [Hv Hc].
  - reflexivity.
  - intros l [].
  - vm_compute. reflexivity.
  - vm_compute in Hc. discriminate Hc.
Qed.

Lemma single_valued_field_takes_first_witness :
  (exists (grid' : GenGrid) (w' : World),
     @read_grid_line _ (Sample.library K_LINEAR) ("folds: 5 6" ++ nl)
       (Sample.empty_grid, Sample.buffers0) Sample.world0
     = (Ret (grid', Sample.buffers0), w') /\
     folds grid' = 5 /\
     repeats grid' = repeats Sample.empty_grid /\
     percentile grid' = percentile Sample.empty_grid /\
     stderr w' = (stderr Sample.world0 ++ [one_value_warning "folds"])%list /\
     stdout w' = stdout Sample.world0) /\
  (exists (grid' : GenGrid) (w' : World),
     @read_grid_line _ (Sample.library K_LINEAR) ("repeats: 3" ++ nl)
       (Sample.empty_grid, Sample.buffers0) Sample.world0
     = (Ret (grid', Sample.buffers0), w') /\
     repeats grid' = 3 /\
     folds grid' = folds Sample.empty_grid /\
     percentile grid' = percentile Sample.empty_grid /\
     stderr w' = (stderr Sample.world0 ++ [])%list /\
     stdout w' = stdout Sample.world0) /\
  (exists (grid' : GenGrid) (w' : World),
     @read_grid_line _ (Sample.library K_LINEAR) ("percentile: 0.1 0.2" ++ nl)
       (Sample.empty_grid, Sample.buffers0) Sample.world0
     = (Ret (grid', Sample.buffers0), w') /\
     percentile grid' = d_0_1 /\
     folds grid' = folds Sample.empty_grid /\
     repeats grid' = repeats Sample.empty_grid /\
     stderr w' = (stderr Sample.world0 ++ [one_value_warning "percentile"])%list /\
     stdout w' = stdout Sample.world0).
Proof.
  split; [ | split].
  - apply (proj1 (@single_valued_field_takes_first _ (Sample.library K_LINEAR)
                    ("folds: 5 6" ++ nl) Sample.empty_grid Sample.buffers0
                    Sample.world0) eq_refl 5 [6]).
    reflexivity.
  - apply (proj1 (proj2 (@single_valued_field_takes_first _ (Sample.library K_LINEAR)
                    ("repeats: 3" ++ nl) Sample.empty_grid Sample.buffers0
                    Sample.world0)) eq_refl 3 []).
    reflexivity.
  - apply (proj2 (proj2 (@single_valued_field_takes_first _ (Sample.library K_LINEAR)
                    ("percentile: 0.1 0.2" ++ nl) Sample.empty_grid Sample.buffers0
                    Sample.world0)) eq_refl d_0_1 [d_0_2]).
    reflexivity.
Defined.

Lemma inapplicable_kernel_parameter_discarded_witness :
  @read_grid_line _ (Sample.library K_LINEAR) ("gamma: 0.1 0.2" ++ nl)
    (Sample.empty_grid, Sample.buffers0) Sample.world0
  = (Ret (set_Ng 0 Sample.empty_grid, Sample.buffers0),
     after_stderr gamma_ignored Sample.world0) /\
  @read_grid_line _ (Sample.library K_LINEAR) ("coef: 0.1" ++ nl)
    (set_kerneltype K_RBF Sample.empty_grid, Sample.buffers0) Sample.world0
  = (Ret (set_Nc 0 (set_kerneltype K_RBF Sample.empty_grid), Sample.buffers0),
     after_stderr (ignored_with_kernel "coef") Sample.world0) /\
  @read_grid_line _ (Sample.library K_LINEAR) ("degree: 2 3" ++ nl)
    (set_kerneltype K_SIGMOID Sample.empty_grid, Sample.buffers0) Sample.world0
  = (Ret (set_Nd 0 (set_kerneltype K_SIGMOID Sample.empty_grid), Sample.buffers0),
     after_stderr (ignored_with_kernel "degree") Sample.world0).
Proof.
  split; [ | split].
  - apply (proj1 (@inapplicable_kernel_parameter_discarded _
                    (Sample.library K_LINEAR) ("gamma: 0.1 0.2" ++ nl)
                    Sample.empty_grid Sample.buffers0 Sample.world0));
      reflexivity.
  - apply (proj1 (proj2 (@inapplicable_kernel_parameter_discarded _
                    (Sample.library K_LINEAR) ("coef: 0.1" ++ nl)
                    (set_kerneltype K_RBF Sample.empty_grid)
                    Sample.buffers0 Sample.world0))).
    + reflexivity.
    + right. reflexivity.
  - apply (proj1 (proj2 (proj2 (@inapplicable_kernel_parameter_discarded _
                    (Sample.library K_LINEAR) ("degree: 2 3" ++ nl)
                    (set_kerneltype K_SIGMOID Sample.empty_grid)
                    Sample.buffers0 Sample.world0)))).
    + reflexivity.
    + discriminate.
Defined.

Lemma grid_file_fatal_errors_witness :
  (exists w2,
     @main _ (Sample.library K_LINEAR) ["GenSVMgrid"; "missing.txt"] Sample.world0
     = (Exit EXIT_FAILURE, after_stderr (grid_file_error "missing.txt") w2) /\
     calls (after_stderr (grid_file_error "missing.txt") w2) = []) /\
  (exists buffer w2,
     In buffer ["train: dense.txt" ++ nl; "kernel: QUADRATIC" ++ nl] /\
     unknown_kernel_line buffer = true /\
     @main _ (Sample.library K_LINEAR) ["GenSVMgrid"; "quadratic.txt"] Sample.world0
     = (Exit EXIT_FAILURE, after_stderr (unknown_kernel buffer) w2) /\
     calls (after_stderr (unknown_kernel buffer) w2) = []).
Proof.
  split.
  - apply (proj1 (@grid_file_fatal_errors _ (Sample.library K_LINEAR)
                    ["GenSVMgrid"; "missing.txt"] Sample.world0
                    (mkWorld (Some c_stdout) (Some c_stderr) [] [] [])
                    0 "missing.txt" None eq_refl eq_refl)).
    reflexivity.
  - apply (proj2 (@grid_file_fatal_errors _ (Sample.library K_LINEAR)
                    ["GenSVMgrid"; "quadratic.txt"] Sample.world0
                    (mkWorld (Some c_stdout) (Some c_stderr) [] [] [])
                    0 "quadratic.txt" None eq_refl eq_refl)
             ["train: dense.txt" ++ nl; "kernel: QUADRATIC" ++ nl]);
      reflexivity.
Defined.

(** C8: the code does not do what the claim says for a kernel token that
    ends in a kernel name.  [parse_kernel_str] sets out to report every
    unknown kernel (its last branch writes the diagnostic and exits), but it
    tests how the line ends, not the token.  The token of
    [kernel: NONLINEAR] is none of LINEAR, POLY, RBF, SIGMOID, yet the line
    sets the linear kernel without a diagnostic, and [main], run on a grid
    file with that line, writes nothing to stderr, trains the queue and
    returns 0. *)
Theorem kernel_token_ending_in_known_name_accepted :
  sscanf_word ("kernel: NONLINEAR" ++ nl) "kernel:" = Some "NONLINEAR" /\
  ~ In "NONLINEAR" ["LINEAR"; "POLY"; "RBF"; "SIGMOID"] /\
  @read_grid_line _ (Sample.library K_LINEAR) ("kernel: NONLINEAR" ++ nl)
    (set_kerneltype K_RBF Sample.empty_grid, Sample.buffers0) Sample.world0
  = (Ret (Sample.empty_grid, Sample.buffers0), Sample.world0) /\
  fst (@main _ nonlinear_library ["GenSVMgrid"; "nonlinear.txt"] Sample.world0)
  = Ret 0 /\
  stderr (snd (@main _ nonlinear_library ["GenSVMgrid"; "nonlinear.txt"]
                 Sample.world0)) = [] /\
  In (call_train_queue queue_3_5_5_2)
    (calls (snd (@main _ nonlinear_library ["GenSVMgrid"; "nonlinear.txt"]
                   Sample.world0))).
Proof.
  split; [reflexivity | split; [ | split; [reflexivity | ]]].
  - intros [E | [E | [E | [E | []]]]]; discriminate E.
  - vm_compute. repeat split. tauto.
Qed.

(** Whatever the library, a line without a known key is reported on stderr,
    also when the error stream of the library is NULL, while [err] then
    writes nothing. *)
Lemma unknown_line_reported_when_quiet `{Collaborators} (rest : string)
    (st : GenGrid * Buffers) (w : World) :
  GENSVM_ERROR_FILE w = None ->
  err ("Cannot find any parameters on line: " ++ "foo" ++ rest ++ nl) w = (Ret tt, w) /\
  read_grid_line ("foo" ++ rest) st w
  = (Ret st, after_stderr ("Cannot find any parameters on line: "
                           ++ "foo" ++ rest ++ nl) w) /\
  stderr (after_stderr ("Cannot find any parameters on line: " ++ "foo" ++ rest ++ nl) w)
  = (stderr w ++ [("Cannot find any parameters on line: " ++ "foo" ++ rest ++ nl)%string])%list.
Proof.
  intros Hquiet. split; [ | split].
  - unfold err. now rewrite Hquiet.
  - destruct st as [grid bufs]. reflexivity.
  - reflexivity.
Qed.

(** C3: with [-q] the two streams of the library are NULL, and yet the
    diagnostics of the grid file reader reach stderr, the warning for a line
    without a known key as well as the message of a fatal error: they are
    written with [fprintf(stderr, ...)], not with [err]. *)
Theorem quiet_mode_keeps_grid_file_diagnostics :
  (exists w',
     @main _ (Sample.library K_LINEAR) ["GenSVMgrid"; "-q"; "other.txt"] Sample.world0
     = (Ret 0, w') /\
     GENSVM_OUTPUT_FILE w' = None /\ GENSVM_ERROR_FILE w' = None /\
     stdout w' = [] /\
     stderr w' = ["Cannot find any parameters on line: foo" ++ nl ++ nl]) /\
  (exists w',
     @main _ (Sample.library K_LINEAR) ["GenSVMgrid"; "-q"; "missing.txt"] Sample.world0
     = (Exit EXIT_FAILURE, w') /\
     GENSVM_OUTPUT_FILE w' = None /\ GENSVM_ERROR_FILE w' = None /\
     stderr w' = ["Error opening grid file missing.txt" ++ nl]).
Proof.
  split; eexists; (split; [vm_compute; reflexivity | ]); repeat split.
Qed.

(** ** The calls of [main] *)

Section Runs.
Context `{Matrices}.

Lemma runs_ret (A : Type) (a : A) : runs (ret a) a [].
Proof. intros w. exists w. split; [reflexivity | now rewrite app_nil_r]. Qed.

Lemma runs_bind (A B : Type) (c : M A) (k : A -> M B) (a : A) (b : B)
    (n1 n2 : list Call) :
  runs c a n1 -> runs (k a) b n2 -> runs (bind c k) b (n1 ++ n2)%list.
Proof.
  intros Hc Hk w.
  destruct (Hc w) as [w1 [E1 C1]]. destruct (Hk w1) as [w2 [E2 C2]].
  exists w2. split.
  - now rewrite (bind_ret_eq _ _ _ _ _ _ _ E1).
  - now rewrite C2, C1, app_assoc.
Qed.

Lemma runs_eq (A : Type) (c : M A) (a : A) (n1 n2 : list Call) :
  runs c a n1 -> n1 = n2 -> runs c a n2.
Proof. now intros Hc <-. Qed.

Lemma runs_note (msg : string) : runs (note msg) tt [].
Proof.
  intros w. destruct (note_returns msg w) as [w' [E C]].
  exists w'. split; [exact E | now rewrite app_nil_r].
Qed.

Lemma runs_err (msg : string) : runs (err msg) tt [].
Proof.
  intros w. destruct (err_returns msg w) as [w' [E C]].
  exists w'. split; [exact E | now rewrite app_nil_r].
Qed.

Lemma runs_printf (msg : string) : runs (printf msg) tt [].
Proof.
  intros w. eexists. split; [reflexivity | ]. cbn. now rewrite app_nil_r.
Qed.

Lemma runs_call (c : Call) : runs (call c) tt [c].
Proof. intros w. eexists. split; reflexivity. Qed.

Lemma runs_if (A : Type) (b : bool) (c1 c2 : M A) (a : A) (n1 n2 : list Call) :
  runs c1 a n1 -> runs c2 a n2 ->
  runs (if b then c1 else c2) a (if b then n1 else n2).
Proof. now destruct b. Qed.

End Runs.

(** One step of a sequence of notes, calls and returns. *)
Ltac runs_step :=
  lazymatch goal with
  | |- runs (ret _) _ _ => apply runs_ret
  | |- runs (note _) _ _ => apply runs_note
  | |- runs (err _) _ _ => apply runs_err
  | |- runs (printf _) _ _ => apply runs_printf
  | |- runs (call _) _ _ => apply runs_call
  | |- runs (bind _ _) _ _ => eapply runs_bind
  | |- runs (if _ then _ else _) _ _ => eapply runs_if
  end.

Section MainRuns.
Context `{Collaborators}.

Lemma runs_read_data (libsvm_format : bool) (file : option string) (data : GenData) :
  (if libsvm_format then gensvm_read_data_libsvm file else gensvm_read_data file)
  = Some data ->
  runs (read_data libsvm_format file) data [call_read_data libsvm_format file].
Proof.
  intros Hread. unfold read_data. rewrite Hread.
  eapply runs_eq; [repeat runs_step | reflexivity].
Qed.

Lemma runs_main_load (argv : list string) (grid : GenGrid)
    (train_data : GenData) (test_data : option GenData) :
  load_data argv grid = Some (train_data, test_data) ->
  runs (main_load argv grid) (train_data, test_data) (read_calls argv grid).
Proof.
  unfold load_data, main_load, read_calls. cbv zeta.
  destruct (gensvm_check_argv argv "-x") eqn:Ex; cbv beta iota.
  all: match goal with
       | |- context [match ?r (train_data_file ?g) with _ => _ end] =>
           destruct (r (train_data_file g)) as [tr | ] eqn:Etr; [ | discriminate]
       end.
  all: match goal with
       | |- context [test_data_file ?g] => destruct (test_data_file g) as [file | ]
       end.
  all: try match goal with
           | |- context [match ?r (Some ?f) with _ => _ end] =>
               destruct (r (Some f)) as [te | ] eqn:Ete; [ | discriminate]
           end.
  all: intros [= <- <-].
  all: eapply runs_eq;
    [ eapply runs_bind; [apply runs_note | ];
      eapply runs_bind; [apply runs_read_data; exact Etr | ];
      first [ apply runs_ret
            | eapply runs_bind; [apply runs_read_data; exact Ete | apply runs_ret] ]
    | reflexivity ].
Qed.

Lemma runs_main_dense_train (grid : GenGrid) (train_data : GenData) :
  runs (main_dense_train grid train_data)
    (if is_NULL (Z_ train_data) && negb (KernelType_eqb (kerneltype grid) K_LINEAR)
     then dense_train train_data else train_data)
    (if is_NULL (Z_ train_data) && negb (KernelType_eqb (kerneltype grid) K_LINEAR)
     then [call_sparse_to_dense (spZ train_data); call_free_sparse (spZ train_data)]
     else []).
Proof.
  unfold main_dense_train.
  destruct (is_NULL (Z_ train_data) && negb (KernelType_eqb (kerneltype grid) K_LINEAR)).
  - eapply runs_eq; [repeat runs_step | reflexivity].
  - apply runs_ret.
Qed.








End MainRuns.

(** ** Labels and sparse data *)


Section MainClaims.
Context `{Collaborators}.



End MainClaims.



(** * Further properties of the code *)

(** ** The order of doubles *)

Lemma SFcompare_key (a b : double) :
  is_nan a = false -> is_nan b = false ->
  (SFcompare a b = Some Lt <-> key_lt (order_key a) (order_key b)) /\
  (SFcompare a b = Some Eq <-> order_key a = order_key b) /\
  (SFcompare a b = Some Gt <-> key_lt (order_key b) (order_key a)).
Proof.
  intros Na Nb.
  destruct a as [sa | sa | | sa ma ea], b as [sb | sb | | sb mb eb];
    try discriminate; try destruct sa; try destruct sb;
    unfold key_lt; cbn [SFcompare order_key fst snd];
    try (repeat split; intros; try discriminate; try reflexivity; try lia;
         try congruence; fail).
  all: change (Pos.compare_cont Eq ma mb) with (Pos.compare ma mb).
  all: destruct (Z.compare_spec ea eb); destruct (Pos.compare_spec ma mb);
    cbn [CompOpp]; repeat split; intros Hx; try discriminate; try reflexivity;
    try lia; try (injection Hx; lia); try (f_equal; f_equal; lia).
Qed.

Lemma SFltb_not_nan (a b : double) :
  SFltb a b = true -> is_nan a = false /\ is_nan b = false.
Proof.
  unfold SFltb. destruct a, b; cbn; try discriminate; auto.
Qed.

Lemma SFltb_irrefl (a : double) : SFltb a a = false.
Proof.
  destruct (is_nan a) eqn:Na.
  - destruct a; try discriminate. reflexivity.
  - unfold SFltb. destruct (SFcompare a a) as [[ | | ] | ] eqn:E; try reflexivity.
    apply (SFcompare_key a a Na Na) in E. unfold key_lt in E. lia.
Qed.

Lemma SFltb_trans (a b c : double) :
  SFltb a b = true -> SFltb b c = true -> SFltb a c = true.
Proof.
  intros Hab Hbc.
  destruct (SFltb_not_nan _ _ Hab) as [Na Nb].
  destruct (SFltb_not_nan _ _ Hbc) as [_ Nc].
  unfold SFltb in *.
  destruct (SFcompare a b) as [[ | | ] | ] eqn:Eab; try discriminate.
  destruct (SFcompare b c) as [[ | | ] | ] eqn:Ebc; try discriminate.
  apply (SFcompare_key a b Na Nb) in Eab. apply (SFcompare_key b c Nb Nc) in Ebc.
  assert (E : SFcompare a c = Some Lt).
  { apply (SFcompare_key a c Na Nc). unfold key_lt in *. lia. }
  now rewrite E.
Qed.

(** What does not exceed a bound is neither above nor level with what lies
    above the bound; a NaN is neither in any case. *)
Lemma SFltb_below (m h t : double) :
  SFltb m h = false -> SFltb m t = true ->
  SFltb t h = false /\ SFleb t h = false.
Proof.
  intros Hmh Hmt.
  destruct (SFltb_not_nan _ _ Hmt) as [Nm Nt].
  destruct (is_nan h) eqn:Nh.
  - destruct h; try discriminate. unfold SFltb, SFleb. destruct t; auto.
  - unfold SFltb, SFleb in *.
    destruct (SFcompare m t) as [[ | | ] | ] eqn:Emt; try discriminate.
    apply (SFcompare_key m t Nm Nt) in Emt.
    assert (E : SFcompare t h = Some Gt).
    { apply (SFcompare_key t h Nt Nh).
      destruct (SFcompare m h) as [[ | | ] | ] eqn:Emh; try discriminate.
      - apply (SFcompare_key m h Nm Nh) in Emh. unfold key_lt in *.
        rewrite <- Emh. lia.
      - apply (SFcompare_key m h Nm Nh) in Emh. unfold key_lt in *. lia.
      - destruct m, h; try discriminate; cbn in Emh;
          destruct s; try destruct s0; discriminate. }
    rewrite E. auto.
Qed.

(** ** The selection loop, in general *)

Lemma select_scan_spec (ts : list GenTask) :
  forall (maxperf : double) (best_ID : Z),
    is_nan maxperf = false ->
    (select_scan ts maxperf best_ID = (maxperf, best_ID) /\
     forall u, In u ts -> double_gt (performance u) maxperf = false) \/
    (exists (k : nat) (t : GenTask),
       nth_error ts k = Some t /\
       select_scan ts maxperf best_ID = (performance t, ID t) /\
       double_gt (performance t) maxperf = true /\
       (forall u, In u ts -> double_gt (performance u) (performance t) = false) /\
       (forall j u, (j < k)%nat -> nth_error ts j = Some u ->
          SFleb (performance t) (performance u) = false)).
Proof.
  induction ts as [ | h rest IH]; intros maxperf best_ID Nm.
  - left. split; [reflexivity | intros u []].
  - cbn [select_scan]. destruct (double_gt (performance h) maxperf) eqn:Hh.
    + right. unfold double_gt in Hh.
      destruct (SFltb_not_nan _ _ Hh) as [_ Nh].
      destruct (IH (performance h) (ID h) Nh)
        as [[Hkeep Hle] | [k [t [Hk [Hsel [Hgt [Hmax Hfirst]]]]]]].
      * exists 0%nat, h. repeat split; trivial.
        -- intros u [<- | Hu]; [apply SFltb_irrefl | now apply Hle].
        -- intros j u Hj. lia.
      * exists (S k), t. unfold double_gt in *. repeat split; trivial.
        -- exact (SFltb_trans _ _ _ Hh Hgt).
        -- intros u [<- | Hu]; [ | now apply Hmax].
           apply (SFltb_below (performance h) (performance h) (performance t));
             [apply SFltb_irrefl | exact Hgt].
        -- intros [ | j] u Hj Hu.
           ++ injection Hu as <-.
              apply (SFltb_below (performance h) (performance h) (performance t));
                [apply SFltb_irrefl | exact Hgt].
           ++ apply (Hfirst j); [lia | exact Hu].
    + destruct (IH maxperf best_ID Nm)
        as [[Hkeep Hle] | [k [t [Hk [Hsel [Hgt [Hmax Hfirst]]]]]]].
      * left. split; [exact Hkeep | ].
        intros u [<- | Hu]; [exact Hh | now apply Hle].
      * right. exists (S k), t. unfold double_gt in *. repeat split; trivial.
        -- intros u [<- | Hu]; [ | now apply Hmax].
           exact (proj1 (SFltb_below _ _ _ Hh Hgt)).
        -- intros [ | j] u Hj Hu.
           ++ injection Hu as <-. exact (proj2 (SFltb_below _ _ _ Hh Hgt)).
           ++ apply (Hfirst j); [lia | exact Hu].
Qed.

Lemma find_best_task_spec (ts : list GenTask) (best_ID : Z) :
  forall best_task : option GenTask,
    (find_best_task ts best_ID best_task = best_task /\
     forall t, In t ts -> ID t <> best_ID) \/
    (exists (before after : list GenTask) (t : GenTask),
       ts = (before ++ t :: after)%list /\ ID t = best_ID /\
       (forall u, In u after -> ID u <> best_ID) /\
       find_best_task ts best_ID best_task = Some t).
Proof.
  induction ts as [ | h rest IH]; intros best_task.
  - left. split; [reflexivity | intros t []].
  - cbn [find_best_task].
    destruct (IH (if (ID h =? best_ID)%Z then Some h else best_task))
      as [[Hkeep Hno] | [before [after [t [-> [Hid [Hafter Hfind]]]]]]].
    + destruct (Z.eqb_spec (ID h) best_ID) as [E | NE].
      * right. exists [], rest, h. repeat split; trivial.
      * left. split; [exact Hkeep | ].
        intros t [<- | Ht]; [exact NE | now apply Hno].
    + right. exists (h :: before), after, t. repeat split; trivial.
Qed.

Lemma ID_injective_on (ts : list GenTask) (t u : GenTask) :
  NoDup (map ID ts) -> In t ts -> In u ts -> ID t = ID u -> t = u.
Proof.
  induction ts as [ | h rest IH]; intros Hnd Ht Hu E; [destruct Ht | ].
  cbn [map] in Hnd. apply NoDup_cons_iff in Hnd. destruct Hnd as [Hh Hnd].
  destruct Ht as [<- | Ht], Hu as [<- | Hu]; trivial.
  - destruct Hh. rewrite E. now apply in_map.
  - destruct Hh. rewrite <- E. now apply in_map.
  - now apply IH.
Qed.

Lemma simple_selection_spec (q : GenQueue) :
  (simple_selection q = -1 /\
   forall u, In u (tasks q) -> double_gt (performance u) minus_one = false) \/
  (exists (k : nat) (t : GenTask),
     nth_error (tasks q) k = Some t /\
     simple_selection q = ID t /\
     double_gt (performance t) minus_one = true /\
     (forall u, In u (tasks q) -> double_gt (performance u) (performance t) = false) /\
     (forall j u, (j < k)%nat -> nth_error (tasks q) j = Some u ->
        SFleb (performance t) (performance u) = false)).
Proof.
  unfold simple_selection.
  destruct (select_scan_spec (tasks q) minus_one (-1) eq_refl)
    as [[Hkeep Hle] | [k [t [Hk [Hsel [Hgt [Hmax Hfirst]]]]]]].
  - left. rewrite Hkeep. split; [reflexivity | exact Hle].
  - right. exists k, t. rewrite Hsel. repeat split; trivial.
Qed.

(** X1: whatever the scores, NaN included, the simple scan ends in one of
    two ways.  Either no task scores above -1 and [best_ID] is still -1; or
    [best_ID] is the identifier of a task that scores above -1, that no task
    exceeds, and that every earlier task stays strictly below (or is a
    NaN). *)
Theorem simple_selection_is_first_maximum (q : GenQueue) :
  (simple_selection q = -1 /\
   forall u, In u (tasks q) -> double_gt (performance u) minus_one = false) \/
  (exists (k : nat) (t : GenTask),
     nth_error (tasks q) k = Some t /\
     simple_selection q = ID t /\
     double_gt (performance t) minus_one = true /\
     (forall u, In u (tasks q) -> double_gt (performance u) (performance t) = false) /\
     (forall j u, (j < k)%nat -> nth_error (tasks q) j = Some u ->
        SFleb (performance t) (performance u) = false)).
Proof. apply simple_selection_spec. Qed.

(** X2: the lookup of the best task returns the last task of the queue
    that has the identifier, and nothing exactly when no task has it. *)
Theorem find_best_task_is_last_match (ts : list GenTask) (best_ID : Z) :
  (find_best_task ts best_ID None = None /\
   forall t, In t ts -> ID t <> best_ID) \/
  (exists (before after : list GenTask) (t : GenTask),
     ts = (before ++ t :: after)%list /\ ID t = best_ID /\
     (forall u, In u after -> ID u <> best_ID) /\
     find_best_task ts best_ID None = Some t).
Proof. apply find_best_task_spec. Qed.

(** X3: selection followed by lookup.  When the identifiers of the tasks
    are distinct and some task scores above -1, the task [main] looks up
    after the simple scan is a task of the queue that scores above -1 and
    that no task exceeds. *)
Theorem selected_task_is_found (q : GenQueue) :
  NoDup (map ID (tasks q)) ->
  (exists u, In u (tasks q) /\ double_gt (performance u) minus_one = true) ->
  exists t,
    find_best_task (tasks q) (simple_selection q) None = Some t /\
    In t (tasks q) /\ ID t = simple_selection q /\
    double_gt (performance t) minus_one = true /\
    forall u, In u (tasks q) -> double_gt (performance u) (performance t) = false.
Proof.
  intros Hnd [u0 [Hu0 Hgt0]].
  destruct (simple_selection_spec q)
    as [[_ Hle] | [k [t [Hk [Hsel [Hgt [Hmax _]]]]]]].
  - rewrite (Hle u0 Hu0) in Hgt0. discriminate.
  - assert (Ht : In t (tasks q)) by exact (nth_error_In _ _ Hk).
    exists t. repeat split; trivial; [ | now symmetry].
    destruct (find_best_task_spec (tasks q) (simple_selection q) None)
      as [[_ Hno] | [before [after [t' [Hts [Hid [_ Hfind]]]]]]].
    + destruct (Hno t Ht). now symmetry.
    + rewrite Hfind. f_equal.
      apply (ID_injective_on (tasks q)); trivial; [ | congruence].
      rewrite Hts. apply in_or_app. right. now left.
Qed.

Lemma selected_task_is_found_witness :
  exists t,
    find_best_task (tasks queue_3_5_5_2) (simple_selection queue_3_5_5_2) None
    = Some t /\
    In t (tasks queue_3_5_5_2) /\ ID t = simple_selection queue_3_5_5_2 /\
    double_gt (performance t) minus_one = true /\
    forall u, In u (tasks queue_3_5_5_2) ->
              double_gt (performance u) (performance t) = false.
Proof.
  apply (selected_task_is_found queue_3_5_5_2).
  - repeat constructor; cbn; intuition discriminate.
  - exists (mkTask 0 d_3). split; [now left | reflexivity].
Defined.

(** ** The two selection modes *)

(** Equal scores compare alike with every score. *)
Lemma SFltb_eq_left (a b c : double) :
  SFeqb a b = true -> SFltb a c = SFltb b c.
Proof.
  intros E. unfold SFeqb in E.
  destruct (SFcompare a b) as [[ | | ] | ] eqn:Eab; try discriminate E.
  assert (Ha : is_nan a = false) by (destruct a; [ | | destruct b | ]; trivial; discriminate Eab).
  assert (Hb : is_nan b = false) by (destruct b; [ | | destruct a | ]; trivial; discriminate Eab).
  destruct (is_nan c) eqn:Hc.
  { destruct c; try discriminate Hc. destruct a, b; reflexivity. }
  destruct (SFcompare_key a b Ha Hb) as [_ [Heq _]].
  destruct (SFcompare_key a c Ha Hc) as [Hac _].
  destruct (SFcompare_key b c Hb Hc) as [Hbc _].
  apply Heq in Eab. rewrite Eab in Hac.
  assert (Hiff : SFcompare a c = Some Lt <-> SFcompare b c = Some Lt)
    by (rewrite Hac, Hbc; reflexivity).
  unfold SFltb.
  destruct (SFcompare a c) as [[ | | ] | ], (SFcompare b c) as [[ | | ] | ];
    trivial;
    first [ assert (X : @Some comparison Lt = Some Lt) by reflexivity;
            apply Hiff in X; discriminate X
          | assert (X : @Some comparison Lt = Some Lt) by reflexivity;
            apply (proj2 Hiff) in X; discriminate X ].
Qed.

(** Where Simple mode selects a task, it is the first unbeaten one. *)
Lemma spec_simple_mode_first (q : GenQueue) (t : GenTask) :
  spec_simple_mode q = Some t ->
  exists k : nat,
    nth_error (tasks q) k = Some t /\ unbeaten (tasks q) t = true /\
    forall j u, (j < k)%nat -> nth_error (tasks q) j = Some u ->
      unbeaten (tasks q) u = false.
Proof.
  unfold spec_simple_mode. generalize (unbeaten (tasks q)) as p.
  intros p. induction (tasks q) as [ | a l IH]; cbn [find]; intros Hfind.
  - discriminate Hfind.
  - destruct (p a) eqn:Ea.
    + injection Hfind as <-. exists 0%nat. repeat split; trivial.
      intros j u Hj. lia.
    + destruct (IH Hfind) as [k [Hk [Hp Hbefore]]].
      exists (S k). repeat split; trivial.
      intros [ | j] u Hj Hu.
      * injection Hu as <-. exact Ea.
      * apply (Hbefore j u); [lia | exact Hu].
Qed.

Section SelectionModes.
Context `{Collaborators}.

(** C2 (amended): the branch on [grid->repeats] decides the selection.
    With a positive number of repeats the identifier is the one that the
    consistency repeats return, and their call is the only thing that
    happens.  With 0 repeats the scan of [main] decides and nothing else
    happens: the identifier is that of the task that Simple mode, as the
    specification words it, selects on the same queue, provided that this
    task scores strictly above -1, the start value of [maxperf]. *)
Theorem selection_mode_by_repeats
    (seed : Z) (grid : GenGrid) (q : GenQueue) (w : World) :
  (repeats grid = 0 ->
   forall t : GenTask,
     spec_simple_mode q = Some t ->
     double_gt (performance t) minus_one = true ->
     main_select seed grid q w = (Ret (ID t), w)) /\
  (0 < repeats grid ->
   exists w' : World,
     main_select seed grid q w
     = (Ret (gensvm_consistency_repeats seed q (repeats grid) (percentile grid)), w') /\
     calls w'
     = (calls w ++ [call_consistency_repeats q (repeats grid) (percentile grid)])%list /\
     stdout w' = stdout w /\ stderr w' = stderr w).
Proof.
  split.
  - intros Hrep t Hspec Hgt.
    destruct (spec_simple_mode_first q t Hspec) as [k [Hk [Hun Hbefore]]].
    assert (Hmax : forall u, In u (tasks q) ->
                     double_gt (performance u) (performance t) = false).
    { intros u Hu. unfold unbeaten in Hun.
      rewrite forallb_forall in Hun. specialize (Hun u Hu).
      now apply negb_true_iff in Hun. }
    assert (Hfirst : forall j u, (j < k)%nat -> nth_error (tasks q) j = Some u ->
                       SFeqb (performance u) (performance t) = false).
    { intros j u Hj Hu.
      destruct (SFeqb (performance u) (performance t)) eqn:Eq; [ | reflexivity].
      rewrite <- (Hbefore j u Hj Hu). symmetry.
      unfold unbeaten. apply forallb_forall. intros x Hx.
      unfold double_gt. rewrite (SFltb_eq_left _ _ (performance x) Eq).
      apply negb_true_iff. exact (Hmax x Hx). }
    assert (E : simple_selection q = ID t).
    { unfold simple_selection.
      now rewrite (select_scan_first_max (tasks q) k t minus_one (-1)
                     Hk Hgt Hmax Hfirst). }
    unfold main_select. rewrite Hrep. cbn [Z.ltb Z.compare]. now rewrite E.
  - intros Hrep. unfold main_select.
    destruct (Z.ltb_spec 0 (repeats grid)) as [_ | Hle]; [ | lia].
    eexists. split; [reflexivity | ]. repeat split.
Qed.

End SelectionModes.

Lemma selection_mode_by_repeats_witness :
  @main_select _ (Sample.collaborators [] [] queue_3_5_5_2 K_LINEAR)
    0 Sample.empty_grid queue_3_5_5_2 Sample.world0
  = (Ret (ID (mkTask 1 d_5)), Sample.world0) /\
  (exists w' : World,
     @main_select _ (Sample.collaborators [] [] queue_3_5_5_2 K_LINEAR)
       0 (set_repeats 3 Sample.empty_grid) queue_3_5_5_2 Sample.world0
     = (Ret (@gensvm_consistency_repeats _
               (Sample.collaborators [] [] queue_3_5_5_2 K_LINEAR)
               0 queue_3_5_5_2 (repeats (set_repeats 3 Sample.empty_grid))
               (percentile (set_repeats 3 Sample.empty_grid))), w') /\
     calls w'
     = (calls Sample.world0
        ++ [call_consistency_repeats queue_3_5_5_2
              (repeats (set_repeats 3 Sample.empty_grid))
              (percentile (set_repeats 3 Sample.empty_grid))])%list /\
     stdout w' = stdout Sample.world0 /\ stderr w' = stderr Sample.world0).
Proof.
  split.
  - apply (proj1 (@selection_mode_by_repeats _
                    (Sample.collaborators [] [] queue_3_5_5_2 K_LINEAR)
                    0 Sample.empty_grid queue_3_5_5_2 Sample.world0)
             eq_refl (mkTask 1 d_5)); reflexivity.
  - apply (proj2 (@selection_mode_by_repeats _
                    (Sample.collaborators [] [] queue_3_5_5_2 K_LINEAR)
                    0 (set_repeats 3 Sample.empty_grid) queue_3_5_5_2
                    Sample.world0)).
    reflexivity.
Defined.

(** C2 as stated, without the condition on -1, fails: on the queue of the
    scores -1.0 and -2.0 Simple mode selects the first task, while the run
    with 0 repeats selects none and leaves [best_ID] at -1. *)
Lemma zero_repeats_differs_from_simple_mode :
  ~ (forall (grid : GenGrid) (q : GenQueue) (t : GenTask),
       repeats grid = 0 ->
       spec_simple_mode q = Some t ->
       @main_select _ (Sample.library K_LINEAR) 0 grid q Sample.world0
       = (Ret (ID t), Sample.world0)).
Proof.
  intros Hall.
  specialize (Hall Sample.empty_grid
                (mkQueue [mkTask 0 minus_one; mkTask 1 d_minus_2])
                (mkTask 0 minus_one) eq_refl eq_refl).
  assert (E : @main_select _ (Sample.library K_LINEAR) 0 Sample.empty_grid
                (mkQueue [mkTask 0 minus_one; mkTask 1 d_minus_2]) Sample.world0
              = (Ret (-1), Sample.world0)) by reflexivity.
  rewrite E in Hall. discriminate Hall.
Qed.

(** ** The elapsed time *)

Lemma shr_1_sign (mrs : shr_record) :
  (0 <= shr_m mrs -> 0 <= shr_m (shr_1 mrs)).
Proof.
  destruct mrs as [m r s]. cbn [shr_m]. intros Hm.
  destruct m as [ | [p | p | ] | p]; cbn; lia.
Qed.

Lemma iter_shr_1_sign (p : positive) :
  forall mrs, 0 <= shr_m mrs -> 0 <= shr_m (iter_pos shr_1 p mrs).
Proof.
  induction p as [p IH | p IH | ]; intros mrs Hm; cbn [iter_pos].
  - apply IH. apply IH. now apply shr_1_sign.
  - apply IH. now apply IH.
  - now apply shr_1_sign.
Qed.

Lemma shr_fexp_sign (prec emax m e : Z) (l : location) :
  0 <= m -> 0 <= shr_m (fst (shr_fexp prec emax m e l)).
Proof.
  intros Hm. unfold shr_fexp, shr.
  assert (H0 : 0 <= shr_m (shr_record_of_loc m l)).
  { destruct l as [ | [ | | ]]; exact Hm. }
  destruct (fexp prec emax (Zdigits2 m + e) - e); cbn [fst]; trivial.
  now apply iter_shr_1_sign.
Qed.

(** Rounding a mantissa that is not negative gives a number with the sign
    asked for, never a NaN. *)
Lemma binary_round_aux_sign (prec emax : Z) (sx : bool) (mx ex : Z) (lx : location) :
  0 <= mx -> signed_as sx (binary_round_aux prec emax sx mx ex lx) = true.
Proof.
  intros Hm. unfold binary_round_aux.
  pose proof (shr_fexp_sign prec emax mx ex lx Hm) as H1.
  destruct (shr_fexp prec emax mx ex lx) as [mrs' e']. cbn [fst] in H1.
  assert (H2 : 0 <= round_nearest_even (shr_m mrs') (loc_of_shr_record mrs')).
  { unfold round_nearest_even.
    destruct (loc_of_shr_record mrs') as [ | [ | | ]]; try lia.
    destruct (Z.even (shr_m mrs')); lia. }
  pose proof (shr_fexp_sign prec emax _ e' loc_Exact H2) as H3.
  destruct (shr_fexp prec emax _ e' loc_Exact) as [mrs'' e'']. cbn [fst] in H3.
  destruct (shr_m mrs'') as [ | m | m]; cbn.
  - apply eqb_reflx.
  - destruct (e'' <=? emax - prec)%Z; cbn; apply eqb_reflx.
  - lia.
Qed.

Lemma Z_to_double_sign (z : Z) :
  signed_as (z <? 0)%Z (Z_to_double z) = true.
Proof.
  unfold Z_to_double, binary_normalize.
  destruct z as [ | p | p]; [reflexivity | | ]; cbn [Z.ltb Z.compare];
    unfold binary_round; destruct (shl_align p 0 _) as [mz ez];
    apply binary_round_aux_sign; lia.
Qed.

Lemma SFdiv_sign (sx : bool) (x y : double) (m : positive) (e : Z) :
  signed_as sx x = true -> y = S754_finite false m e ->
  signed_as sx (SFdiv 53 1024 x y) = true.
Proof.
  intros Hx ->. destruct x as [s | s | | s mx ex]; cbn in Hx; try discriminate;
    apply eqb_prop in Hx; subst s.
  - cbn. rewrite xorb_false_r. apply eqb_reflx.
  - cbn. rewrite xorb_false_r. apply eqb_reflx.
  - unfold SFdiv. rewrite xorb_false_r.
    destruct (SFdiv_core_binary 53 1024 (Z.pos mx) ex (Z.pos m) e)
      as [[mz ez] lz] eqn:E.
    apply binary_round_aux_sign.
    unfold SFdiv_core_binary in E. cbv zeta in E.
    match type of E with
    | (let '(q, r) := Z.div_eucl ?a ?b in _) = _ =>
        pose proof (Z_div_mod a b) as Hr;
        destruct (Z.div_eucl a b) as [q r]; assert (Ha : 0 <= a)
    end.
    { destruct (_ - _ - _); try lia. apply Z.shiftl_nonneg. lia. }
    injection E as <- _ _.
    specialize (Hr ltac:(lia)). nia.
Qed.

Lemma clock_sub_diag (ct : ClockType) (z : Z) :
  0 < clock_bits ct -> clock_sub ct z z = 0.
Proof.
  intros Hb. destruct ct as [bits | bits]; cbn [clock_sub clock_bits] in *;
    rewrite Z.sub_diag.
  - assert (E : 2 ^ bits = 2 * 2 ^ (bits - 1)).
    { rewrite <- Z.pow_succ_r by lia. f_equal. lia. }
    assert (Hp : 0 < 2 ^ (bits - 1)) by (apply Z.pow_pos_nonneg; lia).
    rewrite Z.mod_small; lia.
  - apply Z.mod_0_l. apply Z.pow_nonzero; lia.
Qed.

Lemma clock_sub_in_range (ct : ClockType) (e_time s_time : Z) :
  0 < clock_bits ct ->
  clock_in_range ct (e_time - s_time) = true ->
  clock_sub ct e_time s_time = e_time - s_time.
Proof.
  intros Hb Hr. destruct ct as [bits | bits];
    cbn [clock_sub clock_bits clock_in_range] in *;
    apply andb_prop in Hr; destruct Hr as [Hlo Hhi];
    apply Z.leb_le in Hlo; apply Z.ltb_lt in Hhi.
  - assert (E : 2 ^ bits = 2 * 2 ^ (bits - 1)).
    { rewrite <- Z.pow_succ_r by lia. f_equal. lia. }
    rewrite Z.mod_small; lia.
  - apply Z.mod_small. lia.
Qed.

Lemma clock_sub_unsigned (bits : Z) (e_time s_time : Z) :
  0 < bits -> 0 <= clock_sub (clock_unsigned bits) e_time s_time.
Proof.
  intros Hb. cbn [clock_sub].
  apply Z.mod_pos_bound. apply Z.pow_pos_nonneg; lia.
Qed.

(** X4: for every [clock_t] and every [CLOCKS_PER_SEC] whose double is a
    positive finite number, the elapsed time is never a NaN and has the sign
    of the difference as [clock_t] computes it: +0.0 for equal clocks, and
    the sign bit set exactly when that difference is negative.  Where the
    difference of the two clocks fits [clock_t] this is the sign of
    [e_time - s_time]; where it does not, the sign is that of the
    wrapped-around difference; and with an unsigned [clock_t] the sign bit
    is never set. *)
Theorem gensvm_elapsed_time_sign (ct : ClockType) (CLOCKS_PER_SEC : Z)
    (m : positive) (e : Z) (s_time e_time : Z) :
  0 < clock_bits ct ->
  Z_to_double CLOCKS_PER_SEC = S754_finite false m e ->
  gensvm_elapsed_time ct CLOCKS_PER_SEC s_time s_time = S754_zero false /\
  signed_as (clock_sub ct e_time s_time <? 0)%Z
    (gensvm_elapsed_time ct CLOCKS_PER_SEC s_time e_time) = true /\
  (clock_in_range ct (e_time - s_time) = true ->
   signed_as (e_time <? s_time)%Z
     (gensvm_elapsed_time ct CLOCKS_PER_SEC s_time e_time) = true) /\
  (ct = clock_unsigned (clock_bits ct) ->
   signed_as false (gensvm_elapsed_time ct CLOCKS_PER_SEC s_time e_time) = true).
Proof.
  intros Hb Hcps.
  assert (Hsign : signed_as (clock_sub ct e_time s_time <? 0)%Z
                    (gensvm_elapsed_time ct CLOCKS_PER_SEC s_time e_time) = true).
  { unfold gensvm_elapsed_time. rewrite Hcps.
    apply (SFdiv_sign _ _ _ m e); [ | reflexivity]. apply Z_to_double_sign. }
  split; [ | split; [exact Hsign | split]].
  - unfold gensvm_elapsed_time. rewrite Hcps.
    now rewrite (clock_sub_diag ct s_time Hb).
  - intros Hr. rewrite (clock_sub_in_range ct e_time s_time Hb Hr) in Hsign.
    replace (e_time <? s_time)%Z with (e_time - s_time <? 0)%Z; [exact Hsign | ].
    destruct (Z.ltb_spec (e_time - s_time) 0), (Z.ltb_spec e_time s_time);
      trivial; lia.
  - intros Hu. rewrite Hu in Hsign.
    pose proof (clock_sub_unsigned (clock_bits ct) e_time s_time Hb) as Hpos.
    destruct (Z.ltb_spec (clock_sub (clock_unsigned (clock_bits ct)) e_time s_time) 0)
      as [Hneg | _]; [lia | ].
    now rewrite Hu.
Qed.

Lemma gensvm_elapsed_time_sign_witness :
  gensvm_elapsed_time (clock_signed 64) 1000000 7 7 = S754_zero false /\
  signed_as (clock_sub (clock_signed 64) 2500007 7 <? 0)%Z
    (gensvm_elapsed_time (clock_signed 64) 1000000 7 2500007) = true /\
  (clock_in_range (clock_signed 64) (2500007 - 7) = true ->
   signed_as (2500007 <? 7)%Z
     (gensvm_elapsed_time (clock_signed 64) 1000000 7 2500007) = true) /\
  (clock_signed 64 = clock_unsigned (clock_bits (clock_signed 64)) ->
   signed_as false
     (gensvm_elapsed_time (clock_signed 64) 1000000 7 2500007) = true).
Proof.
  apply (gensvm_elapsed_time_sign (clock_signed 64) 1000000 8589934592000000 (-33)
           7 2500007).
  - reflexivity.
  - reflexivity.
Defined.

(** With a signed [clock_t] of 64 bits the difference of the clocks -1 and
    2^63 - 1 wraps around to -2^63 and the elapsed time is negative; for the
    clocks 7 and 2500007 it is 2.5; with an unsigned [clock_t] an end
    before the start gives a positive time. *)
Lemma gensvm_elapsed_time_examples :
  clock_sub (clock_signed 64) 9223372036854775807 (-1) = - 2 ^ 63 /\
  signed_as true
    (gensvm_elapsed_time (clock_signed 64) 1000000 (-1) 9223372036854775807)
  = true /\
  gensvm_elapsed_time (clock_signed 64) 1000000 7 2500007
  = S754_finite false 5629499534213120 (-51) /\
  signed_as false
    (gensvm_elapsed_time (clock_unsigned 32) 1000000 2500007 7) = true.
Proof.
  vm_compute. repeat split.
Qed.

(** ** What a computation writes *)

Section Emits.
Context `{Matrices}.

Lemma emits_ret (A : Type) (o e : option Stream) (a : A) :
  emits o e (ret a) (Ret a) [] [] [].
Proof.
  intros w Ho He. exists w. rewrite !app_nil_r. repeat split; trivial.
Qed.

Lemma emits_exit (A : Type) (o e : option Stream) (status : Z) :
  emits o e (@exit _ A status) (Exit status) [] [] [].
Proof.
  intros w Ho He. exists w. rewrite !app_nil_r. repeat split; trivial.
Qed.

Lemma emits_printf (o e : option Stream) (msg : string) :
  emits o e (printf msg) (Ret tt) [msg] [] [].
Proof.
  intros w Ho He. eexists. split; [reflexivity | ]. cbn.
  rewrite !app_nil_r. repeat split; trivial.
Qed.

Lemma emits_fprintf_stderr (o e : option Stream) (msg : string) :
  emits o e (fprintf_stderr msg) (Ret tt) [] [msg] [].
Proof.
  intros w Ho He. eexists. split; [reflexivity | ]. cbn.
  rewrite !app_nil_r. repeat split; trivial.
Qed.

Lemma emits_call (o e : option Stream) (c : Call) :
  emits o e (call c) (Ret tt) [] [] [c].
Proof.
  intros w Ho He. eexists. split; [reflexivity | ]. cbn.
  rewrite !app_nil_r. repeat split; trivial.
Qed.

Lemma emits_note (o e : option Stream) (msg : string) :
  emits o e (note msg) (Ret tt) (sent c_stdout o msg) (sent c_stderr o msg) [].
Proof.
  intros w Ho He. unfold note. rewrite Ho.
  destruct o as [[ | ] | ]; eexists; (split; [reflexivity | ]); cbn;
    rewrite !app_nil_r; repeat split; trivial.
Qed.

Lemma emits_err (o e : option Stream) (msg : string) :
  emits o e (err msg) (Ret tt) (sent c_stdout e msg) (sent c_stderr e msg) [].
Proof.
  intros w Ho He. unfold err. rewrite He.
  destruct e as [[ | ] | ]; eexists; (split; [reflexivity | ]); cbn;
    rewrite !app_nil_r; repeat split; trivial.
Qed.

Lemma emits_bind_ret (A B : Type) (o e : option Stream) (c : M A) (k : A -> M B)
    (a : A) (r : Result B) (so1 so2 se1 se2 : list string) (cs1 cs2 : list Call) :
  emits o e c (Ret a) so1 se1 cs1 -> emits o e (k a) r so2 se2 cs2 ->
  emits o e (bind c k) r (so1 ++ so2)%list (se1 ++ se2)%list (cs1 ++ cs2)%list.
Proof.
  intros Hc Hk w Ho He.
  destruct (Hc w Ho He) as [w1 [E1 [Ho1 [He1 [S1 [T1 C1]]]]]].
  destruct (Hk w1 Ho1 He1) as [w2 [E2 [Ho2 [He2 [S2 [T2 C2]]]]]].
  exists w2. rewrite (bind_ret_eq _ _ _ _ _ _ _ E1).
  rewrite S2, T2, C2, S1, T1, C1, !app_assoc. repeat split; trivial.
Qed.

Lemma emits_bind_exit (A B : Type) (o e : option Stream) (c : M A) (k : A -> M B)
    (status : Z) (so se : list string) (cs : list Call) :
  emits o e c (Exit status) so se cs ->
  emits o e (bind c k) (Exit status) so se cs.
Proof.
  intros Hc w Ho He.
  destruct (Hc w Ho He) as [w1 [E1 Hrest]].
  exists w1. now rewrite (bind_exit_eq _ _ _ _ _ _ _ E1).
Qed.

Lemma emits_if (A : Type) (o e : option Stream) (b : bool) (c1 c2 : M A)
    (r : Result A) (so1 so2 se1 se2 : list string) (cs1 cs2 : list Call) :
  emits o e c1 r so1 se1 cs1 -> emits o e c2 r so2 se2 cs2 ->
  emits o e (if b then c1 else c2) r
    (if b then so1 else so2) (if b then se1 else se2) (if b then cs1 else cs2).
Proof. now destruct b. Qed.

Lemma emits_eq (A : Type) (o e : option Stream) (c : M A) (r : Result A)
    (so so' se se' : list string) (cs cs' : list Call) :
  emits o e c r so se cs -> so = so' -> se = se' -> cs = cs' ->
  emits o e c r so' se' cs'.
Proof. now intros Hc <- <- <-. Qed.

End Emits.

Ltac emits_step :=
  lazymatch goal with
  | |- emits _ _ (ret _) _ _ _ _ => apply emits_ret
  | |- emits _ _ (exit _) _ _ _ _ => apply emits_exit
  | |- emits _ _ (printf _) _ _ _ _ => apply emits_printf
  | |- emits _ _ (fprintf_stderr _) _ _ _ _ => apply emits_fprintf_stderr
  | |- emits _ _ (call _) _ _ _ _ => apply emits_call
  | |- emits _ _ (note _) _ _ _ _ => apply emits_note
  | |- emits _ _ (err _) _ _ _ _ => apply emits_err
  | |- emits _ _ (bind _ _) _ _ _ _ => eapply emits_bind_ret
  | |- emits _ _ (if _ then _ else _) _ _ _ _ => eapply emits_if
  end.

(** ** The help and the command line *)

Section CommandLine.
Context `{Collaborators}.

Lemma emits_exit_with_help (A : Type) (o e : option Stream) (argv : list string) :
  emits o e (@exit_with_help _ _ A argv) (Exit EXIT_FAILURE) (help_text argv) [] [].
Proof.
  unfold exit_with_help.
  eapply emits_eq; [repeat emits_step | reflexivity | reflexivity | reflexivity].
Qed.

(** X5: the help goes to stdout with [printf], in quiet mode as well: ten
    lines, nothing on stderr, no call into the library, and the process
    exits with EXIT_FAILURE. *)
Theorem exit_with_help_prints_and_fails (A : Type) (argv : list string) (w : World) :
  exists w' : World,
    @exit_with_help _ _ A argv w = (Exit EXIT_FAILURE, w') /\
    stdout w' = (stdout w ++ help_text argv)%list /\
    List.length (help_text argv) = 10%nat /\
    stderr w' = stderr w /\ calls w' = calls w /\
    GENSVM_OUTPUT_FILE w' = GENSVM_OUTPUT_FILE w /\
    GENSVM_ERROR_FILE w' = GENSVM_ERROR_FILE w.
Proof.
  destruct (emits_exit_with_help A _ _ argv w eq_refl eq_refl)
    as [w' [E [Ho [He [So [Se Cs]]]]]].
  exists w'. rewrite app_nil_r in Se, Cs. repeat split; trivial.
Qed.

(** X6: with fewer than two arguments, or when the help is asked for,
    [main] prints the help on stdout and exits with EXIT_FAILURE; nothing
    goes to stderr, and none of the recorded calls (the reading of data, the
    label check, the conversion, the queue, the training, the selection, the
    prediction) has been made.  The allocations by [gensvm_init_grid],
    [gensvm_init_data] and [gensvm_init_queue] and the tests of the
    arguments come before and are not recorded. *)
Theorem main_help (argv : list string) (w : World) :
  (List.length argv < 2)%nat \/ gensvm_check_argv argv "-help" = true
  \/ gensvm_check_argv_eq argv "-h" = true ->
  exists w' : World,
    main argv w = (Exit EXIT_FAILURE, w') /\
    stdout w' = (stdout w ++ help_text argv)%list /\
    stderr w' = stderr w /\ calls w' = calls w.
Proof.
  intros Hhelp.
  assert (E : (count argv <? MINARGS)%Z || gensvm_check_argv argv "-help"
              || gensvm_check_argv_eq argv "-h" = true).
  { destruct Hhelp as [Hlen | [Hh | Hh]].
    - unfold count, MINARGS. destruct (Z.ltb_spec (Z.of_nat (List.length argv)) 2);
        [reflexivity | lia].
    - rewrite Hh. now rewrite orb_true_r.
    - rewrite Hh. now rewrite orb_true_r. }
  unfold main. rewrite E.
  destruct (emits_exit_with_help Z _ _ argv w eq_refl eq_refl)
    as [w' [E' [Ho [He [So [Se Cs]]]]]].
  exists w'. rewrite app_nil_r in Se, Cs. repeat split; trivial.
Qed.

Lemma exit_with_help_result (A : Type) (argv : list string) (w : World) :
  exists w' : World,
    @exit_with_help _ _ A argv w = (Exit EXIT_FAILURE, w') /\
    stdout w' = (stdout w ++ help_text argv)%list /\ stderr w' = stderr w /\
    GENSVM_OUTPUT_FILE w' = GENSVM_OUTPUT_FILE w /\
    GENSVM_ERROR_FILE w' = GENSVM_ERROR_FILE w.
Proof.
  destruct (emits_exit_with_help A _ _ argv w eq_refl eq_refl)
    as [w' [E [Ho [He [So [Se Cs]]]]]].
  exists w'. rewrite app_nil_r in Se. repeat split; trivial.
Qed.

Lemma parse_command_line_loop_nil (argv : list string) (seed : Z)
    (out : option string) :
  parse_command_line_loop argv [] seed out = exit_with_help argv.
Proof. reflexivity. Qed.

Lemma parse_command_line_loop_cons (argv : list string) (a : string)
    (rest : list string) (seed : Z) (out : option string) :
  parse_command_line_loop argv (a :: rest) seed out
  = if negb (Ascii.eqb (char_at 0 a) "-"%char) then ret (seed, a, out)
    else
      match rest with
      | [] => exit_with_help argv
      | b :: rest' =>
          if Ascii.eqb (char_at 1 a) "o"%char then
            parse_command_line_loop argv rest' seed (Some b)
          else if Ascii.eqb (char_at 1 a) "q"%char then
            bind (set_streams None None)
              (fun _ => parse_command_line_loop argv rest seed out)
          else if Ascii.eqb (char_at 1 a) "x"%char then
            parse_command_line_loop argv rest seed out
          else if Ascii.eqb (char_at 1 a) "z"%char then
            parse_command_line_loop argv rest' (atoi b) out
          else
            bind (fprintf_stderr
                    ("Unknown option: -" ++ String (char_at 1 a) EmptyString ++ nl))
              (fun _ => exit_with_help argv)
      end.
Proof. reflexivity. Qed.

Lemma bind_set_streams (A : Type) (o e : option Stream) (k : unit -> M A) (w : World) :
  bind (set_streams o e) k w = k tt (mkWorld o e (stdout w) (stderr w) (calls w)).
Proof. reflexivity. Qed.

Lemma bind_fprintf_stderr (A : Type) (msg : string) (k : unit -> M A) (w : World) :
  bind (fprintf_stderr msg) k w = k tt (after_stderr msg w).
Proof. reflexivity. Qed.

(** The cases of one turn of the loop of [parse_command_line]. *)
Ltac loop_cases a rest b rest' H0 :=
  rewrite parse_command_line_loop_cons;
  destruct (negb (Ascii.eqb (char_at 0 a) "-"%char)) eqn:H0;
  [ | destruct rest as [ | b rest'];
      [ | destruct (Ascii.eqb (char_at 1 a) "o"%char) eqn:?Ho;
          [ | destruct (Ascii.eqb (char_at 1 a) "q"%char) eqn:?Hq;
              [ | destruct (Ascii.eqb (char_at 1 a) "x"%char) eqn:?Hx;
                  [ | destruct (Ascii.eqb (char_at 1 a) "z"%char) eqn:?Hz ] ] ] ] ].



Lemma parse_command_line_loop_streams (argv : list string) (fuel : nat) :
  forall (args : list string) (seed : Z) (out : option string) (w w' : World)
         (r : Result (Z * string * option string)),
    (List.length args <= fuel)%nat ->
    parse_command_line_loop argv args seed out w = (r, w') ->
    (streams_paired w -> streams_paired w') /\
    ((forall a, In a args -> char_at 1 a <> "q"%char) ->
     GENSVM_OUTPUT_FILE w' = GENSVM_OUTPUT_FILE w /\
     GENSVM_ERROR_FILE w' = GENSVM_ERROR_FILE w).
Proof.
  assert (Hhelp : forall (w w' : World) (r : Result (Z * string * option string)),
             exit_with_help argv w = (r, w') ->
             GENSVM_OUTPUT_FILE w' = GENSVM_OUTPUT_FILE w /\
             GENSVM_ERROR_FILE w' = GENSVM_ERROR_FILE w).
  { intros w w' r Hrun.
    destruct (exit_with_help_result (Z * string * option string) argv w)
      as [w1 [E [_ [_ [Ho He]]]]].
    rewrite E in Hrun. injection Hrun as _ <-. now split. }
  assert (Hpair : forall w w' : World,
             GENSVM_OUTPUT_FILE w' = GENSVM_OUTPUT_FILE w /\
             GENSVM_ERROR_FILE w' = GENSVM_ERROR_FILE w ->
             streams_paired w -> streams_paired w').
  { intros w w' [Ho He]. unfold streams_paired. now rewrite Ho, He. }
  induction fuel as [ | fuel IH]; intros args seed out w w' r Hlen Hrun;
    destruct args as [ | a rest]; cbn [List.length] in Hlen;
    try (exfalso; clear - Hlen; lia).
  - rewrite parse_command_line_loop_nil in Hrun. apply Hhelp in Hrun.
    split; [now apply Hpair | intros _; exact Hrun].
  - rewrite parse_command_line_loop_nil in Hrun. apply Hhelp in Hrun.
    split; [now apply Hpair | intros _; exact Hrun].
  - revert Hrun. loop_cases a rest b rest' Hdash.
    + intros [= <- <-]. split; [trivial | now split].
    + intros Hrun. apply Hhelp in Hrun.
      split; [now apply Hpair | intros _; exact Hrun].
    + intros Hrun. apply IH in Hrun; [ | clear - Hlen; cbn [List.length] in Hlen; lia].
      destruct Hrun as [Hp Hq']. split; [exact Hp | ].
      intros Hno. apply Hq'. intros a' Ha'. apply Hno. now right; right.
    + rewrite bind_set_streams. intros Hrun.
      apply IH in Hrun; [ | clear - Hlen; cbn [List.length] in *; lia].
      destruct Hrun as [Hp _]. split.
      * intros _. apply Hp. right. now split.
      * intros Hno. destruct (Hno a (or_introl eq_refl)).
        now apply Ascii.eqb_eq.
    + intros Hrun. apply IH in Hrun; [ | clear - Hlen; cbn [List.length] in *; lia].
      destruct Hrun as [Hp Hq']. split; [exact Hp | ].
      intros Hno. apply Hq'. intros a' Ha'. apply Hno. now right.
    + intros Hrun. apply IH in Hrun; [ | clear - Hlen; cbn [List.length] in Hlen; lia].
      destruct Hrun as [Hp Hq']. split; [exact Hp | ].
      intros Hno. apply Hq'. intros a' Ha'. apply Hno. now right; right.
    + rewrite bind_fprintf_stderr. intros Hrun. apply Hhelp in Hrun.
      split; [now apply Hpair | intros _; exact Hrun].
Qed.

(** X8: however [parse_command_line] ends, the two streams of the library
    are left both open (stdout, stderr) or both NULL, whatever they were
    before; and when no argument has [q] as its second character they are
    open. *)
Theorem parse_command_line_streams (argv : list string) (out : option string)
    (w w' : World) (r : Result (Z * string * option string)) :
  parse_command_line argv out w = (r, w') ->
  streams_paired w' /\
  ((forall a, In a (tl argv) -> char_at 1 a <> "q"%char) ->
   GENSVM_OUTPUT_FILE w' = Some c_stdout /\ GENSVM_ERROR_FILE w' = Some c_stderr).
Proof.
  unfold parse_command_line. rewrite bind_set_streams. intros Hrun.
  apply (parse_command_line_loop_streams argv (List.length (tl argv))) in Hrun;
    [ | lia].
  destruct Hrun as [Hp Hq]. split.
  - apply Hp. left. now split.
  - intros Hno. exact (Hq Hno).
Qed.

Lemma parse_command_line_loop_all_dashes (argv : list string) (fuel : nat) :
  forall (args : list string) (seed : Z) (out : option string) (w : World),
    (List.length args <= fuel)%nat ->
    (forall a, In a args -> char_at 0 a = "-"%char) ->
    exists w' : World,
      parse_command_line_loop argv args seed out w = (Exit EXIT_FAILURE, w').
Proof.
  assert (Hhelp : forall w : World, exists w' : World,
             @exit_with_help _ _ (Z * string * option string) argv w
             = (Exit EXIT_FAILURE, w')).
  { intros w.
    destruct (exit_with_help_result (Z * string * option string) argv w)
      as [w1 [E _]].
    now exists w1. }
  induction fuel as [ | fuel IH]; intros args seed out w Hlen Hall;
    destruct args as [ | a rest]; cbn [List.length] in Hlen;
    try (exfalso; clear - Hlen; lia).
  - rewrite parse_command_line_loop_nil. apply Hhelp.
  - rewrite parse_command_line_loop_nil. apply Hhelp.
  - assert (Hrest : forall a', In a' rest -> char_at 0 a' = "-"%char).
    { intros a' Ha'. apply Hall. now right. }
    loop_cases a rest b rest' Hdash.
    + rewrite (Hall a (or_introl eq_refl)) in Hdash. discriminate Hdash.
    + apply Hhelp.
    + apply IH; [clear - Hlen; cbn [List.length] in Hlen; lia | ].
      intros a' Ha'. apply Hrest. now right.
    + rewrite bind_set_streams.
      apply IH; [clear - Hlen; cbn [List.length] in *; lia | exact Hrest].
    + apply IH; [clear - Hlen; cbn [List.length] in *; lia | exact Hrest].
    + apply IH; [clear - Hlen; cbn [List.length] in Hlen; lia | ].
      intros a' Ha'. apply Hrest. now right.
    + rewrite bind_fprintf_stderr. apply Hhelp.
Qed.

(** X9: when every argument after the program name begins with a dash
    (in particular when there is none), no grid file is named and
    [parse_command_line] ends the process with EXIT_FAILURE. *)
Theorem parse_command_line_needs_grid_file (argv : list string)
    (out : option string) (w : World) :
  (forall a, In a (tl argv) -> char_at 0 a = "-"%char) ->
  exists w' : World, parse_command_line argv out w = (Exit EXIT_FAILURE, w').
Proof.
  intros Hall. unfold parse_command_line. rewrite bind_set_streams.
  now apply (parse_command_line_loop_all_dashes argv (List.length (tl argv))).
Qed.

(** X10: an option that is followed by an argument and whose letter is
    none of [o], [q], [x], [z] is reported on stderr, the help follows on
    stdout and the process exits with EXIT_FAILURE. *)
Theorem parse_command_line_unknown_option (prog a b : string) (rest : list string)
    (out : option string) (w : World) :
  char_at 0 a = "-"%char ->
  ~ In (char_at 1 a) ["o"%char; "q"%char; "x"%char; "z"%char] ->
  exists w' : World,
    parse_command_line (prog :: a :: b :: rest) out w = (Exit EXIT_FAILURE, w') /\
    stderr w'
    = (stderr w
       ++ [("Unknown option: -" ++ String (char_at 1 a) EmptyString ++ nl)%string])%list /\
    stdout w' = (stdout w ++ help_text (prog :: a :: b :: rest))%list.
Proof.
  intros Hdash Hletter.
  unfold parse_command_line. rewrite bind_set_streams. cbn [tl].
  rewrite parse_command_line_loop_cons. rewrite Hdash. cbn [Ascii.eqb Bool.eqb negb].
  assert (Hne : forall c, In c ["o"%char; "q"%char; "x"%char; "z"%char] ->
                          Ascii.eqb (char_at 1 a) c = false).
  { intros c Hc. destruct (Ascii.eqb (char_at 1 a) c) eqn:E; [ | reflexivity].
    apply Ascii.eqb_eq in E. destruct Hletter. now rewrite E. }
  rewrite !Hne by (cbn; auto).
  rewrite bind_fprintf_stderr.
  match goal with
  | |- exists _, exit_with_help ?v ?w0 = _ /\ _ =>
      destruct (exit_with_help_result (Z * string * option string) v w0)
        as [w1 [E [So [Se _]]]]
  end.
  exists w1. split; [exact E | ]. split; [exact Se | exact So].
Qed.

Lemma parse_command_line_loop_any_world (argv argv' : list string) (fuel : nat) :
  forall (args : list string) (seed : Z) (out : option string) (w w1 : World)
         (r : Z * string * option string),
    (List.length args <= fuel)%nat ->
    parse_command_line_loop argv args seed out w = (Ret r, w1) ->
    forall w0 : World,
    exists w0' : World,
      parse_command_line_loop argv' args seed out w0 = (Ret r, w0') /\
      (GENSVM_OUTPUT_FILE w0 = None -> GENSVM_ERROR_FILE w0 = None ->
       GENSVM_OUTPUT_FILE w0' = None /\ GENSVM_ERROR_FILE w0' = None).
Proof.
  assert (Hhelp : forall (w w1 : World) (r : Z * string * option string),
             exit_with_help argv w = (Ret r, w1) -> False).
  { intros w w1 r Hrun.
    destruct (exit_with_help_result (Z * string * option string) argv w)
      as [w2 [E _]].
    rewrite E in Hrun. discriminate Hrun. }
  induction fuel as [ | fuel IH]; intros args seed out w w1 r Hlen Hrun w0;
    destruct args as [ | a rest]; cbn [List.length] in Hlen;
    try (exfalso; clear - Hlen; lia).
  - rewrite parse_command_line_loop_nil in Hrun. destruct (Hhelp _ _ _ Hrun).
  - rewrite parse_command_line_loop_nil in Hrun. destruct (Hhelp _ _ _ Hrun).
  - revert Hrun. rewrite (parse_command_line_loop_cons argv').
    loop_cases a rest b rest' Hdash.
    + intros [= <- <-]. exists w0. split; [reflexivity | now split].
    + intros Hrun. destruct (Hhelp _ _ _ Hrun).
    + intros Hrun. apply (IH _ _ _ _ _ _) with (w0 := w0) in Hrun;
        [exact Hrun | clear - Hlen; cbn [List.length] in Hlen; lia].
    + rewrite !bind_set_streams. intros Hrun.
      apply (IH _ _ _ _ _ _) with (w0 := mkWorld None None (stdout w0) (stderr w0) (calls w0))
        in Hrun; [ | clear - Hlen; cbn [List.length] in *; lia].
      destruct Hrun as [w0' [E Hquiet]]. exists w0'. split; [exact E | ].
      intros _ _. now apply Hquiet.
    + intros Hrun. apply (IH _ _ _ _ _ _) with (w0 := w0) in Hrun;
        [exact Hrun | clear - Hlen; cbn [List.length] in *; lia].
    + intros Hrun. apply (IH _ _ _ _ _ _) with (w0 := w0) in Hrun;
        [exact Hrun | clear - Hlen; cbn [List.length] in Hlen; lia].
    + rewrite bind_fprintf_stderr. intros Hrun. destruct (Hhelp _ _ _ Hrun).
Qed.

(** X11: [-q] put before the other arguments changes nothing in what
    [parse_command_line] returns and leaves both streams of the library
    NULL. *)
Theorem parse_command_line_quiet_first (prog : string) (rest : list string)
    (out : option string) (w w1 : World) (r : Z * string * option string) :
  parse_command_line (prog :: rest) out w = (Ret r, w1) ->
  exists w2 : World,
    parse_command_line (prog :: "-q" :: rest) out w = (Ret r, w2) /\
    GENSVM_OUTPUT_FILE w2 = None /\ GENSVM_ERROR_FILE w2 = None.
Proof.
  unfold parse_command_line. rewrite !bind_set_streams. cbn [tl]. intros Hrun.
  rewrite parse_command_line_loop_cons. cbn [char_at String.get Ascii.eqb Bool.eqb negb].
  destruct rest as [ | b rest'].
  - rewrite parse_command_line_loop_nil in Hrun.
    destruct (exit_with_help_result (Z * string * option string) [prog]
                (mkWorld (Some c_stdout) (Some c_stderr) (stdout w) (stderr w) (calls w)))
      as [w3 [E _]].
    rewrite E in Hrun. discriminate Hrun.
  - rewrite bind_set_streams.
    destruct (parse_command_line_loop_any_world
                (prog :: b :: rest') (prog :: "-q" :: b :: rest')
                (List.length (b :: rest')) _ _ _ _ _ _ (le_n _) Hrun
                (mkWorld None None
                   (stdout (mkWorld (Some c_stdout) (Some c_stderr)
                              (stdout w) (stderr w) (calls w)))
                   (stderr (mkWorld (Some c_stdout) (Some c_stderr)
                              (stdout w) (stderr w) (calls w)))
                   (calls (mkWorld (Some c_stdout) (Some c_stderr)
                             (stdout w) (stderr w) (calls w)))))
      as [w2 [E Hquiet]].
    exists w2. split; [exact E | now apply Hquiet].
Qed.

End CommandLine.

(** ** The end of a line *)

Lemma str_length_app (p s : string) :
  String.length (p ++ s) = (String.length p + String.length s)%nat.
Proof. induction p as [ | c p IH]; simpl; [reflexivity | now rewrite IH]. Qed.

Lemma str_app_assoc (p q s : string) : ((p ++ q) ++ s = p ++ (q ++ s))%string.
Proof. induction p as [ | c p IH]; simpl; [reflexivity | now rewrite IH]. Qed.

Lemma drop_app (p s : string) : drop (String.length p) (p ++ s) = s.
Proof. induction p as [ | c p IH]; simpl; [reflexivity | exact IH]. Qed.

Lemma drop_split (k : nat) : forall x : string, exists q : string, x = q ++ drop k x.
Proof.
  induction k as [ | k IH]; intros x.
  - now exists EmptyString.
  - destruct x as [ | c x]; [now exists EmptyString | ].
    destruct (IH x) as [q Hq]. exists (String c q). simpl. now rewrite <- Hq.
Qed.

Lemma str_endswith_app (p s : string) : str_endswith (p ++ s) s = true.
Proof.
  unfold str_endswith. rewrite str_length_app.
  destruct (Nat.ltb_spec (String.length p + String.length s) (String.length s));
    [lia | ].
  replace (String.length p + String.length s - String.length s)%nat
    with (String.length p) by lia.
  rewrite drop_app. apply String.eqb_refl.
Qed.

Lemma str_endswith_split (x s : string) :
  str_endswith x s = true -> exists q : string, x = q ++ s.
Proof.
  unfold str_endswith.
  destruct (String.length x <? String.length s)%nat; [discriminate | ].
  intros E. apply String.eqb_eq in E.
  destruct (drop_split (String.length x - String.length s) x) as [q Hq].
  exists q. now rewrite <- E.
Qed.

Lemma str_app_suffix_inj (p : string) :
  forall q s t : string,
    String.length s = String.length t -> p ++ s = q ++ t -> s = t.
Proof.
  induction p as [ | c p IH]; intros q s t Hlen E.
  - destruct q as [ | d q]; [exact E | ].
    simpl in E. rewrite E in Hlen. simpl in Hlen.
    rewrite str_length_app in Hlen. lia.
  - destruct q as [ | d q].
    + simpl in E. rewrite <- E in Hlen. simpl in Hlen.
      rewrite str_length_app in Hlen. lia.
    + simpl in E. injection E as _ E. exact (IH q s t Hlen E).
Qed.

(** Two lines whose last characters differ do not end in the same way. *)
Lemma str_endswith_other_end (p x y e1 e2 : string) :
  String.length e1 = String.length e2 -> e1 <> e2 ->
  str_endswith (p ++ x ++ e1) (y ++ e2) = false.
Proof.
  intros Hlen Hne.
  destruct (str_endswith (p ++ x ++ e1) (y ++ e2)) eqn:E; [ | reflexivity].
  apply str_endswith_split in E. destruct E as [q E].
  rewrite <- !str_app_assoc in E.
  destruct Hne. exact (str_app_suffix_inj _ _ _ _ Hlen E).
Qed.

Section KernelLine.
Context `{Collaborators}.

(** X12: a line that ends in LINEAR, POLY, RBF or SIGMOID followed by a
    newline gives that kernel, whatever precedes the name on the line, and
    nothing is written. *)
Theorem parse_kernel_str_by_line_end (p : string) (w : World) :
  parse_kernel_str (p ++ "LINEAR" ++ nl) w = (Ret K_LINEAR, w) /\
  parse_kernel_str (p ++ "POLY" ++ nl) w = (Ret K_POLY, w) /\
  parse_kernel_str (p ++ "RBF" ++ nl) w = (Ret K_RBF, w) /\
  parse_kernel_str (p ++ "SIGMOID" ++ nl) w = (Ret K_SIGMOID, w).
Proof.
  assert (Hother : forall (x y : string) (c d : ascii),
             c <> d ->
             str_endswith (p ++ x ++ String c nl) (y ++ String d nl) = false).
  { intros x y c d Hcd.
    apply (str_endswith_other_end p x y (String c nl) (String d nl));
      [reflexivity | ].
    intros E. injection E as E. now destruct Hcd. }
  pose proof (Hother "POL" "LINEA" "Y"%char "R"%char
                ltac:(discriminate)) as PL.
  pose proof (Hother "RB" "LINEA" "F"%char "R"%char
                ltac:(discriminate)) as RL.
  pose proof (Hother "RB" "POL" "F"%char "Y"%char
                ltac:(discriminate)) as RP.
  pose proof (Hother "SIGMOI" "LINEA" "D"%char "R"%char
                ltac:(discriminate)) as SL.
  pose proof (Hother "SIGMOI" "POL" "D"%char "Y"%char
                ltac:(discriminate)) as SP.
  pose proof (Hother "SIGMOI" "RB" "D"%char "F"%char
                ltac:(discriminate)) as SR.
  unfold parse_kernel_str. cbn [append] in *. repeat split.
  - now rewrite str_endswith_app.
  - rewrite PL. now rewrite str_endswith_app.
  - rewrite RL, RP. now rewrite str_endswith_app.
  - rewrite SL, SP, SR. now rewrite str_endswith_app.
Qed.

(** X13: a kernel line that does not end in a newline, as the last line of
    a file without a final newline, is fatal even when it names a kernel:
    the message goes to stderr and the process exits with EXIT_FAILURE. *)
Theorem parse_kernel_str_needs_newline (p : string) (c : ascii) (w : World) :
  c <> ascii_of_nat 10 ->
  parse_kernel_str (p ++ String c EmptyString) w
  = (Exit EXIT_FAILURE, after_stderr (unknown_kernel (p ++ String c EmptyString)) w).
Proof.
  intros Hc.
  assert (Hend : forall y : string,
             str_endswith (p ++ String c EmptyString) (y ++ nl) = false).
  { intros y.
    apply (str_endswith_other_end p EmptyString y (String c EmptyString) nl).
    - reflexivity.
    - intros E. injection E as E. now destruct Hc. }
  unfold parse_kernel_str. rewrite !Hend. reflexivity.
Qed.

End KernelLine.

(** ** More on the grid file *)

Lemma skip_spaces_blanks (blanks s : string) :
  all_chars isspace blanks = true -> skip_spaces (blanks ++ s) = skip_spaces s.
Proof.
  induction blanks as [ | c blanks IH]; simpl; [reflexivity | ].
  intros Hb. apply andb_prop in Hb. destruct Hb as [Hc Hb].
  rewrite Hc. now apply IH.
Qed.

Lemma skip_spaces_all_blanks (blanks : string) :
  all_chars isspace blanks = true -> skip_spaces blanks = EmptyString.
Proof.
  induction blanks as [ | c blanks IH]; simpl; [reflexivity | ].
  intros Hb. apply andb_prop in Hb. destruct Hb as [Hc Hb].
  rewrite Hc. now apply IH.
Qed.

Lemma take_word_name (name tail : string) (c : ascii) :
  all_chars not_space name = true -> isspace c = true ->
  take_word (name ++ String c tail) = name.
Proof.
  induction name as [ | d name IH]; simpl; intros Hn Hc.
  - now rewrite Hc.
  - apply andb_prop in Hn. destruct Hn as [Hd Hn].
    unfold not_space in Hd. apply negb_true_iff in Hd. rewrite Hd.
    f_equal. now apply IH.
Qed.

Lemma sscanf_word_name (key blanks name tail : string) (c : ascii) :
  all_chars isspace blanks = true ->
  name <> EmptyString -> all_chars not_space name = true -> isspace c = true ->
  sscanf_word (key ++ blanks ++ name ++ String c tail) key = Some name.
Proof.
  intros Hb Hne Hn Hc. unfold sscanf_word.
  rewrite drop_app, (skip_spaces_blanks _ _ Hb).
  destruct name as [ | d name]; [now destruct Hne | ].
  assert (Hd : isspace d = false).
  { simpl in Hn. apply andb_prop in Hn. destruct Hn as [Hd _].
    now apply negb_true_iff in Hd. }
  change ((String d name ++ String c tail)%string)
    with (String d (name ++ String c tail)).
  cbn [skip_spaces]. rewrite Hd.
  change (String d (name ++ String c tail))
    with ((String d name ++ String c tail)%string).
  now rewrite (take_word_name _ _ _ Hn Hc).
Qed.

Lemma sscanf_word_blank (key blanks : string) :
  all_chars isspace blanks = true -> sscanf_word (key ++ blanks) key = None.
Proof.
  intros Hb. unfold sscanf_word.
  now rewrite drop_app, (skip_spaces_all_blanks _ Hb).
Qed.

Lemma values_count_nonneg (v : Values) : 0 <= values_count v.
Proof. destruct v; unfold values_count, count; lia. Qed.

Section GridFileMore.
Context `{Collaborators}.

(** X14: a line that starts with none of the fourteen keys changes nothing
    in the grid; it is reported on stderr and the reader goes on. *)
Theorem unknown_line_leaves_grid (buffer : string) (st : GenGrid * Buffers)
    (w : World) :
  known_key buffer = false ->
  read_grid_line buffer st w
  = (Ret st,
     after_stderr ("Cannot find any parameters on line: " ++ buffer ++ nl) w).
Proof.
  unfold known_key. cbn [existsb]. intros Hk.
  repeat (apply orb_false_elim in Hk; destruct Hk as [? Hk]).
  unfold read_grid_line.
  repeat match goal with
         | E : str_startswith buffer ?k = false |- _ => rewrite E; clear E
         end.
  destruct st as [grid bufs]. reflexivity.
Qed.

Lemma read_grid_line_bounds (buffer : string) (st st' : GenGrid * Buffers)
    (w w' : World) :
  counts_in_bounds (fst st) ->
  read_grid_line buffer st w = (Ret st', w') ->
  counts_in_bounds (fst st').
Proof.
  intros Hin Hrun k.
  destruct (str_startswith buffer (key_prefix k)) eqn:Ek.
  - pose proof (read_grid_line_own k buffer st st' w w' Ek Hrun) as Hown.
    destruct (applicable k (kerneltype (fst st))); destruct Hown as [Hv Hc];
      rewrite Hv, Hc.
    + pose proof (values_count_nonneg (parsed k buffer)). lia.
    + pose proof (values_count_nonneg (stored k (fst st))). lia.
  - destruct (read_grid_line_keeps k buffer st st' w w' Ek Hrun) as [Hv Hc].
    rewrite Hv, Hc. apply Hin.
Qed.

(** X15: the reader keeps every count of the grid within its array: if
    the counts of the grid it starts from are between 0 and the length of
    their arrays, so are those of the grid it returns, whatever the lines. *)
Theorem read_grid_lines_keep_counts_in_bounds (lines : list string) :
  forall (st st' : GenGrid * Buffers) (w w' : World),
    counts_in_bounds (fst st) ->
    read_grid_lines lines st w = (Ret st', w') ->
    counts_in_bounds (fst st').
Proof.
  induction lines as [ | l rest IH]; intros st st' w w' Hin Hrun.
  - cbn [read_grid_lines] in Hrun. unfold ret in Hrun.
    injection Hrun as <- _. exact Hin.
  - cbn [read_grid_lines] in Hrun.
    destruct (read_grid_line l st w) as [[st1 | s] w1] eqn:E1.
    + rewrite (bind_ret_eq _ _ _ _ _ _ _ E1) in Hrun.
      apply (IH st1 st' w1 w'); [ | exact Hrun].
      exact (read_grid_line_bounds l st st1 w w1 Hin E1).
    + rewrite (bind_exit_eq _ _ _ _ _ _ _ E1) in Hrun. discriminate Hrun.
Qed.

Lemma read_grid_line_frame (buffer : string) (st : GenGrid * Buffers)
    (w w' : World) (r : Result (GenGrid * Buffers)) :
  read_grid_line buffer st w = (r, w') ->
  stdout w' = stdout w /\
  GENSVM_OUTPUT_FILE w' = GENSVM_OUTPUT_FILE w /\
  GENSVM_ERROR_FILE w' = GENSVM_ERROR_FILE w /\
  (forall st', r = Ret st' -> traintype (fst st') = traintype (fst st)).
Proof.
  key_cases buffer.
  all: unfold parse_kernel_str, bind, ret, fprintf_stderr, write, exit.
  all: repeat match goal with
              | |- context [if ?c then _ else _] => destruct c
              end.
  all: intros E; inversion E; subst; clear E.
  all: repeat split; try reflexivity.
  all: intros st' E; inversion E; subst; reflexivity.
Qed.

Lemma read_grid_lines_frame (lines : list string) :
  forall (st : GenGrid * Buffers) (w w' : World) (r : Result (GenGrid * Buffers)),
    read_grid_lines lines st w = (r, w') ->
    stdout w' = stdout w /\
    GENSVM_OUTPUT_FILE w' = GENSVM_OUTPUT_FILE w /\
    GENSVM_ERROR_FILE w' = GENSVM_ERROR_FILE w /\
    (forall st', r = Ret st' -> traintype (fst st') = traintype (fst st)).
Proof.
  induction lines as [ | l rest IH]; intros st w w' r Hrun.
  - cbn [read_grid_lines] in Hrun. unfold ret in Hrun.
    injection Hrun as <- <-. repeat split; try (intros st' [= <-]; reflexivity).
  - cbn [read_grid_lines] in Hrun.
    destruct (read_grid_line l st w) as [[st1 | s] w1] eqn:E1.
    + rewrite (bind_ret_eq _ _ _ _ _ _ _ E1) in Hrun.
      destruct (read_grid_line_frame _ _ _ _ _ E1) as [S1 [O1 [R1 T1]]].
      destruct (IH _ _ _ _ Hrun) as [S2 [O2 [R2 T2]]].
      repeat split; try congruence.
      intros st' Hr. rewrite (T2 st' Hr). now apply T1.
    + rewrite (bind_exit_eq _ _ _ _ _ _ _ E1) in Hrun.
      injection Hrun as <- <-.
      destruct (read_grid_line_frame _ _ _ _ _ E1) as [S1 [O1 [R1 T1]]].
      repeat split; trivial; try (intros st' Hr; discriminate Hr).
Qed.

Lemma read_grid_lines_return (lines : list string) :
  forall (st : GenGrid * Buffers) (w : World),
    existsb unknown_kernel_line lines = false ->
    exists (st' : GenGrid * Buffers) (w' : World),
      read_grid_lines lines st w = (Ret st', w').
Proof.
  induction lines as [ | l rest IH]; intros st w Hno.
  - now exists st, w.
  - cbn [existsb] in Hno. apply orb_false_elim in Hno. destruct Hno as [Hl Hrest].
    destruct (read_grid_line_returns l st w Hl) as [st1 [w1 E1]].
    destruct (IH st1 w1 Hrest) as [st' [w' E]].
    exists st', w'. cbn [read_grid_lines].
    now rewrite (bind_ret_eq _ _ _ _ _ _ _ E1).
Qed.

(** X16: an unknown kernel is the only thing in a grid file that is fatal.
    A file that opens and has no such line gives a grid, whatever else its
    lines hold; the training type of that grid is CV, nothing was written
    to stdout and the streams of the library are as before. *)
Theorem read_grid_from_file_returns (input_filename : string) (grid : GenGrid)
    (lines : list string) (w : World) :
  fopen_r input_filename = Some lines ->
  existsb unknown_kernel_line lines = false ->
  exists (grid' : GenGrid) (w' : World),
    read_grid_from_file input_filename grid w = (Ret grid', w') /\
    traintype grid' = CV /\
    stdout w' = stdout w /\
    GENSVM_OUTPUT_FILE w' = GENSVM_OUTPUT_FILE w /\
    GENSVM_ERROR_FILE w' = GENSVM_ERROR_FILE w.
Proof.
  intros Hopen Hno.
  destruct (read_grid_lines_return lines
              (set_traintype CV grid, mkBuffers stack_garbage stack_garbage) w Hno)
    as [st' [w' E]].
  destruct (read_grid_lines_frame _ _ _ _ _ E) as [So [Ho [He Ht]]].
  exists (fst st'), w'.
  unfold read_grid_from_file. rewrite Hopen.
  rewrite (bind_ret_eq _ _ _ _ _ _ _ E).
  repeat split; trivial.
  now rewrite (Ht st' eq_refl).
Qed.

(** X17: a [kernel:] line changes the kernel of the grid and nothing else:
    the counts and values stored for gamma, coef and degree under an earlier
    kernel stay, also when the new kernel does not take them. *)
Theorem kernel_line_changes_only_kernel (buffer : string) (grid grid' : GenGrid)
    (bufs bufs' : Buffers) (w w' : World) :
  str_startswith buffer "kernel:" = true ->
  read_grid_line buffer (grid, bufs) w = (Ret (grid', bufs'), w') ->
  grid' = set_kerneltype (kerneltype grid') grid /\ bufs' = bufs /\ w' = w /\
  Ng grid' = Ng grid /\ Nc grid' = Nc grid /\ Nd grid' = Nd grid /\
  gammas grid' = gammas grid /\ coefs grid' = coefs grid /\
  degrees grid' = degrees grid.
Proof.
  intros Hk. expose_key Hk rest. run_keys.
  unfold parse_kernel_str, bind, ret, fprintf_stderr, write, exit.
  repeat match goal with
         | |- context [if ?c then _ else _] => destruct c
         end.
  all: intros E; inversion E; subst; clear E; repeat split.
Qed.

(** X18: a [train:] or [test:] line stores the first word after the key:
    blanks before it are skipped and it ends at the first blank, so that a
    file name cannot hold a blank.  A line with nothing but blanks after
    the key stores again the name that the buffer of the reader still holds
    from the line before. *)
Theorem data_file_line (blanks name tail : string) (c : ascii) (grid : GenGrid)
    (bufs : Buffers) (w : World) :
  all_chars isspace blanks = true ->
  (name <> EmptyString -> all_chars not_space name = true -> isspace c = true ->
   read_grid_line ("train:" ++ blanks ++ name ++ String c tail) (grid, bufs) w
   = (Ret (set_train_data_file (Some name) grid,
           mkBuffers name (test_filename bufs)), w) /\
   read_grid_line ("test:" ++ blanks ++ name ++ String c tail) (grid, bufs) w
   = (Ret (set_test_data_file (Some name) grid,
           mkBuffers (train_filename bufs) name), w)) /\
  read_grid_line ("train:" ++ blanks) (grid, bufs) w
  = (Ret (set_train_data_file (Some (train_filename bufs)) grid,
          mkBuffers (train_filename bufs) (test_filename bufs)), w) /\
  read_grid_line ("test:" ++ blanks) (grid, bufs) w
  = (Ret (set_test_data_file (Some (test_filename bufs)) grid,
          mkBuffers (train_filename bufs) (test_filename bufs)), w).
Proof.
  intros Hb. split; [intros Hne Hn Hc; split | split].
  - pose proof (sscanf_word_name "train:" blanks name tail c Hb Hne Hn Hc) as E.
    unfold read_grid_line. cbn [append str_startswith Ascii.eqb Bool.eqb] in *.
    now rewrite E.
  - pose proof (sscanf_word_name "test:" blanks name tail c Hb Hne Hn Hc) as E.
    unfold read_grid_line. cbn [append str_startswith Ascii.eqb Bool.eqb] in *.
    now rewrite E.
  - pose proof (sscanf_word_blank "train:" blanks Hb) as E.
    unfold read_grid_line. cbn [append str_startswith Ascii.eqb Bool.eqb] in *.
    now rewrite E.
  - pose proof (sscanf_word_blank "test:" blanks Hb) as E.
    unfold read_grid_line. cbn [append str_startswith Ascii.eqb Bool.eqb] in *.
    now rewrite E.
Qed.

End GridFileMore.

(** ** What [main] writes and calls *)

Section MainOutput.
Context `{Collaborators}.

Lemma emits_read_data (o e : option Stream) (libsvm_format : bool)
    (file : option string) (data : GenData) :
  (if libsvm_format then gensvm_read_data_libsvm file else gensvm_read_data file)
  = Some data ->
  emits o e (read_data libsvm_format file) (Ret data) [] []
    [call_read_data libsvm_format file].
Proof.
  intros Hread. unfold read_data. rewrite Hread.
  eapply emits_eq; [repeat emits_step | reflexivity | reflexivity | reflexivity].
Qed.

Lemma emits_main_load_quiet (argv : list string) (grid : GenGrid)
    (train_data : GenData) (test_data : option GenData) :
  load_data argv grid = Some (train_data, test_data) ->
  emits None None (main_load argv grid) (Ret (train_data, test_data)) [] []
    (read_calls argv grid).
Proof.
  unfold load_data, main_load, read_calls. cbv zeta.
  destruct (gensvm_check_argv argv "-x") eqn:Ex; cbv beta iota.
  all: match goal with
       | |- context [match ?r (train_data_file ?g) with _ => _ end] =>
           destruct (r (train_data_file g)) as [tr | ] eqn:Etr;
           [ | intros Hbad; discriminate Hbad]
       end.
  all: match goal with
       | |- context [test_data_file ?g] => destruct (test_data_file g) as [file | ]
       end.
  all: try match goal with
           | |- context [match ?r (Some ?f) with _ => _ end] =>
               destruct (r (Some f)) as [te | ] eqn:Ete;
               [ | intros Hbad; discriminate Hbad]
           end.
  all: intros [= <- <-].
  all: eapply emits_eq;
    [ eapply emits_bind_ret; [apply emits_note | ];
      eapply emits_bind_ret; [apply emits_read_data; exact Etr | ];
      first [ apply emits_ret
            | eapply emits_bind_ret;
              [apply emits_read_data; exact Ete | apply emits_ret] ]
    | reflexivity | reflexivity | reflexivity ].
Qed.

Lemma emits_main_dense_train_quiet (grid : GenGrid) (train_data : GenData) :
  exists (data : GenData) (cs : list Call),
    emits None None (main_dense_train grid train_data) (Ret data) [] [] cs.
Proof.
  unfold main_dense_train.
  destruct (is_NULL (Z_ train_data) && negb (KernelType_eqb (kerneltype grid) K_LINEAR)).
  - eexists. eexists.
    eapply emits_eq; [repeat emits_step | reflexivity | reflexivity | reflexivity].
  - eexists. eexists. apply emits_ret.
Qed.

Lemma emits_main_dense_test_quiet (best_model : GenModel) (test_data : GenData) :
  exists (data : GenData) (cs : list Call),
    emits None None (main_dense_test best_model test_data) (Ret data) [] [] cs.
Proof.
  unfold main_dense_test.
  destruct (is_NULL (Z_ test_data)
            && negb (KernelType_eqb (model_kerneltype best_model) K_LINEAR)).
  - eexists. eexists.
    eapply emits_eq; [repeat emits_step | reflexivity | reflexivity | reflexivity].
  - eexists. eexists. apply emits_ret.
Qed.

Lemma emits_main_select (o e : option Stream) (seed : Z) (grid : GenGrid)
    (q : GenQueue) :
  emits o e (main_select seed grid q)
    (Ret (if (0 <? repeats grid)%Z
          then gensvm_consistency_repeats seed q (repeats grid) (percentile grid)
          else simple_selection q))
    [] []
    (if (0 <? repeats grid)%Z
     then [call_consistency_repeats q (repeats grid) (percentile grid)]
     else []).
Proof.
  unfold main_select. destruct (0 <? repeats grid)%Z.
  - eapply emits_eq; [repeat emits_step | reflexivity | reflexivity | reflexivity].
  - apply emits_ret.
Qed.

Lemma emits_print_labels (o e : option Stream) (predy : list Z) :
  emits o e (print_labels predy) (Ret tt)
    (map (fun l => (fmt_li l ++ " ")%string) predy) [] [].
Proof.
  induction predy as [ | l rest IH]; cbn [print_labels map].
  - apply emits_ret.
  - eapply emits_eq;
      [ eapply emits_bind_ret; [apply emits_printf | exact IH]
      | reflexivity | reflexivity | reflexivity ].
Qed.

(** X19: the predicted labels are written to stdout with [printf], in quiet
    mode as well.  With both streams of the library NULL and no [-o], the
    block of [main] that predicts writes to stdout one entry per predicted
    label, in order, each followed by a blank, then a newline, and nothing
    to stderr; with [-o] it writes nothing at all. *)
Theorem main_predict_prints_labels (argv : list string) (out : option string)
    (q : GenQueue) (best_ID : Z) (train_data test_data : GenData) :
  exists (model : GenModel) (data : GenData) (cs : list Call),
    emits None None (main_predict argv out q best_ID train_data test_data) (Ret tt)
      (if gensvm_check_argv_eq argv "-o" then []
       else (map (fun l => (fmt_li l ++ " ")%string)
               (gensvm_predict_labels data model) ++ [nl])%list)
      [] cs /\
    In (call_predict_labels data model) cs.
Proof.
  unfold main_predict. cbv zeta.
  set (best_task := find_best_task (tasks q) best_ID None).
  set (trained := gensvm_train (gensvm_task_to_model best_task) train_data).
  destruct (emits_main_dense_test_quiet (fst trained) test_data) as [td [cs1 Hdense]].
  set (post := gensvm_kernel_postprocess (fst trained) (snd trained) td).
  exists (fst (fst post)), (snd post). eexists. split.
  - eapply emits_eq.
    + eapply emits_bind_ret; [apply emits_call | ].
      eapply emits_bind_ret; [apply emits_call | ].
      eapply emits_bind_ret; [exact Hdense | ].
      fold post.
      eapply emits_bind_ret; [apply emits_call | ].
      eapply emits_bind_ret; [apply emits_call | ].
      eapply emits_bind_ret.
      * eapply emits_if; [apply emits_ret | ].
        eapply emits_bind_ret; [apply emits_call | apply emits_note].
      * eapply emits_if.
        -- eapply emits_bind_ret; [apply emits_call | apply emits_note].
        -- eapply emits_bind_ret; [apply emits_print_labels | apply emits_printf].
    + cbn [app sent]. destruct (is_NULL (y (snd post)));
        destruct (gensvm_check_argv_eq argv "-o"); reflexivity.
    + cbn [app sent]. destruct (is_NULL (y (snd post)));
        destruct (gensvm_check_argv_eq argv "-o"); reflexivity.
    + reflexivity.
  - apply in_or_app. right. apply in_or_app. right. apply in_or_app. right.
    right. now left.
Qed.

(** X20: in quiet mode and without test data [main], from the reading of
    the data on, writes nothing to stdout and nothing to stderr, whether it
    returns or exits on bad labels. *)
Theorem main_run_quiet_is_silent (argv : list string) (seed : Z)
    (out : option string) (grid : GenGrid) (train_data : GenData) :
  load_data argv grid = Some (train_data, None) ->
  exists (r : Result Z) (cs : list Call),
    emits None None (main_run argv seed out grid) r [] [] cs /\
    (r = Ret 0 \/ r = Exit EXIT_FAILURE).
Proof.
  intros Hload. unfold main_run.
  pose proof (emits_main_load_quiet argv grid _ _ Hload) as Hl.
  destruct (gensvm_check_outcome_contiguous train_data) eqn:Hcheck.
  - destruct (emits_main_dense_train_quiet grid train_data) as [tr [cs1 Hdense]].
    exists (Ret 0). eexists. split; [ | now left].
    eapply emits_eq.
    + eapply emits_bind_ret; [exact Hl | ]. cbn [fst snd]. rewrite Hcheck.
      cbn [negb].
      eapply emits_bind_ret; [apply emits_call | ].
      eapply emits_bind_ret; [apply emits_call | ].
      unfold main_search.
      eapply emits_bind_ret; [exact Hdense | ].
      cbv zeta.
      repeat first [ apply emits_main_select | emits_step ].
    + reflexivity.
    + reflexivity.
    + reflexivity.
  - exists (Exit EXIT_FAILURE). eexists. split; [ | now right].
    eapply emits_eq.
    + eapply emits_bind_ret; [exact Hl | ]. cbn [fst snd]. rewrite Hcheck.
      cbn [negb].
      repeat emits_step.
    + reflexivity.
    + reflexivity.
    + reflexivity.
Qed.

Lemma runs_main_select_calls (seed : Z) (grid : GenGrid) (q : GenQueue) :
  runs (main_select seed grid q)
    (if (0 <? repeats grid)%Z
     then gensvm_consistency_repeats seed q (repeats grid) (percentile grid)
     else simple_selection q)
    (if (0 <? repeats grid)%Z
     then [call_consistency_repeats q (repeats grid) (percentile grid)]
     else []).
Proof.
  unfold main_select. destruct (0 <? repeats grid)%Z.
  - eapply runs_eq; [repeat runs_step | reflexivity].
  - apply runs_ret.
Qed.

(** X21: without a test file and with good labels [main] returns 0, and
    of the recorded calls (the reading of data, the label check, the
    conversion and release of sparse data, the queue, the seeding, the
    training, the selection, the prediction) it makes exactly these, in this
    order: the reading of the training data, the two label checks, the
    conversion of sparse data when the kernel is not linear, the filling of
    the queue, the seeding, the training of the queue, and the consistency
    repeats when [repeats] is positive.  No final model is trained and
    nothing is predicted.  The allocation and release of the structures
    ([gensvm_init_*], [gensvm_free_data], [gensvm_free_queue],
    [gensvm_free_grid]) are not recorded. *)
Theorem main_run_without_test_data (argv : list string) (seed : Z)
    (out : option string) (grid : GenGrid) (train_data : GenData) :
  load_data argv grid = Some (train_data, None) ->
  gensvm_check_outcome_contiguous train_data = true ->
  let sparse := is_NULL (Z_ train_data)
                && negb (KernelType_eqb (kerneltype grid) K_LINEAR) in
  let tr := if sparse then dense_train train_data else train_data in
  let q := gensvm_fill_queue grid tr None in
  runs (main_run argv seed out grid) 0
    (read_calls argv grid
     ++ [call_check_outcome_contiguous train_data;
         call_check_outcome_contiguous train_data]
     ++ (if sparse
         then [call_sparse_to_dense (spZ train_data); call_free_sparse (spZ train_data)]
         else [])
     ++ [call_fill_queue grid tr None; call_srand seed; call_train_queue q]
     ++ (if (0 <? repeats grid)%Z
         then [call_consistency_repeats (gensvm_train_queue seed q)
                 (repeats grid) (percentile grid)]
         else []))%list.
Proof.
  intros Hload Hcheck sparse tr q. unfold main_run.
  eapply runs_eq.
  - eapply runs_bind; [exact (runs_main_load argv grid _ _ Hload) | ].
    cbn [fst snd]. rewrite Hcheck. cbn [negb].
    eapply runs_bind; [apply runs_call | ].
    eapply runs_bind; [apply runs_call | ].
    unfold main_search.
    eapply runs_bind; [apply runs_main_dense_train | ].
    fold sparse. fold tr. cbv zeta. fold q.
    repeat first [ apply runs_main_select_calls | runs_step ].
  - cbn [app]. rewrite !app_nil_r. reflexivity.
Qed.

End MainOutput.

(** ** The exit status *)

Section EndsWell.
Context `{Matrices}.

Lemma ends_well_ret (A : Type) (ok : A -> Prop) (a : A) :
  ok a -> ends_well ok (ret a).
Proof. intros Hok w w' r [= <- <-]. exact Hok. Qed.

Lemma ends_well_exit (A : Type) (ok : A -> Prop) :
  ends_well ok (@exit _ A EXIT_FAILURE).
Proof. intros w w' r [= <- <-]. reflexivity. Qed.

Lemma ends_well_write (s : Stream) (msg : string) : ends_well anything (write s msg).
Proof. intros w w' r [= <- <-]. exact I. Qed.

Lemma ends_well_note (msg : string) : ends_well anything (note msg).
Proof.
  intros w w' r. unfold note.
  destruct (GENSVM_OUTPUT_FILE w); intros [= <- <-]; exact I.
Qed.

Lemma ends_well_err (msg : string) : ends_well anything (err msg).
Proof.
  intros w w' r. unfold err.
  destruct (GENSVM_ERROR_FILE w); intros [= <- <-]; exact I.
Qed.

Lemma ends_well_call (c : Call) : ends_well anything (call c).
Proof. intros w w' r [= <- <-]. exact I. Qed.

Lemma ends_well_set_streams (o e : option Stream) :
  ends_well anything (set_streams o e).
Proof. intros w w' r [= <- <-]. exact I. Qed.

Lemma ends_well_bind (A B : Type) (okA : A -> Prop) (okB : B -> Prop)
    (c : M A) (k : A -> M B) :
  ends_well okA c -> (forall a, ends_well okB (k a)) -> ends_well okB (bind c k).
Proof.
  intros Hc Hk w w' r. unfold bind.
  destruct (c w) as [[a | s] w1] eqn:E.
  - apply Hk.
  - intros [= <- <-]. exact (Hc _ _ _ E).
Qed.

Lemma ends_well_if (A : Type) (ok : A -> Prop) (b : bool) (c1 c2 : M A) :
  ends_well ok c1 -> ends_well ok c2 -> ends_well ok (if b then c1 else c2).
Proof. now destruct b. Qed.

End EndsWell.

Ltac ends_well_step :=
  lazymatch goal with
  | |- ends_well anything (ret _) => apply ends_well_ret; exact I
  | |- ends_well ?ok (ret _) => is_evar ok; apply (ends_well_ret _ anything); exact I
  | |- ends_well _ (exit EXIT_FAILURE) => apply ends_well_exit
  | |- ends_well _ (printf _) => apply ends_well_write
  | |- ends_well _ (fprintf_stderr _) => apply ends_well_write
  | |- ends_well _ (note _) => apply ends_well_note
  | |- ends_well _ (err _) => apply ends_well_err
  | |- ends_well _ (call _) => apply ends_well_call
  | |- ends_well _ (set_streams _ _) => apply ends_well_set_streams
  | |- ends_well _ (bind _ _) =>
      eapply ends_well_bind; [ | intros ? ]
  | |- ends_well _ (if _ then _ else _) => apply ends_well_if
  end.

Section ExitStatus.
Context `{Collaborators}.

Lemma ends_well_exit_with_help (A : Type) (ok : A -> Prop) (argv : list string) :
  ends_well ok (@exit_with_help _ _ A argv).
Proof. unfold exit_with_help. repeat ends_well_step. Qed.

Lemma ends_well_parse_command_line_loop (argv : list string) (fuel : nat) :
  forall (args : list string) (seed : Z) (out : option string),
    (List.length args <= fuel)%nat ->
    ends_well anything (parse_command_line_loop argv args seed out).
Proof.
  induction fuel as [ | fuel IH]; intros args seed out Hlen;
    (destruct args as [ | a rest];
     [rewrite parse_command_line_loop_nil; apply ends_well_exit_with_help
     | cbn [List.length] in Hlen]);
    [lia | ].
  rewrite parse_command_line_loop_cons.
  apply ends_well_if; [apply ends_well_ret; exact I | ].
  destruct rest as [ | b rest']; [apply ends_well_exit_with_help | ].
  cbn [List.length] in Hlen.
  apply ends_well_if; [apply IH; lia | ].
  apply ends_well_if.
  { eapply ends_well_bind; [apply ends_well_set_streams | intros _].
    apply IH. cbn [List.length]. lia. }
  apply ends_well_if; [apply IH; cbn [List.length]; lia | ].
  apply ends_well_if; [apply IH; lia | ].
  eapply ends_well_bind; [apply ends_well_write | intros _].
  apply ends_well_exit_with_help.
Qed.

Lemma ends_well_parse_command_line (argv : list string) (out : option string) :
  ends_well anything (parse_command_line argv out).
Proof.
  unfold parse_command_line.
  eapply ends_well_bind; [apply ends_well_set_streams | intros _].
  now apply (ends_well_parse_command_line_loop argv (List.length (tl argv))).
Qed.

Lemma ends_well_parse_kernel_str (kernel_line : string) :
  ends_well anything (parse_kernel_str kernel_line).
Proof. unfold parse_kernel_str. repeat ends_well_step. Qed.

Lemma ends_well_read_grid_line (buffer : string) (st : GenGrid * Buffers) :
  ends_well anything (read_grid_line buffer st).
Proof.
  unfold read_grid_line.
  repeat lazymatch goal with
         | |- ends_well _ (parse_kernel_str _) => apply ends_well_parse_kernel_str
         | _ => ends_well_step
         end.
Qed.

Lemma ends_well_read_grid_lines (lines : list string) :
  forall st : GenGrid * Buffers, ends_well anything (read_grid_lines lines st).
Proof.
  induction lines as [ | l rest IH]; intros st; cbn [read_grid_lines].
  - apply ends_well_ret. exact I.
  - eapply ends_well_bind; [apply ends_well_read_grid_line | exact IH].
Qed.

Lemma ends_well_read_grid_from_file (input_filename : string) (grid : GenGrid) :
  ends_well anything (read_grid_from_file input_filename grid).
Proof.
  unfold read_grid_from_file. destruct (fopen_r input_filename).
  - eapply ends_well_bind; [apply ends_well_read_grid_lines | intros st].
    apply ends_well_ret. exact I.
  - repeat ends_well_step.
Qed.

Lemma ends_well_read_data (libsvm_format : bool) (file : option string) :
  ends_well anything (read_data libsvm_format file).
Proof.
  unfold read_data.
  eapply ends_well_bind; [apply ends_well_call | intros _].
  destruct (if libsvm_format then _ else _).
  - apply ends_well_ret. exact I.
  - apply ends_well_exit.
Qed.

Lemma ends_well_print_labels (predy : list Z) :
  ends_well anything (print_labels predy).
Proof.
  induction predy as [ | l rest IH]; cbn [print_labels].
  - apply ends_well_ret. exact I.
  - eapply ends_well_bind; [apply ends_well_write | intros _; exact IH].
Qed.

Ltac main_ends_well :=
  repeat lazymatch goal with
         | |- ends_well _ (read_data _ _) => apply ends_well_read_data
         | |- ends_well _ (print_labels _) => apply ends_well_print_labels
         | |- ends_well _ (match ?x with Some _ => _ | None => _ end) => destruct x
         | _ => ends_well_step
         end.

Lemma ends_well_main_predict (argv : list string) (out : option string)
    (q : GenQueue) (best_ID : Z) (train_data test_data : GenData) :
  ends_well anything (main_predict argv out q best_ID train_data test_data).
Proof. unfold main_predict, main_dense_test. cbv zeta. main_ends_well. Qed.

Lemma ends_well_main_search (argv : list string) (seed : Z) (out : option string)
    (grid : GenGrid) (train_data : GenData) (test_data : option GenData) :
  ends_well (fun status => status = 0) (main_search argv seed out grid train_data test_data).
Proof.
  unfold main_search. cbv zeta.
  eapply ends_well_bind.
  { unfold main_dense_train. main_ends_well. }
  intros tr.
  eapply ends_well_bind; [apply ends_well_note | intros _].
  eapply ends_well_bind; [apply ends_well_call | intros _].
  eapply ends_well_bind; [apply ends_well_call | intros _].
  eapply ends_well_bind; [apply ends_well_note | intros _].
  eapply ends_well_bind; [apply ends_well_call | intros _].
  eapply ends_well_bind; [apply ends_well_note | intros _].
  eapply ends_well_bind.
  { unfold main_select. apply ends_well_if.
    - eapply ends_well_bind; [apply ends_well_call | intros _].
      apply (ends_well_ret _ anything). exact I.
    - apply (ends_well_ret _ anything). exact I. }
  intros best_ID.
  eapply ends_well_bind.
  { destruct test_data as [td | ].
    - apply ends_well_main_predict.
    - apply (ends_well_ret _ anything). exact I. }
  intros _.
  eapply ends_well_bind; [apply ends_well_note | intros _].
  now apply ends_well_ret.
Qed.

(** X22: [main] returns only 0, and whenever the process is ended instead,
    by the help, a bad command line, a grid file that cannot be opened, an
    unknown kernel, data that cannot be read or bad labels, the exit status
    is EXIT_FAILURE. *)
Theorem main_status (argv : list string) (w w' : World) (r : Result Z) :
  main argv w = (r, w') -> r = Ret 0 \/ r = Exit EXIT_FAILURE.
Proof.
  assert (Hmain : ends_well (fun status => status = 0) (main argv)).
  { unfold main. apply ends_well_if; [apply ends_well_exit_with_help | ].
    eapply ends_well_bind; [apply ends_well_parse_command_line | intros res].
    eapply ends_well_bind; [apply ends_well_note | intros _].
    eapply ends_well_bind; [apply ends_well_read_grid_from_file | intros grid].
    unfold main_run.
    eapply ends_well_bind.
    { unfold main_load. cbv zeta. main_ends_well. }
    intros data.
    eapply ends_well_bind; [apply ends_well_call | intros _].
    eapply ends_well_bind; [apply ends_well_call | intros _].
    apply ends_well_if.
    - eapply ends_well_bind; [apply ends_well_err | intros _].
      apply ends_well_exit.
    - apply ends_well_main_search. }
  intros Hrun. specialize (Hmain w w' r Hrun).
  destruct r as [a | s]; [left | right]; now rewrite Hmain.
Qed.

End ExitStatus.

(** ** The further properties on concrete inputs *)

Lemma main_help_witness :
  exists w' : World,
    @main _ (Sample.library K_LINEAR) ["GenSVMgrid"] Sample.world0
    = (Exit EXIT_FAILURE, w') /\
    stdout w'
    = (stdout Sample.world0
       ++ @help_text _ (Sample.library K_LINEAR) ["GenSVMgrid"])%list /\
    stderr w' = stderr Sample.world0 /\ calls w' = calls Sample.world0.
Proof.
  apply (@main_help _ (Sample.library K_LINEAR) ["GenSVMgrid"] Sample.world0).
  left. cbn. lia.
Defined.


Lemma parse_command_line_streams_witness :
  streams_paired (@mkWorld Sample.matrices None None [] [] []) /\
  ((forall a, In a (tl ["GenSVMgrid"; "-q"; "grid.txt"]) -> char_at 1 a <> "q"%char) ->
   GENSVM_OUTPUT_FILE (@mkWorld Sample.matrices None None [] [] []) = Some c_stdout /\
   GENSVM_ERROR_FILE (@mkWorld Sample.matrices None None [] [] []) = Some c_stderr).
Proof.
  apply (@parse_command_line_streams _ (Sample.library K_LINEAR)
           ["GenSVMgrid"; "-q"; "grid.txt"] None Sample.world0
           (@mkWorld Sample.matrices None None [] [] []) (Ret (0, "grid.txt", None))).
  reflexivity.
Defined.

Lemma parse_command_line_needs_grid_file_witness :
  exists w' : World,
    @parse_command_line _ (Sample.library K_LINEAR) ["GenSVMgrid"; "-q"] None
      Sample.world0
    = (Exit EXIT_FAILURE, w').
Proof.
  apply (@parse_command_line_needs_grid_file _ (Sample.library K_LINEAR)
           ["GenSVMgrid"; "-q"] None Sample.world0).
  intros a [<- | []]. reflexivity.
Defined.

Lemma parse_command_line_unknown_option_witness :
  exists w' : World,
    @parse_command_line _ (Sample.library K_LINEAR)
      ["GenSVMgrid"; "-k"; "v"; "grid.txt"] None Sample.world0
    = (Exit EXIT_FAILURE, w') /\
    stderr w'
    = (stderr Sample.world0
       ++ [("Unknown option: -" ++ String (char_at 1 "-k") EmptyString ++ nl)%string])%list /\
    stdout w'
    = (stdout Sample.world0
       ++ @help_text _ (Sample.library K_LINEAR)
            ["GenSVMgrid"; "-k"; "v"; "grid.txt"])%list.
Proof.
  apply (@parse_command_line_unknown_option _ (Sample.library K_LINEAR)
           "GenSVMgrid" "-k" "v" ["grid.txt"] None Sample.world0).
  - reflexivity.
  - intros [E | [E | [E | [E | []]]]]; discriminate E.
Defined.

Lemma parse_command_line_quiet_first_witness :
  exists w2 : World,
    @parse_command_line _ (Sample.library K_LINEAR)
      ["GenSVMgrid"; "-q"; "-z"; "5"; "grid.txt"] None Sample.world0
    = (Ret (5, "grid.txt", None), w2) /\
    GENSVM_OUTPUT_FILE w2 = None /\ GENSVM_ERROR_FILE w2 = None.
Proof.
  apply (@parse_command_line_quiet_first _ (Sample.library K_LINEAR)
           "GenSVMgrid" ["-z"; "5"; "grid.txt"] None Sample.world0
           (@mkWorld Sample.matrices (Some c_stdout) (Some c_stderr) [] [] [])).
  reflexivity.
Defined.

Lemma parse_kernel_str_needs_newline_witness :
  @parse_kernel_str Sample.matrices "kernel: LINEAR" Sample.world0
  = (Exit EXIT_FAILURE, after_stderr (unknown_kernel "kernel: LINEAR") Sample.world0).
Proof.
  apply (@parse_kernel_str_needs_newline Sample.matrices
           "kernel: LINEA" "R"%char Sample.world0).
  discriminate.
Defined.

Lemma unknown_line_leaves_grid_witness :
  @read_grid_line _ (Sample.library K_LINEAR) ("foo" ++ nl)
    (Sample.empty_grid, Sample.buffers0) Sample.world0
  = (Ret (Sample.empty_grid, Sample.buffers0),
     after_stderr ("Cannot find any parameters on line: " ++ ("foo" ++ nl) ++ nl)
       Sample.world0).
Proof.
  apply (@unknown_line_leaves_grid _ (Sample.library K_LINEAR) ("foo" ++ nl)
           (Sample.empty_grid, Sample.buffers0) Sample.world0).
  reflexivity.
Defined.

Lemma read_grid_lines_keep_counts_in_bounds_witness :
  counts_in_bounds
    (set_Ng 0 (set_kerneltype K_LINEAR (set_gammas [d_0_1] 1 Sample.empty_grid))).
Proof.
  apply (@read_grid_lines_keep_counts_in_bounds _ (Sample.library K_LINEAR)
           ["kernel: RBF" ++ nl; "gamma: 0.1" ++ nl; "kernel: LINEAR" ++ nl;
            "gamma: 0.2" ++ nl]
           (Sample.empty_grid, Sample.buffers0)
           (set_Ng 0 (set_kerneltype K_LINEAR (set_gammas [d_0_1] 1 Sample.empty_grid)),
            Sample.buffers0)
           Sample.world0 (after_stderr gamma_ignored Sample.world0)).
  - intros k. destruct k; cbn; lia.
  - vm_compute. reflexivity.
Defined.

Lemma read_grid_from_file_returns_witness :
  exists (grid' : GenGrid) (w' : World),
    @read_grid_from_file _ (Sample.library K_LINEAR) "rbf.txt"
      (set_traintype TT Sample.empty_grid) Sample.world0
    = (Ret grid', w') /\
    traintype grid' = CV /\
    stdout w' = stdout Sample.world0 /\
    GENSVM_OUTPUT_FILE w' = GENSVM_OUTPUT_FILE Sample.world0 /\
    GENSVM_ERROR_FILE w' = GENSVM_ERROR_FILE Sample.world0.
Proof.
  apply (@read_grid_from_file_returns _ (Sample.library K_LINEAR) "rbf.txt"
           (set_traintype TT Sample.empty_grid)
           ["kernel: RBF" ++ nl; "gamma: 0.1" ++ nl; "gamma: 0.2 0.1" ++ nl;
            "folds: 5" ++ nl]
           Sample.world0); reflexivity.
Defined.

Lemma kernel_line_changes_only_kernel_witness :
  set_kerneltype K_LINEAR (set_gammas [d_0_1] 1 Sample.empty_grid)
  = set_kerneltype
      (kerneltype (set_kerneltype K_LINEAR (set_gammas [d_0_1] 1 Sample.empty_grid)))
      (set_kerneltype K_RBF (set_gammas [d_0_1] 1 Sample.empty_grid)) /\
  Ng (set_kerneltype K_LINEAR (set_gammas [d_0_1] 1 Sample.empty_grid)) = 1.
Proof.
  destruct (@kernel_line_changes_only_kernel _ (Sample.library K_LINEAR)
              ("kernel: LINEAR" ++ nl)
              (set_kerneltype K_RBF (set_gammas [d_0_1] 1 Sample.empty_grid))
              (set_kerneltype K_LINEAR (set_gammas [d_0_1] 1 Sample.empty_grid))
              Sample.buffers0 Sample.buffers0 Sample.world0 Sample.world0
              eq_refl eq_refl)
    as [Hg [_ [_ [HNg _]]]].
  split; [exact Hg | exact HNg].
Defined.

Lemma data_file_line_witness :
  @read_grid_line _ (Sample.library K_LINEAR)
    ("train:" ++ "  " ++ "my" ++ String " "%char ("data.txt" ++ nl))
    (Sample.empty_grid, Sample.buffers0) Sample.world0
  = (Ret (set_train_data_file (Some "my") Sample.empty_grid,
          mkBuffers "my" (test_filename Sample.buffers0)), Sample.world0).
Proof.
  apply (proj1 (@data_file_line _ (Sample.library K_LINEAR) "  " "my"
                  ("data.txt" ++ nl) " "%char Sample.empty_grid Sample.buffers0
                  Sample.world0 eq_refl)).
  - discriminate.
  - reflexivity.
  - reflexivity.
Defined.

Lemma main_run_quiet_is_silent_witness :
  exists (r : Result Z) (cs : list Call),
    emits None None
      (@main_run _ (Sample.library K_LINEAR) ["GenSVMgrid"; "-q"; "grid.txt"] 0 None
         (set_train_data_file (Some "gap.txt") Sample.empty_grid))
      r [] [] cs /\
    (r = Ret 0 \/ r = Exit EXIT_FAILURE).
Proof.
  apply (@main_run_quiet_is_silent _ (Sample.library K_LINEAR)
           ["GenSVMgrid"; "-q"; "grid.txt"] 0 None
           (set_train_data_file (Some "gap.txt") Sample.empty_grid)
           Sample.gap_data).
  reflexivity.
Defined.

Lemma main_run_without_test_data_witness :
  runs (@main_run _ (Sample.library K_RBF) ["GenSVMgrid"; "grid.txt"] 7 None
          (set_repeats 2
             (set_kerneltype K_RBF
                (set_train_data_file (Some "sparse.txt") Sample.empty_grid))))
    0
    [call_read_data false (Some "sparse.txt");
     call_check_outcome_contiguous Sample.sparse_data;
     call_check_outcome_contiguous Sample.sparse_data;
     call_sparse_to_dense (spZ Sample.sparse_data);
     call_free_sparse (spZ Sample.sparse_data);
     call_fill_queue
       (set_repeats 2
          (set_kerneltype K_RBF
             (set_train_data_file (Some "sparse.txt") Sample.empty_grid)))
       (@dense_train _ (Sample.library K_RBF) Sample.sparse_data) None;
     call_srand 7;
     call_train_queue queue_3_5_5_2;
     call_consistency_repeats queue_3_5_5_2 2 d_zero].
Proof.
  apply (@main_run_without_test_data _ (Sample.library K_RBF)
           ["GenSVMgrid"; "grid.txt"] 7 None
           (set_repeats 2
              (set_kerneltype K_RBF
                 (set_train_data_file (Some "sparse.txt") Sample.empty_grid)))
           Sample.sparse_data); reflexivity.
Defined.

Lemma main_status_witness :
  fst (@main _ (Sample.library K_LINEAR) ["GenSVMgrid"; "other.txt"] Sample.world0)
  = Ret 0
  \/ fst (@main _ (Sample.library K_LINEAR) ["GenSVMgrid"; "other.txt"] Sample.world0)
     = Exit EXIT_FAILURE.
Proof.
  apply (@main_status _ (Sample.library K_LINEAR) ["GenSVMgrid"; "other.txt"]
           Sample.world0
           (snd (@main _ (Sample.library K_LINEAR) ["GenSVMgrid"; "other.txt"]
                   Sample.world0))).
  vm_compute. reflexivity.
Defined.
